(** * Proma chat orchestration: history filter, provider adapters, sendMessage

    A shallow embedding of
      - apps/electron/src/main/lib/chat-service.ts
          (filterHistory, executeMemoryToolCall, sendMessage),
      - packages/core/src/providers/anthropic-adapter.ts and
        packages/core/src/providers/google-adapter.ts
          (parseSSELine, buildTitleRequest),
    together with the properties the specification states about them.

    Further parts of the same files follow: the registry of running
    generations (stopGeneration, stopAllGenerations), the document
    attachments (enrichMessageWithDocuments, enrichHistoryWithDocuments),
    generateTitle, parseTitleResponse and buildStreamRequest of the two
    adapters, and callApi of memos-client.ts, with properties read off the
    code. *)

From Stdlib Require Import ZArith NArith List Bool String Ascii Lia.
From stdpp Require Import base option list gmap.
Import ListNotations.

Set Warnings "-register-all".

Local Open Scope Z_scope.

(* ===================================================================== *)
(** * JavaScript strings *)
(* ===================================================================== *)

Module JS.

(** A JavaScript string is a sequence of UTF-16 code units. *)
Abbreviation jsstring := (list N) (only parsing).

(** An ASCII literal of the source as a JavaScript string. *)
Definition lit (s : string) : jsstring :=
  List.map N_of_ascii (list_ascii_of_string s).

(** [a + b] on strings, template literals. *)
Definition strcat (a b : jsstring) : jsstring := (a ++ b)%list.

(** ECMAScript WhiteSpace and LineTerminator code points, the characters
    [String.prototype.trim] strips.  All of them lie in the basic plane, so
    the test on code units is exact. *)
Definition isWhiteSpace (c : N) : bool :=
  ((c =? 0x09) || (c =? 0x0A) || (c =? 0x0B) || (c =? 0x0C) || (c =? 0x0D)
   || (c =? 0x20) || (c =? 0xA0) || (c =? 0x1680)
   || ((0x2000 <=? c) && (c <=? 0x200A))
   || (c =? 0x2028) || (c =? 0x2029) || (c =? 0x202F) || (c =? 0x205F)
   || (c =? 0x3000) || (c =? 0xFEFF))%N.

Fixpoint trimStart (s : jsstring) : jsstring :=
  match s with
  | [] => []
  | c :: r => if isWhiteSpace c then trimStart r else s
  end.

Definition trimEnd (s : jsstring) : jsstring := rev (trimStart (rev s)).

(** [s.trim()] *)
Definition trim (s : jsstring) : jsstring := trimEnd (trimStart s).

(** Truthiness of a string: every string but the empty one. *)
Definition truthy (s : jsstring) : bool :=
  match s with [] => false | _ :: _ => true end.

(** [===] on strings. *)
Definition streq (a b : jsstring) : bool := bool_decide (a = b).

(** [Array.prototype.findIndex]: the first index whose element satisfies the
    predicate, [-1] when there is none. *)
Fixpoint findIndex {A : Type} (p : A -> bool) (l : list A) : Z :=
  match l with
  | [] => -1
  | x :: r =>
      if p x then 0
      else let i := findIndex p r in if i <? 0 then -1 else i + 1
  end.

(** [arr.slice(start)] for a start index that is not negative. *)
Definition slice {A : Type} (start : Z) (l : list A) : list A :=
  drop (Z.to_nat start) l.

(** [arr[arr.length - 1]] *)
Definition lastElement {A : Type} (l : list A) : option A := last l.

(** ** Completions: a value, or a thrown exception *)

Inductive Completion (E A : Type) : Type :=
  | Normal (a : A)
  | Throw (e : E).

Arguments Normal {E A} a.
Arguments Throw {E A} e.

Definition bind {E A B : Type} (c : Completion E A)
    (k : A -> Completion E B) : Completion E B :=
  match c with
  | Normal a => k a
  | Throw e => Throw e
  end.

(** [try { body } catch (e) { handler }]: what the statement completes
    with.  The handler runs outside the protection of the [try]. *)
Definition tryCatch {E A : Type} (body : Completion E A)
    (handler : E -> Completion E A) : Completion E A :=
  match body with
  | Normal a => Normal a
  | Throw e => handler e
  end.

(** ** Values *)

(** Numbers as far as the adapters look at them: whether they are falsy. *)
Inductive JSNumber : Type :=
  | NumFinite (q : Z * positive)
  | NumInfinity (negative : bool)
  | NumNaN.

Definition numberTruthy (n : JSNumber) : bool :=
  match n with
  | NumFinite (num, _) => negb (num =? 0)
  | NumInfinity _ => true
  | NumNaN => false
  end.

(** The values [JSON.parse] builds, and [undefined].  An object is its own
    properties in insertion order. *)
Inductive JSValue : Type :=
  | VUndefined
  | VNull
  | VBool (b : bool)
  | VNumber (n : JSNumber)
  | VString (s : jsstring)
  | VArray (items : list JSValue)
  | VObject (props : list (jsstring * JSValue)).

(** The exceptions of the language itself. *)
Inductive JSException : Type := TypeError | SyntaxError.

Definition isNullish (v : JSValue) : bool :=
  match v with VUndefined | VNull => true | _ => false end.

(** ToBoolean *)
Definition toBoolean (v : JSValue) : bool :=
  match v with
  | VUndefined | VNull => false
  | VBool b => b
  | VNumber n => numberTruthy n
  | VString s => truthy s
  | VArray _ | VObject _ => true
  end.

(** [a || b] *)
Definition logicalOr (a b : JSValue) : JSValue := if toBoolean a then a else b.

(** [v === 'literal'] *)
Definition strictEqualsString (v : JSValue) (s : jsstring) : bool :=
  match v with VString t => streq t s | _ => false end.

Fixpoint lookupProp (k : jsstring) (props : list (jsstring * JSValue)) : JSValue :=
  match props with
  | [] => VUndefined
  | (k', v) :: r => if streq k' k then v else lookupProp k r
  end.

(** [v.k] for a key that is neither an array index nor the name of a
    built-in prototype property ([length] is the one built-in property
    kept).  Reading a property of [null] or [undefined] throws. *)
Definition getProp (v : JSValue) (k : jsstring) : Completion JSException JSValue :=
  match v with
  | VUndefined | VNull => Throw TypeError
  | VObject props => Normal (lookupProp k props)
  | VArray items =>
      if streq k (lit "length")
      then Normal (VNumber (NumFinite (Z.of_nat (length items), 1%positive)))
      else Normal VUndefined
  | VString s =>
      if streq k (lit "length")
      then Normal (VNumber (NumFinite (Z.of_nat (length s), 1%positive)))
      else Normal VUndefined
  | VBool _ | VNumber _ => Normal VUndefined
  end.

(** [v?.k] *)
Definition getPropOpt (v : JSValue) (k : jsstring) : Completion JSException JSValue :=
  if isNullish v then Normal VUndefined else getProp v k.

(** [v[0]] *)
Definition getIndex0 (v : JSValue) : Completion JSException JSValue :=
  match v with
  | VUndefined | VNull => Throw TypeError
  | VObject props => Normal (lookupProp (lit "0") props)
  | VArray items => Normal (match items with [] => VUndefined | x :: _ => x end)
  | VString s => Normal (match s with [] => VUndefined | c :: _ => VString [c] end)
  | VBool _ | VNumber _ => Normal VUndefined
  end.

(** [v?.[0]] *)
Definition getIndex0Opt (v : JSValue) : Completion JSException JSValue :=
  if isNullish v then Normal VUndefined else getIndex0 v.

Definition isHighSurrogate (c : N) : bool := ((0xD800 <=? c) && (c <=? 0xDBFF))%N.
Definition isLowSurrogate (c : N) : bool := ((0xDC00 <=? c) && (c <=? 0xDFFF))%N.

(** The string iterator: one string per code point. *)
Fixpoint codePoints (s : jsstring) : list jsstring :=
  match s with
  | [] => []
  | c :: r =>
      match r with
      | d :: r' =>
          if isHighSurrogate c && isLowSurrogate d
          then [c; d] :: codePoints r'
          else [c] :: codePoints r
      | [] => [[c]]
      end
  end.

(** The values [for (const x of v)] visits; a value that is not iterable
    throws. *)
Definition iterate (v : JSValue) : Completion JSException (list JSValue) :=
  match v with
  | VArray items => Normal items
  | VString s => Normal (List.map VString (codePoints s))
  | _ => Throw TypeError
  end.

End JS.

Import JS.

(** Sequencing of completions, written [x ← c; k]. *)
#[global] Instance Completion_bind {E : Type} : MBind (Completion E) :=
  fun A B k c => bind c k.

(* ===================================================================== *)
(** * Shared data model (packages/shared) *)
(* ===================================================================== *)

Inductive Role : Type := user | assistant | system.

#[global] Instance Role_eq_dec : EqDecision Role.
Proof. solve_decision. Defined.

Record FileAttachment : Type := mkFileAttachment {
  att_filename : jsstring;
  att_mediaType : jsstring;
  att_localPath : jsstring
}.

(** [ChatMessage]; an optional field that is [undefined] is [None]. *)
Record ChatMessage : Type := mkChatMessage {
  msg_id : jsstring;
  msg_role : Role;
  msg_content : jsstring;
  msg_createdAt : N;
  msg_attachments : option (list FileAttachment);
  msg_model : option jsstring;
  msg_reasoning : option jsstring;
  msg_stopped : option bool
}.

(** [contextLength?: number | 'infinite'].  The numbers are the integers. *)
Inductive ContextLength : Type :=
  | CtxUnset
  | CtxInfinite
  | CtxNumber (n : Z).

(* ===================================================================== *)
(** * chat-service.ts: filterHistory *)
(* ===================================================================== *)

Module HistoryFilter.

Definition isUser (msg : ChatMessage) : bool :=
  bool_decide (msg_role msg = user).

(** The predicate of the first [filter]:
    [!(msg.role === 'assistant' && !msg.content.trim())]. *)
Definition keepMessage (msg : ChatMessage) : bool :=
  negb (bool_decide (msg_role msg = assistant)
        && negb (truthy (trim (msg_content msg)))).

(** The divider step: with a non-empty divider list, cut the sequence after
    the first message whose id is the last divider id, when there is one. *)
Definition applyDividers (filtered : list ChatMessage)
    (contextDividers : option (list jsstring)) : list ChatMessage :=
  match contextDividers with
  | Some dividers =>
      if (0 <? Z.of_nat (length dividers))
      then
        match lastElement dividers with
        | Some lastDividerId =>
            let dividerIndex :=
              findIndex (fun msg => streq (msg_id msg) lastDividerId) filtered in
            if dividerIndex >=? 0 then slice (dividerIndex + 1) filtered
            else filtered
        | None => filtered
        end
      else filtered
  | None => filtered
  end.

(** The backward loop [for (let i = filtered.length - 1; i >= 0; i--)]:
    [pending] holds [filtered[i], filtered[i-1], ...], the messages not
    visited yet, most recent first. *)
Fixpoint collectRounds (contextLength : Z) (pending : list ChatMessage)
    (roundCount : Z) (collected : list ChatMessage) : list ChatMessage :=
  match pending with
  | [] => collected
  | msg :: earlier =>
      let collected := msg :: collected in
      if isUser msg then
        let roundCount := roundCount + 1 in
        if roundCount >=? contextLength then collected
        else collectRounds contextLength earlier roundCount collected
      else collectRounds contextLength earlier roundCount collected
  end.

Definition filterHistory (messageHistory : list ChatMessage)
    (contextDividers : option (list jsstring))
    (contextLength : ContextLength) : list ChatMessage :=
  let filtered := List.filter keepMessage messageHistory in
  let filtered := applyDividers filtered contextDividers in
  match contextLength with
  | CtxNumber n =>
      if n >=? 0 then
        if n =? 0 then []
        else collectRounds n (rev filtered) 0 []
      else filtered
  | _ => filtered
  end.

(** ** Vocabulary of the specification *)

(** Step 1 of the specification on its own. *)
Definition emptyAssistantFiltered (H : list ChatMessage) : list ChatMessage :=
  List.filter keepMessage H.

(** Steps 1 and 2: the divider-trimmed, empty-assistant-filtered history. *)
Definition dividerTrimmed (H : list ChatMessage)
    (dividers : option (list jsstring)) : list ChatMessage :=
  applyDividers (emptyAssistantFiltered H) dividers.

(** The number of rounds of a sequence: its user-role messages. *)
Definition rounds (l : list ChatMessage) : nat :=
  length (List.filter isUser l).

End HistoryFilter.

(* ===================================================================== *)
(** * packages/core/src/providers: the adapters *)
(* ===================================================================== *)

(** [StreamEvent] of providers/types.ts.  [T] is what a text field holds: a
    string by its declared type, whatever the parsed frame held at run
    time. *)
Inductive StreamEvent (T : Type) : Type :=
  | chunk (delta : T)
  | reasoning (delta : T)
  | tool_call_start (toolCallId toolName : T) (metadata : option (list (jsstring * T)))
  | tool_call_delta (toolCallId argumentsDelta : T)
  | done (stopReason : T).

Arguments chunk {T} delta.
Arguments reasoning {T} delta.
Arguments tool_call_start {T} toolCallId toolName metadata.
Arguments tool_call_delta {T} toolCallId argumentsDelta.
Arguments done {T} stopReason.

Record ProviderRequest : Type := mkProviderRequest {
  req_url : jsstring;
  req_headers : list (jsstring * jsstring);
  req_body : jsstring
}.

(** [TitleRequestInput], as generateTitle fills it. *)
Record TitleRequestInput : Type := mkTitleRequestInput {
  title_baseUrl : jsstring;
  title_apiKey : jsstring;
  title_modelId : jsstring;
  title_prompt : jsstring
}.

Definition num (z : Z) : JSValue := VNumber (NumFinite (z, 1%positive)).
Definition str (s : string) : JSValue := VString (lit s).

Module Anthropic.
Section Adapter.

(** The built-ins and url-utils.ts, which the adapter calls. *)
Variable JSON_parse : jsstring -> Completion JSException JSValue.
Variable JSON_stringify : JSValue -> jsstring.
Variable normalizeAnthropicBaseUrl : jsstring -> jsstring.

(** [event.delta?.k] *)
Definition deltaField (event : JSValue) (k : string) : Completion JSException JSValue :=
  delta ← getProp event (lit "delta");
  getPropOpt delta (lit k).

(** The body of the [try] block of parseSSELine. *)
Definition parseSSELine_try (jsonLine : jsstring)
    : Completion JSException (list (StreamEvent JSValue)) :=
  event ← JSON_parse jsonLine;
  let events : list (StreamEvent JSValue) := [] in
  (* event.type === 'content_block_start' && event.content_block?.type === 'tool_use' *)
  type ← getProp event (lit "type");
  isToolUse ←
    (if strictEqualsString type (lit "content_block_start") then
       content_block ← getProp event (lit "content_block");
       blockType ← getPropOpt content_block (lit "type");
       Normal (strictEqualsString blockType (lit "tool_use"))
     else Normal false);
  events ←
    (if isToolUse : bool then
       content_block ← getProp event (lit "content_block");
       id ← getProp content_block (lit "id");
       name ← getProp content_block (lit "name");
       Normal (events ++ [tool_call_start (logicalOr id (VString []))
                                           (logicalOr name (VString [])) None])
     else Normal events);
  type ← getProp event (lit "type");
  events ←
    (if strictEqualsString type (lit "content_block_delta") then
       deltaType ← deltaField event "type";
       isThinking ←
         (if strictEqualsString deltaType (lit "thinking_delta") then
            thinking ← deltaField event "thinking";
            Normal (toBoolean thinking)
          else Normal false);
       if isThinking : bool then
         delta ← getProp event (lit "delta");
         thinking ← getProp delta (lit "thinking");
         Normal (events ++ [reasoning thinking])
       else
         deltaType ← deltaField event "type";
         isInputJson ←
           (if strictEqualsString deltaType (lit "input_json_delta") then
              partial_json ← deltaField event "partial_json";
              Normal (toBoolean partial_json)
            else Normal false);
         if isInputJson : bool then
           delta ← getProp event (lit "delta");
           partial_json ← getProp delta (lit "partial_json");
           Normal (events ++ [tool_call_delta (VString []) partial_json])
         else
           text ← deltaField event "text";
           if toBoolean text then
             delta ← getProp event (lit "delta");
             text ← getProp delta (lit "text");
             Normal (events ++ [chunk text])
           else Normal events
     else Normal events);
  (* event.type === 'message_delta' && event.delta?.stop_reason *)
  type ← getProp event (lit "type");
  hasStop ←
    (if strictEqualsString type (lit "message_delta") then
       stop_reason ← deltaField event "stop_reason";
       Normal (toBoolean stop_reason)
     else Normal false);
  events ←
    (if hasStop : bool then
       delta ← getProp event (lit "delta");
       stop_reason ← getProp delta (lit "stop_reason");
       Normal (events ++ [done stop_reason])
     else Normal events);
  Normal events.

Definition parseSSELine (jsonLine : jsstring)
    : Completion JSException (list (StreamEvent JSValue)) :=
  tryCatch (parseSSELine_try jsonLine) (fun _ => Normal []).

(** The object buildTitleRequest hands to [JSON.stringify]. *)
Definition titleRequestBody (input : TitleRequestInput) : JSValue :=
  VObject
    [ (lit "model", VString (title_modelId input));
      (lit "max_tokens", num 50);
      (lit "messages",
        VArray [VObject [(lit "role", str "user");
                         (lit "content", VString (title_prompt input))]]);
      (lit "thinking", VObject [(lit "type", str "disabled")]) ].

Definition buildTitleRequest (input : TitleRequestInput) : ProviderRequest :=
  let url := normalizeAnthropicBaseUrl (title_baseUrl input) in
  {| req_url := strcat url (lit "/messages");
     req_headers :=
       [ (lit "x-api-key", title_apiKey input);
         (lit "Authorization", strcat (lit "Bearer ") (title_apiKey input));
         (lit "anthropic-version", lit "2023-06-01");
         (lit "content-type", lit "application/json") ];
     req_body := JSON_stringify (titleRequestBody input) |}.

End Adapter.
End Anthropic.

Module Google.
Section Adapter.

Variable JSON_parse : jsstring -> Completion JSException JSValue.
Variable JSON_stringify : JSValue -> jsstring.
Variable normalizeBaseUrl : jsstring -> jsstring.

(** The loop [for (const part of parts)] over the values the iterator
    yields, [events] being what has been pushed so far. *)
Fixpoint forEachPart (parts : list JSValue) (events : list (StreamEvent JSValue))
    : Completion JSException (list (StreamEvent JSValue)) :=
  match parts with
  | [] => Normal events
  | part :: rest =>
      functionCall ← getProp part (lit "functionCall");
      if toBoolean functionCall then
        let fc := functionCall in
        name ← getProp fc (lit "name");
        thoughtSignature ← getProp part (lit "thoughtSignature");
        let metadata :=
          if toBoolean thoughtSignature
          then Some [(lit "thoughtSignature", thoughtSignature)]
          else None in
        let events := events ++ [tool_call_start name name metadata] in
        args ← getProp fc (lit "args");
        let events :=
          events ++ [tool_call_delta name
                       (VString (JSON_stringify (logicalOr args (VObject []))))] in
        forEachPart rest events
      else
        text ← getProp part (lit "text");
        if negb (toBoolean text) then forEachPart rest events
        else
          thought ← getProp part (lit "thought");
          if toBoolean thought
          then forEachPart rest (events ++ [reasoning text])
          else forEachPart rest (events ++ [chunk text])
  end.

(** The body of the [try] block of parseSSELine. *)
Definition parseSSELine_try (jsonLine : jsstring)
    : Completion JSException (list (StreamEvent JSValue)) :=
  parsed ← JSON_parse jsonLine;
  (* parsed.candidates?.[0]?.content?.parts *)
  candidates ← getProp parsed (lit "candidates");
  candidate ← getIndex0Opt candidates;
  content ← getPropOpt candidate (lit "content");
  parts ← getPropOpt content (lit "parts");
  if negb (toBoolean parts) then Normal []
  else
    items ← iterate parts;
    forEachPart items [].

Definition parseSSELine (jsonLine : jsstring)
    : Completion JSException (list (StreamEvent JSValue)) :=
  tryCatch (parseSSELine_try jsonLine) (fun _ => Normal []).

(** The object buildTitleRequest hands to [JSON.stringify]. *)
Definition titleRequestBody (input : TitleRequestInput) : JSValue :=
  VObject
    [ (lit "contents",
        VArray [VObject [(lit "role", str "user");
                         (lit "parts",
                           VArray [VObject [(lit "text", VString (title_prompt input))]])]]);
      (lit "generationConfig", VObject [(lit "maxOutputTokens", num 50)]) ].

Definition buildTitleRequest (input : TitleRequestInput) : ProviderRequest :=
  let url := normalizeBaseUrl (title_baseUrl input) in
  {| req_url :=
       strcat url (strcat (lit "/v1beta/models/")
         (strcat (title_modelId input)
           (strcat (lit ":generateContent?key=") (title_apiKey input))));
     req_headers := [ (lit "content-type", lit "application/json") ];
     req_body := JSON_stringify (titleRequestBody input) |}.

End Adapter.
End Google.

(* ===================================================================== *)
(** * chat-service.ts: the memory tools and sendMessage *)
(* ===================================================================== *)

Module ChatService.

Import HistoryFilter.

(** ** Data of the collaborators *)

Record Channel : Type := mkChannel {
  ch_id : jsstring;
  ch_provider : jsstring;
  ch_baseUrl : jsstring
}.

Record ChatSendInput : Type := mkChatSendInput {
  conversationId : jsstring;
  userMessage : jsstring;
  channelId : jsstring;
  modelId : jsstring;
  systemMessage : option jsstring;
  contextLength : ContextLength;
  contextDividers : option (list jsstring);
  attachments : option (list FileAttachment);
  thinkingEnabled : option bool
}.

Record MemoryConfig : Type := mkMemoryConfig {
  mem_enabled : bool;
  mem_apiKey : jsstring;
  mem_userId : option jsstring;
  mem_baseUrl : option jsstring
}.

Record MemosCredentials : Type := mkMemosCredentials {
  cred_apiKey : jsstring;
  cred_userId : jsstring;
  cred_baseUrl : option jsstring
}.

Record MemoryFact : Type := mkMemoryFact {
  fact_id : jsstring;
  fact_text : jsstring;
  fact_createTime : option jsstring;
  fact_confidence : option JSNumber
}.

Record MemoryPreference : Type := mkMemoryPreference {
  pref_id : jsstring;
  pref_text : jsstring;
  pref_type : option jsstring
}.

Record MemorySearchResult : Type := mkMemorySearchResult {
  facts : list MemoryFact;
  preferences : list MemoryPreference
}.

Record ToolDefinition : Type := mkToolDefinition {
  tool_name : jsstring;
  tool_description : jsstring;
  tool_parameters : JSValue
}.

Record ToolCall : Type := mkToolCall {
  tc_id : jsstring;
  tc_name : jsstring;
  tc_arguments : list (jsstring * JSValue);
  tc_metadata : option (list (jsstring * JSValue))
}.

Record ToolResult : Type := mkToolResult {
  tr_toolCallId : jsstring;
  tr_content : jsstring;
  tr_isError : option bool
}.

Inductive ContinuationMessage : Type :=
  | AssistantTurn (content : jsstring) (toolCalls : list ToolCall)
  | ToolTurn (results : list ToolResult).

(** The argument of [adapter.buildStreamRequest] ([readImageAttachments] is
    always the same function and is left out). *)
Record StreamRequestInput : Type := mkStreamRequestInput {
  sri_baseUrl : jsstring;
  sri_apiKey : jsstring;
  sri_modelId : jsstring;
  sri_history : list ChatMessage;
  sri_userMessage : jsstring;
  sri_systemMessage : option jsstring;
  sri_attachments : option (list FileAttachment);
  sri_thinkingEnabled : option bool;
  sri_tools : option (list ToolDefinition);
  sri_continuationMessages : option (list ContinuationMessage)
}.

(** What [streamSSE] resolves to. *)
Record StreamResult : Type := mkStreamResult {
  sr_content : jsstring;
  sr_reasoning : jsstring;
  sr_toolCalls : option (list ToolCall);
  sr_stopReason : option jsstring
}.

(** A thrown value: an [Error] with its message, or anything else with the
    text [String(error)] gives. *)
Inductive Thrown : Type :=
  | ThrownError (message : jsstring)
  | ThrownOther (asString : jsstring).

Inductive StreamEnding : Type :=
  | Resolved (result : StreamResult)
  | Rejected (error : Thrown).

(** One call of [streamSSE]: the events handed to [onEvent], in order, and
    how the promise settles. *)
Record StreamRun : Type := mkStreamRun {
  delivered : list (StreamEvent jsstring);
  ending : StreamEnding
}.

(** ** What the renderer receives *)

Inductive ToolActivity : Type :=
  | ActivityStart (toolName toolCallId : jsstring)
  | ActivityResult (toolName toolCallId result : jsstring) (isError : option bool).

Inductive IpcEvent : Type :=
  | STREAM_CHUNK (conversation delta : jsstring)
  | STREAM_REASONING (conversation delta : jsstring)
  | STREAM_TOOL_ACTIVITY (conversation : jsstring) (activity : ToolActivity)
  | STREAM_COMPLETE (conversation model : jsstring) (messageId : option jsstring)
  | STREAM_ERROR (conversation error : jsstring).

(** ** The environment of one run

    Everything sendMessage calls that is not in chat-service.ts: the answers
    the collaborators give during the run.  Calls that can happen once per
    round take the round number.  The collaborators that may throw are the
    key store, the adapter lookup, the proxy settings, the stream and the
    memory service; the history store and [webContents.send] return. *)
Record World : Type := mkWorld {
  listChannels : list Channel;
  decryptApiKey : jsstring -> Completion Thrown jsstring;
  getConversationMessages : jsstring -> list ChatMessage;
  (** the value of the n-th call *)
  randomUUID : nat -> jsstring;
  Date_now : nat -> N;
  enrichHistoryWithDocuments : list ChatMessage -> list ChatMessage;
  enrichMessageWithDocuments : jsstring -> option (list FileAttachment) -> jsstring;
  (** the identity of the controller [new AbortController()] creates *)
  newAbortController : nat;
  getAdapter : jsstring -> Completion Thrown unit;
  getMemoryConfig : MemoryConfig;
  getEffectiveProxyUrl : Completion Thrown unit;
  (** [streamSSE] on the request [adapter.buildStreamRequest] builds *)
  streamSSE : nat -> StreamRequestInput -> StreamRun;
  searchMemory : nat -> MemosCredentials -> JSValue -> Completion Thrown MemorySearchResult;
  addMemory : nat -> MemosCredentials -> JSValue -> JSValue -> Completion Thrown unit;
  (** [new Date(createTime).toLocaleString()] *)
  toLocaleString : jsstring -> jsstring;
  (** what [controller.signal.aborted] reads in the [catch] block of
      sendMessage, when the run gets there *)
  signalAborted : bool
}.

(** ** The state sendMessage acts on *)
Record State : Type := mkState {
  (** [webContents.send], oldest first *)
  sent : list IpcEvent;
  (** the calls of [appendMessage], oldest first *)
  appended : list (jsstring * ChatMessage);
  (** the module-level map conversationId -> controller *)
  activeControllers : gmap jsstring nat;
  (** the requests handed to [adapter.buildStreamRequest], oldest first *)
  requests : list StreamRequestInput;
  uuidCalls : nat;
  nowCalls : nat
}.

Definition send (ev : IpcEvent) (st : State) : State :=
  {| sent := sent st ++ [ev]; appended := appended st;
     activeControllers := activeControllers st; requests := requests st;
     uuidCalls := uuidCalls st; nowCalls := nowCalls st |}.

Definition appendMessage (conversation : jsstring) (msg : ChatMessage) (st : State) : State :=
  {| sent := sent st; appended := appended st ++ [(conversation, msg)];
     activeControllers := activeControllers st; requests := requests st;
     uuidCalls := uuidCalls st; nowCalls := nowCalls st |}.

Definition setControllers (m : gmap jsstring nat) (st : State) : State :=
  {| sent := sent st; appended := appended st;
     activeControllers := m; requests := requests st;
     uuidCalls := uuidCalls st; nowCalls := nowCalls st |}.

Definition logRequest (request : StreamRequestInput) (st : State) : State :=
  {| sent := sent st; appended := appended st;
     activeControllers := activeControllers st; requests := requests st ++ [request];
     uuidCalls := uuidCalls st; nowCalls := nowCalls st |}.

Definition callRandomUUID (w : World) (st : State) : jsstring * State :=
  (randomUUID w (uuidCalls st),
   {| sent := sent st; appended := appended st;
      activeControllers := activeControllers st; requests := requests st;
      uuidCalls := S (uuidCalls st); nowCalls := nowCalls st |}).

Definition callDateNow (w : World) (st : State) : N * State :=
  (Date_now w (nowCalls st),
   {| sent := sent st; appended := appended st;
      activeControllers := activeControllers st; requests := requests st;
      uuidCalls := uuidCalls st; nowCalls := S (nowCalls st) |}).

(** ** Constants *)

Definition recallSchema : JSValue :=
  VObject
    [ (lit "type", str "object");
      (lit "properties",
        VObject [(lit "query",
                   VObject [(lit "type", str "string");
                            (lit "description", str "Search query for memory retrieval")])]);
      (lit "required", VArray [str "query"]) ].

Definition addSchema : JSValue :=
  VObject
    [ (lit "type", str "object");
      (lit "properties",
        VObject [(lit "userMessage",
                   VObject [(lit "type", str "string");
                            (lit "description", str "The user message to store")]);
                 (lit "assistantMessage",
                   VObject [(lit "type", str "string");
                            (lit "description", str "The assistant response to store")])]);
      (lit "required", VArray [str "userMessage"]) ].

Definition MEMORY_TOOLS : list ToolDefinition :=
  [ {| tool_name := lit "recall_memory";
       tool_description := lit "Search user memories (facts and preferences). Use this to recall relevant context about the user before responding.";
       tool_parameters := recallSchema |};
    {| tool_name := lit "add_memory";
       tool_description := lit "Store a conversation message pair for long-term memory. Call this after meaningful exchanges worth remembering.";
       tool_parameters := addSchema |} ].

(** The template literal MEMORY_SYSTEM_PROMPT, code unit by code unit. *)
Definition MEMORY_SYSTEM_PROMPT : jsstring :=
  [
    10; 60; 109; 101; 109; 111; 114; 121; 95; 105; 110; 115; 116; 114; 117;
    99; 116; 105; 111; 110; 115; 62; 10; 20320; 25317; 26377; 36328; 20250;
    35805; 30340; 35760; 24518; 33021; 21147; 12290; 10; 10; 42; 42; 114;
    101; 99; 97; 108; 108; 95; 109; 101; 109; 111; 114; 121; 32; 8212; 32;
    22238; 24518; 65306; 42; 42; 10; 22312; 20320; 35273; 24471; 36807;
    21435; 30340; 32463; 21382; 21487; 33021; 23545; 24403; 21069; 26377;
    24110; 21161; 26102; 20027; 21160; 35843; 29992; 65306; 10; 45; 32;
    29992; 25143; 25552; 21040; 34; 20043; 21069; 34; 12289; 34; 19978;
    27425; 34; 31561; 22238; 28335; 24615; 34920; 36848; 10; 45; 32; 24403;
    21069; 20219; 21153; 21487; 33021; 21644; 36807; 21435; 20570; 36807;
    30340; 20107; 24773; 26377; 20851; 10; 10; 42; 42; 97; 100; 100; 95; 109;
    101; 109; 111; 114; 121; 32; 8212; 32; 35760; 20303; 65306; 42; 42; 10;
    24403; 23545; 35805; 20013; 21457; 29983; 20540; 24471; 35760; 20303;
    30340; 20107; 26102; 35843; 29992; 65306; 10; 45; 32; 29992; 25143;
    20998; 20139; 20102; 24037; 20316; 26041; 24335; 25110; 20559; 22909; 10;
    45; 32; 19968; 36215; 20570; 20102; 37325; 35201; 20915; 23450; 10; 45;
    32; 35299; 20915; 20102; 26840; 25163; 38382; 39064; 10; 10; 33258;
    28982; 22320; 36816; 29992; 35760; 24518; 65292; 19981; 35201; 25552;
    21450; 34; 35760; 24518; 31995; 32479; 34; 31561; 20869; 37096; 27010;
    24565; 12290; 10; 60; 47; 109; 101; 109; 111; 114; 121; 95; 105; 110;
    115; 116; 114; 117; 99; 116; 105; 111; 110; 115; 62
  ]%N.

Definition MAX_TOOL_ROUNDS : nat := 5.

(** '渠道不存在' *)
Definition CHANNEL_NOT_FOUND : jsstring := [28192; 36947; 19981; 23384; 22312]%N.

(** '解密 API Key 失败' *)
Definition DECRYPT_FAILED : jsstring :=
  [35299; 23494; 32; 65; 80; 73; 32; 75; 101; 121; 32; 22833; 36133]%N.

(** '未知错误' *)
Definition UNKNOWN_ERROR : jsstring := [26410; 30693; 38169; 35823]%N.

(** ** memos-client.ts: formatSearchResult *)

(** [lines.join(sep)] *)
Fixpoint join (sep : jsstring) (lines : list jsstring) : jsstring :=
  match lines with
  | [] => []
  | [l] => l
  | l :: rest => strcat l (strcat sep (join sep rest))
  end.

Definition optTruthy (o : option jsstring) : bool :=
  match o with Some s => truthy s | None => false end.

Definition formatSearchResult (w : World) (result : MemorySearchResult) : jsstring :=
  let lines : list jsstring := [] in
  let lines :=
    if (0 <? length (facts result))%nat then
      (lines ++ [lit "## Facts"]) ++
      List.map (fun item =>
                  let time := if optTruthy (fact_createTime item)
                              then toLocaleString w (default [] (fact_createTime item))
                              else [] in
                  if truthy time
                  then strcat (lit "- [") (strcat time (strcat (lit "] ") (fact_text item)))
                  else strcat (lit "- ") (fact_text item))
               (facts result)
    else lines in
  let lines :=
    if (0 <? length (preferences result))%nat then
      (lines ++ [strcat [10%N] (lit "## Preferences")]) ++
      List.map (fun item =>
                  if optTruthy (pref_type item)
                  then strcat (lit "- (")
                         (strcat (default [] (pref_type item))
                            (strcat (lit ") ") (pref_text item)))
                  else strcat (lit "- ") (pref_text item))
               (preferences result)
    else lines in
  if (0 <? length lines)%nat then join [10%N] lines else lit "No memories found.".

(** ** executeMemoryToolCall *)

Definition thrownMessage (error : Thrown) : jsstring :=
  match error with
  | ThrownError message => message
  | ThrownOther asString => asString
  end.

(** [round] only tells the environment which call this is. *)
Definition executeMemoryToolCall (w : World) (round : nat)
    (toolCall : ToolCall) (memoryConfig : MemoryConfig) : Completion Thrown ToolResult :=
  let credentials :=
    {| cred_apiKey := mem_apiKey memoryConfig;
       cred_userId :=
         match mem_userId memoryConfig with
         | Some userId => if truthy (trim userId) then trim userId else lit "proma-user"
         | None => lit "proma-user"
         end;
       cred_baseUrl := mem_baseUrl memoryConfig |} in
  tryCatch
    (if streq (tc_name toolCall) (lit "recall_memory") then
       let query := lookupProp (lit "query") (tc_arguments toolCall) in
       result ← searchMemory w round credentials query;
       Normal {| tr_toolCallId := tc_id toolCall;
                 tr_content := formatSearchResult w result;
                 tr_isError := None |}
     else if streq (tc_name toolCall) (lit "add_memory") then
       let userMessage := lookupProp (lit "userMessage") (tc_arguments toolCall) in
       let assistantMessage := lookupProp (lit "assistantMessage") (tc_arguments toolCall) in
       _ ← addMemory w round credentials userMessage assistantMessage;
       Normal {| tr_toolCallId := tc_id toolCall;
                 tr_content := lit "Memory stored successfully.";
                 tr_isError := None |}
     else
       Normal {| tr_toolCallId := tc_id toolCall;
                 tr_content := strcat (lit "Unknown tool: ") (tc_name toolCall);
                 tr_isError := Some true |})
    (fun error =>
       let msg := thrownMessage error in
       Normal {| tr_toolCallId := tc_id toolCall;
                 tr_content := strcat (lit "Tool execution failed: ") msg;
                 tr_isError := Some true |}).

(** ** sendMessage *)

(** [accumulatedContent] and [accumulatedReasoning], declared outside the
    [try] so that the [catch] block reads them. *)
Record Accumulated : Type := mkAccumulated {
  accumulatedContent : jsstring;
  accumulatedReasoning : jsstring
}.

Section Run.

Variable w : World.
Variable input : ChatSendInput.

(** The [onEvent] callback handed to streamSSE. *)
Definition onEvent (event : StreamEvent jsstring) (s : Accumulated * State)
    : Accumulated * State :=
  let '(acc, st) := s in
  match event with
  | chunk delta =>
      ({| accumulatedContent := strcat (accumulatedContent acc) delta;
          accumulatedReasoning := accumulatedReasoning acc |},
       send (STREAM_CHUNK (conversationId input) delta) st)
  | reasoning delta =>
      ({| accumulatedContent := accumulatedContent acc;
          accumulatedReasoning := strcat (accumulatedReasoning acc) delta |},
       send (STREAM_REASONING (conversationId input) delta) st)
  | tool_call_start toolCallId toolName _ =>
      (acc,
       send (STREAM_TOOL_ACTIVITY (conversationId input)
               (ActivityStart toolName toolCallId)) st)
  | tool_call_delta _ _ | done _ => (acc, st)
  end.

(** The events of one stream, handed to [onEvent] in their order. *)
Definition deliver (events : list (StreamEvent jsstring)) (s : Accumulated * State)
    : Accumulated * State :=
  fold_left (fun s event => onEvent event s) events s.

Section Loop.

(** What the loop reads from the enclosing scope. *)
Variable channel : Channel.
Variable apiKey : jsstring.
Variable enrichedHistory : list ChatMessage.
Variable enrichedUserMessage : jsstring.
Variable memoryConfig : MemoryConfig.
Variable tools : option (list ToolDefinition).
Variable effectiveSystemMessage : option jsstring.

(** [for (const tc of toolCalls)] *)
Fixpoint executeToolCalls (round : nat) (toolCalls : list ToolCall)
    (toolResults : list ToolResult) (st : State)
    : Completion Thrown (list ToolResult) * State :=
  match toolCalls with
  | [] => (Normal toolResults, st)
  | tc :: rest =>
      if streq (tc_name tc) (lit "recall_memory") || streq (tc_name tc) (lit "add_memory")
      then
        match executeMemoryToolCall w round tc memoryConfig with
        | Throw error => (Throw error, st)
        | Normal result =>
            let toolResults := toolResults ++ [result] in
            let st :=
              send (STREAM_TOOL_ACTIVITY (conversationId input)
                      (ActivityResult (tc_name tc) (tc_id tc)
                         (tr_content result) (tr_isError result))) st in
            executeToolCalls round rest toolResults st
        end
      else executeToolCalls round rest toolResults st
  end.

Definition buildRequestInput (continuationMessages : list ContinuationMessage)
    : StreamRequestInput :=
  {| sri_baseUrl := ch_baseUrl channel;
     sri_apiKey := apiKey;
     sri_modelId := modelId input;
     sri_history := enrichedHistory;
     sri_userMessage := enrichedUserMessage;
     sri_systemMessage := effectiveSystemMessage;
     sri_attachments := attachments input;
     sri_thinkingEnabled := thinkingEnabled input;
     sri_tools := tools;
     sri_continuationMessages :=
       if (0 <? length continuationMessages)%nat
       then Some continuationMessages else None |}.

(** [!toolCalls || toolCalls.length === 0 || stopReason !== 'tool_use'] *)
Definition leavesLoop (result : StreamResult) : bool :=
  match sr_toolCalls result with
  | None => true
  | Some toolCalls =>
      (length toolCalls =? 0)%nat
      || negb (match sr_stopReason result with
               | Some stopReason => streq stopReason (lit "tool_use")
               | None => false
               end)
  end.

(** [while (round < MAX_TOOL_ROUNDS) { round++ ... }].  The result is the
    completion of the loop (normal, or the exception a stream threw) with
    the accumulators and the state at that point; [None] when [fuel]
    iterations were not enough to leave the loop. *)
Fixpoint toolLoop (fuel : nat) (round : nat)
    (continuationMessages : list ContinuationMessage)
    (acc : Accumulated) (st : State)
    : option (Completion Thrown unit * Accumulated * State) :=
  if (round <? MAX_TOOL_ROUNDS)%nat then
    match fuel with
    | O => None
    | S fuel =>
        let round := S round in
        let request := buildRequestInput continuationMessages in
        let st := logRequest request st in
        let run := streamSSE w round request in
        let '(acc, st) := deliver (delivered run) (acc, st) in
        match ending run with
        | Rejected error => Some (Throw error, acc, st)
        | Resolved result =>
            if leavesLoop result then Some (Normal tt, acc, st)
            else
              let toolCalls := default [] (sr_toolCalls result) in
              match executeToolCalls round toolCalls [] st with
              | (Throw error, st) => Some (Throw error, acc, st)
              | (Normal toolResults, st) =>
                  let continuationMessages :=
                    continuationMessages ++
                    [ AssistantTurn (sr_content result) toolCalls;
                      ToolTurn toolResults ] in
                  toolLoop fuel round continuationMessages acc st
              end
        end
    end
  else Some (Normal tt, acc, st).

End Loop.

Definition reasoningField (acc : Accumulated) : option jsstring :=
  if truthy (accumulatedReasoning acc) then Some (accumulatedReasoning acc) else None.

(** Step 10: save the assistant message and report completion.
    [updateConversationMeta] runs in a [try] of its own whose [catch] is
    empty, and touches nothing of the state kept here. *)
Definition finalize (acc : Accumulated) (st : State) : State :=
  let '(assistantMsgId, st) := callRandomUUID w st in
  let st :=
    if truthy (trim (accumulatedContent acc)) then
      let '(now, st) := callDateNow w st in
      let assistantMsg :=
        {| msg_id := assistantMsgId;
           msg_role := assistant;
           msg_content := accumulatedContent acc;
           msg_createdAt := now;
           msg_attachments := None;
           msg_model := Some (modelId input);
           msg_reasoning := reasoningField acc;
           msg_stopped := None |} in
      appendMessage (conversationId input) assistantMsg st
    else st in
  send (STREAM_COMPLETE (conversationId input) (modelId input)
          (if truthy (trim (accumulatedContent acc))
           then Some assistantMsgId else None)) st.

(** The body of the [try] block: steps 7 to 10. *)
Definition tryBlock (fuel : nat) (channel : Channel) (apiKey : jsstring)
    (enrichedHistory : list ChatMessage) (enrichedUserMessage : jsstring)
    (acc : Accumulated) (st : State)
    : option (Completion Thrown unit * Accumulated * State) :=
  match getAdapter w (ch_provider channel) with
  | Throw error => Some (Throw error, acc, st)
  | Normal _ =>
      let memoryConfig := getMemoryConfig w in
      let memoryEnabled := mem_enabled memoryConfig && truthy (mem_apiKey memoryConfig) in
      let tools := if memoryEnabled then Some MEMORY_TOOLS else None in
      let effectiveSystemMessage :=
        if memoryEnabled && optTruthy (systemMessage input)
        then Some (strcat (default [] (systemMessage input)) MEMORY_SYSTEM_PROMPT)
        else if memoryEnabled then Some MEMORY_SYSTEM_PROMPT
        else systemMessage input in
      match getEffectiveProxyUrl w with
      | Throw error => Some (Throw error, acc, st)
      | Normal _ =>
          match toolLoop channel apiKey enrichedHistory enrichedUserMessage
                  memoryConfig tools effectiveSystemMessage fuel 0 [] acc st with
          | None => None
          | Some (Throw error, acc, st) => Some (Throw error, acc, st)
          | Some (Normal _, acc, st) => Some (Normal tt, acc, finalize acc st)
          end
      end
  end.

(** The [catch (error)] block. *)
Definition catchBlock (error : Thrown) (acc : Accumulated) (st : State) : State :=
  if signalAborted w then
    if truthy (accumulatedContent acc) then
      let '(assistantMsgId, st) := callRandomUUID w st in
      let '(now, st) := callDateNow w st in
      let partialMsg :=
        {| msg_id := assistantMsgId;
           msg_role := assistant;
           msg_content := accumulatedContent acc;
           msg_createdAt := now;
           msg_attachments := None;
           msg_model := Some (modelId input);
           msg_reasoning := reasoningField acc;
           msg_stopped := Some true |} in
      let st := appendMessage (conversationId input) partialMsg st in
      send (STREAM_COMPLETE (conversationId input) (modelId input)
              (Some assistantMsgId)) st
    else
      send (STREAM_COMPLETE (conversationId input) (modelId input) None) st
  else
    let errorMessage :=
      match error with
      | ThrownError message => message
      | ThrownOther _ => UNKNOWN_ERROR
      end in
    send (STREAM_ERROR (conversationId input) errorMessage) st.

(** How far the statements before the [try] get. *)
Inductive Prepared : Type :=
  | Returned (st : State)
  | Entered (channel : Channel) (apiKey : jsstring)
            (enrichedHistory : list ChatMessage) (enrichedUserMessage : jsstring)
            (st : State).

(** Steps 1 to 6: everything in front of the [try] statement. *)
Definition prepare (st : State) : Prepared :=
  (* 1 *)
  match List.find (fun c => streq (ch_id c) (channelId input)) (listChannels w) with
  | None => Returned (send (STREAM_ERROR (conversationId input) CHANNEL_NOT_FOUND) st)
  | Some channel =>
      (* 2 *)
      match decryptApiKey w (channelId input) with
      | Throw _ => Returned (send (STREAM_ERROR (conversationId input) DECRYPT_FAILED) st)
      | Normal apiKey =>
          (* 3 *)
          let fullHistory := getConversationMessages w (conversationId input) in
          (* 4 *)
          let '(userMsgId, st) := callRandomUUID w st in
          let '(now, st) := callDateNow w st in
          let userMsg :=
            {| msg_id := userMsgId;
               msg_role := user;
               msg_content := userMessage input;
               msg_createdAt := now;
               msg_attachments :=
                 match attachments input with
                 | Some atts => if (0 <? length atts)%nat then Some atts else None
                 | None => None
                 end;
               msg_model := None;
               msg_reasoning := None;
               msg_stopped := None |} in
          let st := appendMessage (conversationId input) userMsg st in
          (* 5 *)
          let filteredHistory :=
            filterHistory fullHistory (contextDividers input) (contextLength input) in
          let enrichedHistory := enrichHistoryWithDocuments w filteredHistory in
          let enrichedUserMessage :=
            enrichMessageWithDocuments w (userMessage input) (attachments input) in
          (* 6 *)
          let controller := newAbortController w in
          let st :=
            setControllers
              (<[conversationId input := controller]> (activeControllers st)) st in
          Entered channel apiKey enrichedHistory enrichedUserMessage st
      end
  end.

Definition noContent : Accumulated :=
  {| accumulatedContent := []; accumulatedReasoning := [] |}.

(** The [finally] block. *)
Definition finallyBlock (st : State) : State :=
  setControllers (delete (conversationId input) (activeControllers st)) st.

(** sendMessage, with the fuel of its loop. *)
Definition sendMessage_fuel (fuel : nat) (st : State) : option State :=
  match prepare st with
  | Returned st => Some st
  | Entered channel apiKey enrichedHistory enrichedUserMessage st =>
      match tryBlock fuel channel apiKey enrichedHistory enrichedUserMessage
              noContent st with
      | None => None
      | Some (completion, acc, st) =>
          let st :=
            match completion with
            | Normal _ => st
            | Throw error => catchBlock error acc st
            end in
          Some (finallyBlock st)
      end
  end.

(** sendMessage: [MAX_TOOL_ROUNDS] iterations are all the loop can make. *)
Definition sendMessage (st : State) : option State :=
  sendMessage_fuel MAX_TOOL_ROUNDS st.

End Run.

End ChatService.

(* ===================================================================== *)
(** * Vocabulary of the specification *)
(* ===================================================================== *)

Module Spec.

Import ChatService.

(** The terminal events: [complete] and [error]. *)
Definition isTerminal (ev : IpcEvent) : bool :=
  match ev with
  | STREAM_COMPLETE _ _ _ | STREAM_ERROR _ _ => true
  | _ => false
  end.

Definition notTerminal (ev : IpcEvent) : bool := negb (isTerminal ev).

(** What a run sent to the renderer, and what it appended to the history
    store, given the state before and after. *)
Definition emitted (st st' : State) : list IpcEvent :=
  drop (length (sent st)) (sent st').

Definition persisted (st st' : State) : list (jsstring * ChatMessage) :=
  drop (length (appended st)) (appended st').

Definition isAssistant (msg : ChatMessage) : bool :=
  bool_decide (msg_role msg = assistant).

Definition persistedAssistant (st st' : State) : list ChatMessage :=
  List.filter isAssistant (List.map snd (persisted st st')).

(** The text of the chunk events, in their order. *)
Fixpoint chunkText (evs : list IpcEvent) : jsstring :=
  match evs with
  | [] => []
  | STREAM_CHUNK _ delta :: r => strcat delta (chunkText r)
  | _ :: r => chunkText r
  end.

(** From [st] to [st'] only non-terminal events [mid] were sent; nothing
    was persisted and the registry was not touched. *)
Definition streamed (st st' : State) (mid : list IpcEvent) : Prop :=
  sent st' = sent st ++ mid /\
  forallb notTerminal mid = true /\
  appended st' = appended st /\
  activeControllers st' = activeControllers st /\
  uuidCalls st' = uuidCalls st /\
  nowCalls st' = nowCalls st.

(** The tools of the fixed set offered to the model. *)
Definition isKnownTool (name : jsstring) : bool :=
  streq name (lit "recall_memory") || streq name (lit "add_memory").

(** A result that answers a call: it carries the id of the call. *)
Definition answers (tc : ToolCall) (r : ToolResult) : bool :=
  streq (tr_toolCallId r) (tc_id tc).

Definition answered (tc : ToolCall) (results : list ToolResult) : bool :=
  existsb (answers tc) results.

(** A provider that answers every request with tool calls and the
    tool-invocation stop reason. *)
Definition keepsCallingTools (w : World) : Prop :=
  forall round request,
    exists result,
      ending (streamSSE w round request) = Resolved result /\
      leavesLoop result = false.

(** The run gets past channel lookup and key decryption, so that a
    cancellation handle is registered. *)
Definition startsGeneration (w : World) (input : ChatSendInput) : bool :=
  match List.find (fun c => streq (ch_id c) (channelId input)) (listChannels w) with
  | None => false
  | Some _ =>
      match decryptApiKey w (channelId input) with
      | Normal _ => true
      | Throw _ => false
      end
  end.

(** How a run of sendMessage ends: at one of the two early returns, at the
    end of the [try] block, or in the [catch] block with the signal fired or
    not.  [None] stands for a loop that ran out of fuel. *)
Inductive Outcome : Type :=
  | ConfigError
  | Completed (acc : Accumulated)
  | Cancelled (acc : Accumulated)
  | Failed (error : Thrown) (acc : Accumulated).

Definition outcome (w : World) (input : ChatSendInput) (st : State) : option Outcome :=
  match prepare w input st with
  | Returned _ => Some ConfigError
  | Entered channel apiKey enrichedHistory enrichedUserMessage st1 =>
      match tryBlock w input MAX_TOOL_ROUNDS channel apiKey
              enrichedHistory enrichedUserMessage noContent st1 with
      | None => None
      | Some (Normal _, acc, _) => Some (Completed acc)
      | Some (Throw error, acc, _) =>
          if signalAborted w then Some (Cancelled acc) else Some (Failed error acc)
      end
  end.

(** The run from [st] to [st'] ended with a [complete] event.  With [save]
    it persisted one assistant message, holding [content] and the given
    [stopped] flag, and the event carries the id of that message; without,
    it persisted no assistant message and the event carries no id. *)
Definition completesWith (input : ChatSendInput) (st st' : State)
    (content : jsstring) (save : bool) (stoppedFlag : option bool) : Prop :=
  if save then
    exists m,
      persistedAssistant st st' = [m] /\
      msg_content m = content /\
      msg_stopped m = stoppedFlag /\
      last (sent st')
        = Some (STREAM_COMPLETE (conversationId input) (modelId input) (Some (msg_id m)))
  else
    persistedAssistant st st' = [] /\
    last (sent st')
      = Some (STREAM_COMPLETE (conversationId input) (modelId input) None).

(** After the run the registry has no mapping for the conversation. *)
Definition registryCleared (w : World) (input : ChatSendInput) (st : State) : Prop :=
  exists st',
    sendMessage w input st = Some st' /\
    activeControllers st' !! conversationId input = None.

(** A wire body that turns extended reasoning off in so many words: the
    [thinking: { type: 'disabled' }] of the Anthropic Messages API, or a
    [generationConfig.thinkingConfig] with a zero [thinkingBudget] of the
    Gemini API. *)
Definition explicitlyDisablesThinking (body : JSValue) : Prop :=
  getProp body (lit "thinking") = Normal (VObject [(lit "type", str "disabled")])
  \/ exists generationConfig thinkingConfig,
       getProp body (lit "generationConfig") = Normal generationConfig /\
       getProp generationConfig (lit "thinkingConfig") = Normal thinkingConfig /\
       getProp thinkingConfig (lit "thinkingBudget") = Normal (num 0).

(** A wire body that says nothing about reasoning, one way or the other. *)
Definition silentAboutThinking (body : JSValue) : Prop :=
  getProp body (lit "thinking") = Normal VUndefined /\
  exists generationConfig,
    getProp body (lit "generationConfig") = Normal generationConfig /\
    getProp generationConfig (lit "thinkingConfig") = Normal VUndefined.

End Spec.

(* ===================================================================== *)
(** * Sample runs *)
(* ===================================================================== *)

Module Samples.

Import ChatService.

Definition channel1 : Channel :=
  {| ch_id := lit "ch1"; ch_provider := lit "anthropic";
     ch_baseUrl := lit "https://api.anthropic.com" |}.

Definition input1 : ChatSendInput :=
  {| conversationId := lit "c1";
     userMessage := lit "Hi";
     channelId := lit "ch1";
     modelId := lit "m1";
     systemMessage := None;
     contextLength := CtxInfinite;
     contextDividers := None;
     attachments := None;
     thinkingEnabled := Some true |}.

(** A world with one channel, an enabled memory service, and the given
    provider behaviour and cancellation state. *)
Definition world (channels : list Channel)
    (stream : nat -> StreamRequestInput -> StreamRun) (aborted : bool) : World :=
  {| listChannels := channels;
     decryptApiKey := fun _ => Normal (lit "sk");
     getConversationMessages := fun _ => [];
     randomUUID := fun n => strcat (lit "uuid-") [(48 + N.of_nat n)%N];
     Date_now := fun n => N.of_nat n;
     enrichHistoryWithDocuments := fun h => h;
     enrichMessageWithDocuments := fun m _ => m;
     newAbortController := 1%nat;
     getAdapter := fun _ => Normal tt;
     getMemoryConfig :=
       {| mem_enabled := true; mem_apiKey := lit "mk";
          mem_userId := None; mem_baseUrl := None |};
     getEffectiveProxyUrl := Normal tt;
     streamSSE := stream;
     searchMemory := fun _ _ _ => Normal {| facts := []; preferences := [] |};
     addMemory := fun _ _ _ _ => Normal tt;
     toLocaleString := fun t => t;
     signalAborted := aborted |}.

(** The same world with a key store that cannot decrypt. *)
Definition lockedWorld (stream : nat -> StreamRequestInput -> StreamRun) : World :=
  {| listChannels := [channel1];
     decryptApiKey := fun _ => Throw (ThrownError (lit "bad key"));
     getConversationMessages := fun _ => [];
     randomUUID := fun n => strcat (lit "uuid-") [(48 + N.of_nat n)%N];
     Date_now := fun n => N.of_nat n;
     enrichHistoryWithDocuments := fun h => h;
     enrichMessageWithDocuments := fun m _ => m;
     newAbortController := 1%nat;
     getAdapter := fun _ => Normal tt;
     getMemoryConfig :=
       {| mem_enabled := true; mem_apiKey := lit "mk";
          mem_userId := None; mem_baseUrl := None |};
     getEffectiveProxyUrl := Normal tt;
     streamSSE := stream;
     searchMemory := fun _ _ _ => Normal {| facts := []; preferences := [] |};
     addMemory := fun _ _ _ _ => Normal tt;
     toLocaleString := fun t => t;
     signalAborted := false |}.

Definition freshState : State :=
  {| sent := []; appended := []; activeControllers := ∅; requests := [];
     uuidCalls := 0; nowCalls := 0 |}.

(** A state in which conversation c1 already has a generation in flight. *)
Definition busyState : State :=
  {| sent := []; appended := []; activeControllers := {[ lit "c1" := 7%nat ]};
     requests := []; uuidCalls := 0; nowCalls := 0 |}.

Definition abortError : Thrown := ThrownError (lit "This operation was aborted").

Definition endTurn : StreamResult :=
  {| sr_content := []; sr_reasoning := []; sr_toolCalls := Some [];
     sr_stopReason := Some (lit "end_turn") |}.

(** The stream is cut after the text Hello, wor. *)
Definition cutAfterHello (round : nat) (request : StreamRequestInput) : StreamRun :=
  {| delivered := [chunk (lit "Hello, wor")]; ending := Rejected abortError |}.

(** The stream is cut before any text. *)
Definition cutAtOnce (round : nat) (request : StreamRequestInput) : StreamRun :=
  {| delivered := []; ending := Rejected abortError |}.

(** The stream delivers one blank and ends normally. *)
Definition blankThenEnd (round : nat) (request : StreamRequestInput) : StreamRun :=
  {| delivered := [chunk (lit " ")]; ending := Resolved endTurn |}.

(** The stream delivers one blank and is cut. *)
Definition blankThenCut (round : nat) (request : StreamRequestInput) : StreamRun :=
  {| delivered := [chunk (lit " ")]; ending := Rejected abortError |}.

(** The stream delivers Hello and ends normally. *)
Definition helloThenEnd (round : nat) (request : StreamRequestInput) : StreamRun :=
  {| delivered := [chunk (lit "Hello")]; ending := Resolved endTurn |}.

(** The stream fails for a reason other than cancellation. *)
Definition networkDown (round : nat) (request : StreamRequestInput) : StreamRun :=
  {| delivered := []; ending := Rejected (ThrownError (lit "fetch failed")) |}.

Definition webSearchCall : ToolCall :=
  {| tc_id := lit "toolu_1"; tc_name := lit "web_search";
     tc_arguments := [(lit "q", str "x")]; tc_metadata := None |}.

Definition recallCall : ToolCall :=
  {| tc_id := lit "toolu_2"; tc_name := lit "recall_memory";
     tc_arguments := [(lit "query", str "x")]; tc_metadata := None |}.

Definition toolUse (calls : list ToolCall) : StreamResult :=
  {| sr_content := []; sr_reasoning := []; sr_toolCalls := Some calls;
     sr_stopReason := Some (lit "tool_use") |}.

(** Round 1 asks for a tool outside the fixed set and for recall_memory;
    the next round ends the turn. *)
Definition unknownToolFirst (round : nat) (request : StreamRequestInput) : StreamRun :=
  match round with
  | 1%nat => {| delivered := []; ending := Resolved (toolUse [webSearchCall; recallCall]) |}
  | _ => {| delivered := [chunk (lit "ok")]; ending := Resolved endTurn |}
  end.

(** Every round streams the letter a and asks for recall_memory again. *)
Definition toolsForever (round : nat) (request : StreamRequestInput) : StreamRun :=
  {| delivered := [chunk (lit "a")]; ending := Resolved (toolUse [recallCall]) |}.

Definition titleInput1 : TitleRequestInput :=
  {| title_baseUrl := lit "https://generativelanguage.googleapis.com";
     title_apiKey := lit "k"; title_modelId := lit "gemini-2.5-flash";
     title_prompt := lit "hello there" |}.

(** The text of a frame, written with ' where the frame has a double
    quote. *)
Definition frame (s : string) : jsstring :=
  List.map (fun c => if (c =? 39)%N then 34%N else c) (lit s).

(** A stand-in for [JSON.parse] that knows four frames and rejects every
    other text. *)
Definition sampleParse (text : jsstring) : Completion JSException JSValue :=
  if streq text (lit "null") then Normal VNull
  else if streq text (frame "{'type':'content_block_delta','delta':{'type':'text_delta','text':'Hi'}}")
  then Normal (VObject [(lit "type", str "content_block_delta");
                        (lit "delta", VObject [(lit "type", str "text_delta");
                                               (lit "text", str "Hi")])])
  else if streq text (frame "{'candidates':[{'content':{'parts':[{'text':'Hi'},null]}}]}")
  then Normal (VObject [(lit "candidates",
                 VArray [VObject [(lit "content",
                   VObject [(lit "parts",
                     VArray [VObject [(lit "text", str "Hi")]; VNull])])]])])
  else if streq text (frame "{'candidates':[{'content':{'parts':7}}]}")
  then Normal (VObject [(lit "candidates",
                 VArray [VObject [(lit "content",
                   VObject [(lit "parts", num 7)])]])])
  else Throw SyntaxError.

Definition sampleStringify (v : JSValue) : jsstring := lit "{}".

Definition msg (id : string) (role : Role) (content : string) : ChatMessage :=
  {| msg_id := lit id; msg_role := role; msg_content := lit content;
     msg_createdAt := 0%N; msg_attachments := None; msg_model := None;
     msg_reasoning := None; msg_stopped := None |}.

Definition history1 : list ChatMessage :=
  [ msg "1" user "a"; msg "2" assistant "b"; msg "3" assistant "  ";
    msg "4" user "c"; msg "5" assistant "d"; msg "6" user "e"; msg "7" assistant "f" ].

End Samples.

(* ===================================================================== *)
(** * chat-service.ts: stopGeneration and stopAllGenerations *)
(* ===================================================================== *)

Module Registry.

(** The module-level map [activeControllers], and the controllers on which
    [abort()] has been called. *)
Record Controllers : Type := mkControllers {
  active : gmap jsstring nat;
  abortedControllers : gset nat
}.

Definition stopGeneration (conversationId : jsstring) (r : Controllers) : Controllers :=
  match active r !! conversationId with
  | Some controller =>
      {| active := delete conversationId (active r);
         abortedControllers := {[controller]} ∪ abortedControllers r |}
  | None => r
  end.

(** [for (const [conversationId, controller] of activeControllers)
    controller.abort()], then [activeControllers.clear()]. *)
Definition stopAllGenerations (r : Controllers) : Controllers :=
  if (size (active r) =? 0)%nat then r
  else
    {| active := ∅;
       abortedControllers :=
         fold_left (fun aborted entry => {[snd entry]} ∪ aborted)
           (map_to_list (active r)) (abortedControllers r) |}.

End Registry.

(* ===================================================================== *)
(** * chat-service.ts: document attachments *)
(* ===================================================================== *)

Module Documents.

Import ChatService.

Section Documents.

(** document-parser.ts *)
Variable isDocumentAttachment : jsstring -> bool.
Variable extractTextFromAttachment : jsstring -> Completion Thrown jsstring.

(** The template [\n<file name="${filename}">\n${body}\n</file>]. *)
Definition fileBlock (filename body : jsstring) : jsstring :=
  strcat [10%N]
    (strcat (lit "<file name=")
       (strcat [34%N]
          (strcat filename
             (strcat [34%N]
                (strcat (lit ">")
                   (strcat [10%N]
                      (strcat body (strcat [10%N] (lit "</file>"))))))))).

(** '[文件内容为空]' *)
Definition EMPTY_FILE : jsstring :=
  [91; 25991; 20214; 20869; 23481; 20026; 31354; 93]%N.

(** '[文件内容提取失败: ' *)
Definition EXTRACT_FAILED : jsstring :=
  [91; 25991; 20214; 20869; 23481; 25552; 21462; 22833; 36133; 58; 32]%N.

(** One turn of [for (const att of docAttachments)]: the [try] statement
    pushing a part. *)
Definition pushDocumentPart (att : FileAttachment) (parts : list jsstring)
    : Completion Thrown (list jsstring) :=
  tryCatch
    (text ← extractTextFromAttachment (att_localPath att);
     if truthy (trim text)
     then Normal (parts ++ [fileBlock (att_filename att) text])
     else Normal (parts ++ [fileBlock (att_filename att) EMPTY_FILE]))
    (fun error =>
       let errorMsg :=
         match error with
         | ThrownError message => message
         | ThrownOther _ => UNKNOWN_ERROR
         end in
       Normal (parts ++ [fileBlock (att_filename att)
                           (strcat EXTRACT_FAILED (strcat errorMsg (lit "]")))])).

Fixpoint pushDocumentParts (docAttachments : list FileAttachment)
    (parts : list jsstring) : Completion Thrown (list jsstring) :=
  match docAttachments with
  | [] => Normal parts
  | att :: rest =>
      parts ← pushDocumentPart att parts;
      pushDocumentParts rest parts
  end.

Definition enrichMessageWithDocuments (messageText : jsstring)
    (attachments : option (list FileAttachment)) : Completion Thrown jsstring :=
  match attachments with
  | None => Normal messageText
  | Some attachments =>
      if (length attachments =? 0)%nat then Normal messageText
      else
        let docAttachments :=
          List.filter (fun att => isDocumentAttachment (att_mediaType att)) attachments in
        if (length docAttachments =? 0)%nat then Normal messageText
        else
          parts ← pushDocumentParts docAttachments [messageText];
          Normal (join [] parts)
  end.

Definition withContent (msg : ChatMessage) (content : jsstring) : ChatMessage :=
  {| msg_id := msg_id msg; msg_role := msg_role msg; msg_content := content;
     msg_createdAt := msg_createdAt msg; msg_attachments := msg_attachments msg;
     msg_model := msg_model msg; msg_reasoning := msg_reasoning msg;
     msg_stopped := msg_stopped msg |}.

(** [msg.role === 'user' && msg.attachments && msg.attachments.length > 0],
    and then [msg.attachments.some(isDocumentAttachment)]. *)
Definition hasDocuments (msg : ChatMessage) : bool :=
  bool_decide (msg_role msg = user)
  && match msg_attachments msg with
     | Some attachments =>
         (0 <? length attachments)%nat
         && existsb (fun att => isDocumentAttachment (att_mediaType att)) attachments
     | None => false
     end.

(** [for (const msg of history)], [enriched] being what has been pushed. *)
Fixpoint enrichEach (history : list ChatMessage) (enriched : list ChatMessage)
    : Completion Thrown (list ChatMessage) :=
  match history with
  | [] => Normal enriched
  | msg :: rest =>
      if hasDocuments msg then
        enrichedContent ← enrichMessageWithDocuments (msg_content msg) (msg_attachments msg);
        enrichEach rest (enriched ++ [withContent msg enrichedContent])
      else enrichEach rest (enriched ++ [msg])
  end.

Definition enrichHistoryWithDocuments (history : list ChatMessage)
    : Completion Thrown (list ChatMessage) :=
  enrichEach history [].

End Documents.

End Documents.

(* ===================================================================== *)
(** * Further vocabulary *)
(* ===================================================================== *)

Module Shapes.

Import ChatService Spec.

(** The continuation of a request, [undefined] read as the empty list. *)
Definition continuationOf (request : StreamRequestInput) : list ContinuationMessage :=
  default [] (sri_continuationMessages request).

(** A continuation made of rounds: an assistant turn with at least one
    tool call, then a tool turn whose results carry, in order, the ids of
    those calls of the assistant turn that name a known tool. *)
Fixpoint inRounds (cm : list ContinuationMessage) : Prop :=
  match cm with
  | [] => True
  | AssistantTurn _ toolCalls :: ToolTurn results :: rest =>
      toolCalls <> [] /\
      List.map tr_toolCallId results
        = List.map tc_id (List.filter (fun tc => isKnownTool (tc_name tc)) toolCalls) /\
      inRounds rest
  | _ => False
  end.

(** The requests a run made, given the state before and after. *)
Definition requested (st st' : State) : list StreamRequestInput :=
  drop (length (requests st)) (requests st').

(** A message whose content is white space only. *)
Definition isBlank (msg : ChatMessage) : bool :=
  forallb isWhiteSpace (msg_content msg).

(** The conversation an event is addressed to. *)
Definition conversationOf (ev : IpcEvent) : jsstring :=
  match ev with
  | STREAM_CHUNK conversation _
  | STREAM_REASONING conversation _
  | STREAM_TOOL_ACTIVITY conversation _
  | STREAM_COMPLETE conversation _ _
  | STREAM_ERROR conversation _ => conversation
  end.

(** The text of the reasoning events, in their order. *)
Fixpoint reasoningText (evs : list IpcEvent) : jsstring :=
  match evs with
  | [] => []
  | STREAM_REASONING _ delta :: r => strcat delta (reasoningText r)
  | _ :: r => reasoningText r
  end.

(** An event addressed to the conversation of the input. *)
Definition addressed (input : ChatSendInput) (ev : IpcEvent) : Prop :=
  conversationOf ev = conversationId input.

(** [text || undefined] *)
Definition orUndefined (text : jsstring) : option jsstring :=
  if truthy text then Some text else None.

End Shapes.

(* ===================================================================== *)
(** * Further sample runs *)
(* ===================================================================== *)

Module MoreSamples.

Import ChatService.

(** The stream delivers Hello and then fails, without any cancellation. *)
Definition helloThenDown (round : nat) (request : StreamRequestInput) : StreamRun :=
  {| delivered := [chunk (lit "Hello")];
     ending := Rejected (ThrownError (lit "fetch failed")) |}.

Definition report : FileAttachment :=
  {| att_filename := lit "report.pdf"; att_mediaType := lit "application/pdf";
     att_localPath := lit "/tmp/report.pdf" |}.

Definition photo : FileAttachment :=
  {| att_filename := lit "photo.png"; att_mediaType := lit "image/png";
     att_localPath := lit "/tmp/photo.png" |}.

Definition isPdf (mediaType : jsstring) : bool :=
  streq mediaType (lit "application/pdf").

Definition isPng (mediaType : jsstring) : bool :=
  streq mediaType (lit "image/png").

Definition unreadable (path : jsstring) : Completion Thrown jsstring :=
  Throw (ThrownError (lit "ENOENT")).

End MoreSamples.

(* ===================================================================== *)
(** * More of the language *)
(* ===================================================================== *)

Module JSMore.

(** [s.split(sep)] for a separator of one code unit. *)
Fixpoint splitOn (sep : N) (s : jsstring) : list jsstring :=
  match s with
  | [] => [[]]
  | c :: r =>
      if (c =? sep)%N then [] :: splitOn sep r
      else
        match splitOn sep r with
        | l :: ls => (c :: l) :: ls
        | [] => [[c]]
        end
  end.

(** [s.startsWith(p)] *)
Fixpoint startsWith (p s : jsstring) : bool :=
  match p, s with
  | [], _ => true
  | _ :: _, [] => false
  | a :: p', b :: s' => (a =? b)%N && startsWith p' s'
  end.

(** [v === 0] *)
Definition isZero (v : JSValue) : bool :=
  match v with
  | VNumber (NumFinite (0, _)) => true
  | _ => false
  end.

(** [a ?? b] *)
Definition nullish (a b : JSValue) : JSValue := if isNullish a then b else a.

(** [items.find((block) => block.type === t)] on the elements of an
    array. *)
Fixpoint findByType (t : jsstring) (items : list JSValue) : Completion JSException JSValue :=
  match items with
  | [] => Normal VUndefined
  | block :: rest =>
      type ← getProp block (lit "type");
      if strictEqualsString type t then Normal block else findByType t rest
  end.

(** [v.find((block) => block.type === t)]: of the values [JSON.parse]
    builds only the arrays have the method. *)
Definition arrayFindByType (t : jsstring) (v : JSValue) : Completion JSException JSValue :=
  match v with
  | VArray items => findByType t items
  | _ => Throw TypeError
  end.

(** The two characters of the class of the title regular expression: the
    double quote (34) and the single quote (39). *)
Definition isQuote (c : N) : bool := ((c =? 34) || (c =? 39))%N.

Fixpoint dropLeading (p : N -> bool) (s : jsstring) : jsstring :=
  match s with
  | [] => []
  | c :: r => if p c then dropLeading p r else s
  end.

(** [s.replace(re, empty)], where [re] is the global regular expression of
    two alternatives: a run of quotes anchored at the beginning, or a run
    of quotes anchored at the end.  The run of quotes at the beginning and
    the run of quotes at the end are removed. *)
Definition stripQuotes (s : jsstring) : jsstring :=
  rev (dropLeading isQuote (rev (dropLeading isQuote s))).

End JSMore.

(* ===================================================================== *)
(** * The adapters: parseTitleResponse *)
(* ===================================================================== *)

Module AnthropicTitle.

Import JSMore.

(** The tail of parseTitleResponse, from the text of a thinking block. *)
Definition titleFromThinking (thinking : JSValue) : Completion JSException JSValue :=
  match thinking with
  | VString s =>
      let lines := splitOn 10 (trim s) in
      match lastElement lines with
      | Some line =>
          let lastLine := trim line in
          if startsWith (lit "- ") lastLine
          then Normal (VString (trim (drop 2 lastLine)))
          else Normal (logicalOr (VString lastLine) VNull)
      | None => Normal VNull
      end
  | _ => Throw TypeError
  end.

Definition parseTitleResponse (responseBody : JSValue) : Completion JSException JSValue :=
  let data := responseBody in
  content ← getProp data (lit "content");
  missing ←
    (if negb (toBoolean content) then Normal true
     else
       len ← getProp content (lit "length");
       Normal (isZero len));
  if missing : bool then Normal VNull
  else
    textBlock ← arrayFindByType (lit "text") content;
    text ← getPropOpt textBlock (lit "text");
    if toBoolean text then Normal text
    else
      thinkingBlock ← arrayFindByType (lit "thinking") content;
      thinking ← getPropOpt thinkingBlock (lit "thinking");
      if toBoolean thinking then titleFromThinking thinking
      else Normal VNull.

End AnthropicTitle.

Module GoogleTitle.

Import JSMore.

(** [data.candidates?.[0]?.content?.parts?.[0]?.text ?? null] *)
Definition parseTitleResponse (responseBody : JSValue) : Completion JSException JSValue :=
  let data := responseBody in
  candidates ← getProp data (lit "candidates");
  candidate ← getIndex0Opt candidates;
  content ← getPropOpt candidate (lit "content");
  parts ← getPropOpt content (lit "parts");
  part ← getIndex0Opt parts;
  text ← getPropOpt part (lit "text");
  Normal (nullish text VNull).

End GoogleTitle.

(* ===================================================================== *)
(** * chat-service.ts: generateTitle *)
(* ===================================================================== *)

Module TitleService.

Import ChatService JSMore.

Record GenerateTitleInput : Type := mkGenerateTitleInput {
  gt_userMessage : jsstring;
  gt_channelId : jsstring;
  gt_modelId : jsstring
}.

(** What generateTitle calls: the channel and key stores, the adapter of a
    provider as far as its buildTitleRequest goes, the proxy settings, and
    [fetchTitle] of the core package on the request built, with the adapter
    and the fetch function of this world ([getFetchFn] included: what it
    throws, [fetchTitle] throws here). *)
Record TitleWorld : Type := mkTitleWorld {
  tw_listChannels : list Channel;
  tw_decryptApiKey : jsstring -> Completion Thrown jsstring;
  tw_getAdapter : jsstring -> Completion Thrown (TitleRequestInput -> ProviderRequest);
  tw_getEffectiveProxyUrl : Completion Thrown unit;
  tw_fetchTitle : ProviderRequest -> Completion Thrown (option jsstring)
}.

(** The text of TITLE_PROMPT, code unit by code unit. *)
Definition TITLE_PROMPT : jsstring :=
  [
    26681; 25454; 29992; 25143; 30340; 31532; 19968; 26465; 28040; 24687;
    65292; 29983; 25104; 19968; 20010; 31616; 30701; 30340; 23545; 35805;
    26631; 39064; 65288; 49; 48; 23383; 20197; 20869; 65289; 12290; 21482;
    36755; 20986; 26631; 39064; 65292; 19981; 35201; 26377; 20219; 20309;
    20854; 20182; 20869; 23481; 12289; 26631; 28857; 31526; 21495; 25110;
    24341; 21495; 12290; 22914; 26524; 28040; 24687; 20869; 23481; 36807;
    30701; 25110; 26080; 26126; 30830; 20027; 39064; 65292; 30452; 25509;
    20351; 29992; 21407; 22987; 28040; 24687; 20316; 20026; 26631; 39064;
    12290; 10; 10; 29992; 25143; 28040; 24687; 65306
  ]%N.

Definition SHORT_MESSAGE_THRESHOLD : nat := 4.

Definition MAX_TITLE_LENGTH : nat := 20.

(** The last [try] block of generateTitle. *)
Definition requestTitle (w : TitleWorld) (input : GenerateTitleInput)
    (channel : Channel) (apiKey : jsstring) : Completion Thrown (option jsstring) :=
  tryCatch
    (buildTitleRequest ← tw_getAdapter w (ch_provider channel);
     let request :=
       buildTitleRequest
         {| title_baseUrl := ch_baseUrl channel;
            title_apiKey := apiKey;
            title_modelId := gt_modelId input;
            title_prompt := strcat TITLE_PROMPT (gt_userMessage input) |} in
     _ ← tw_getEffectiveProxyUrl w;
     title ← tw_fetchTitle w request;
     match title with
     | None => Normal None
     | Some title =>
         if negb (truthy title) then Normal None
         else
           let cleaned := trim (stripQuotes (trim title)) in
           let result := take MAX_TITLE_LENGTH cleaned in
           Normal (if truthy result then Some result else None)
     end)
    (fun _ => Normal None).

Definition generateTitle (w : TitleWorld) (input : GenerateTitleInput)
    : Completion Thrown (option jsstring) :=
  let trimmedMessage := trim (gt_userMessage input) in
  if (length trimmedMessage <=? SHORT_MESSAGE_THRESHOLD)%nat then
    let shortTitle := take MAX_TITLE_LENGTH trimmedMessage in
    Normal (Some shortTitle)
  else
    match List.find (fun c => streq (ch_id c) (gt_channelId input)) (tw_listChannels w) with
    | None => Normal None
    | Some channel =>
        match tw_decryptApiKey w (gt_channelId input) with
        | Throw _ => Normal None
        | Normal apiKey => requestTitle w input channel apiKey
        end
    end.

End TitleService.

(* ===================================================================== *)
(** * The adapters: buildStreamRequest *)
(* ===================================================================== *)

Module StreamRequests.

Import ChatService.

(** [ImageAttachmentData] of providers/types.ts. *)
Record ImageAttachmentData : Type := mkImageAttachmentData {
  img_mediaType : jsstring;
  img_data : jsstring
}.

(** [items.map(f)] for a callback that may throw: the first exception ends
    the loop. *)
Fixpoint mapThrowing {A B : Type} (f : A -> Completion Thrown B) (items : list A)
    : Completion Thrown (list B) :=
  match items with
  | [] => Normal []
  | x :: rest =>
      y ← f x;
      ys ← mapThrowing f rest;
      Normal (y :: ys)
  end.

(** Truthiness of an optional boolean. *)
Definition optTrue (o : option bool) : bool :=
  match o with Some b => b | None => false end.

(** [msg.role !== 'system'] *)
Definition notSystem (msg : ChatMessage) : bool :=
  match msg_role msg with system => false | _ => true end.

(** [msg.role === 'user' && msg.attachments && msg.attachments.length > 0] *)
Definition hasAttachments (msg : ChatMessage) : bool :=
  match msg_role msg, msg_attachments msg with
  | user, Some atts => (0 <? length atts)%nat
  | _, _ => false
  end.

(** [input.tools && input.tools.length > 0], and the same test on
    [input.continuationMessages]. *)
Definition nonEmpty {A : Type} (o : option (list A)) : bool :=
  match o with Some l => (0 <? length l)%nat | None => false end.

(** Whether the [role] of a message of a request body is one of
    [roles]. *)
Definition roleIn (roles : list jsstring) (message : JSValue) : bool :=
  match getProp message (lit "role") with
  | Normal (VString role) => bool_decide (role ∈ roles)
  | _ => false
  end.

End StreamRequests.

Module AnthropicStream.

Import ChatService StreamRequests.

Section Adapter.

(** [input.readImageAttachments], [JSON.stringify] and url-utils.ts. *)
Variable readImageAttachments :
  option (list FileAttachment) -> Completion Thrown (list ImageAttachmentData).
Variable JSON_stringify : JSValue -> jsstring.
Variable normalizeAnthropicBaseUrl : jsstring -> jsstring.

Definition buildImageBlocks (imageData : list ImageAttachmentData) : list JSValue :=
  List.map
    (fun img =>
       VObject [ (lit "type", str "image");
                 (lit "source",
                   VObject [ (lit "type", str "base64");
                             (lit "media_type", VString (img_mediaType img));
                             (lit "data", VString (img_data img)) ]) ])
    imageData.

Definition buildMessageContent (text : jsstring) (imageData : list ImageAttachmentData)
    : JSValue :=
  if (length imageData =? 0)%nat then VString text
  else
    let content := buildImageBlocks imageData in
    let content :=
      if truthy text
      then content ++ [VObject [(lit "type", str "text"); (lit "text", VString text)]]
      else content in
    VArray content.

(** The callback of [history.filter(...).map(...)]. *)
Definition historyMessage (msg : ChatMessage) : Completion Thrown JSValue :=
  let role := match msg_role msg with assistant => str "assistant" | _ => str "user" end in
  if hasAttachments msg then
    historyImages ← readImageAttachments (msg_attachments msg);
    Normal (VObject [ (lit "role", role);
                      (lit "content", buildMessageContent (msg_content msg) historyImages) ])
  else
    Normal (VObject [ (lit "role", role); (lit "content", VString (msg_content msg)) ]).

Definition toAnthropicMessages (input : StreamRequestInput)
    : Completion Thrown (list JSValue) :=
  messages ← mapThrowing historyMessage (List.filter notSystem (sri_history input));
  currentImages ← readImageAttachments (sri_attachments input);
  Normal (messages ++
          [VObject [ (lit "role", str "user");
                     (lit "content",
                       buildMessageContent (sri_userMessage input) currentImages) ]]).

Definition toAnthropicTools (tools : list ToolDefinition) : list JSValue :=
  List.map
    (fun tool =>
       VObject [ (lit "name", VString (tool_name tool));
                 (lit "description", VString (tool_description tool));
                 (lit "input_schema", tool_parameters tool) ])
    tools.

(** One step of the loop of appendContinuationMessages: the message
    pushed for [contMsg]. *)
Definition continuationMessage (contMsg : ContinuationMessage) : JSValue :=
  match contMsg with
  | AssistantTurn text toolCalls =>
      let content : list JSValue := [] in
      let content :=
        if truthy text
        then content ++ [VObject [(lit "type", str "text"); (lit "text", VString text)]]
        else content in
      let content :=
        content ++
        List.map
          (fun tc =>
             VObject [ (lit "type", str "tool_use");
                       (lit "id", VString (tc_id tc));
                       (lit "name", VString (tc_name tc));
                       (lit "input", VObject (tc_arguments tc)) ])
          toolCalls in
      VObject [ (lit "role", str "assistant"); (lit "content", VArray content) ]
  | ToolTurn results =>
      let content :=
        List.map
          (fun result =>
             VObject [ (lit "type", str "tool_result");
                       (lit "tool_use_id", VString (tr_toolCallId result));
                       (lit "content", VString (tr_content result));
                       (lit "is_error", VBool (default false (tr_isError result))) ])
          results in
      VObject [ (lit "role", str "user"); (lit "content", VArray content) ]
  end.

(** [messages] is the array after the pushes. *)
Fixpoint appendContinuationMessages (messages : list JSValue)
    (continuationMessages : list ContinuationMessage) : list JSValue :=
  match continuationMessages with
  | [] => messages
  | contMsg :: rest =>
      appendContinuationMessages (messages ++ [continuationMessage contMsg]) rest
  end.

(** The object buildStreamRequest hands to [JSON.stringify].  The body
    holds the array [messages] itself, so the continuation pushed after
    the body was created is part of it when it is serialised; the keys
    keep the order in which they were set. *)
Definition streamRequestBody (input : StreamRequestInput) : Completion Thrown JSValue :=
  messages ← toAnthropicMessages input;
  let thinkingBudget := 16384 in
  let maxTokens :=
    if optTrue (sri_thinkingEnabled input) then thinkingBudget + 16384 else 8192 in
  let messages :=
    if nonEmpty (sri_continuationMessages input)
    then appendContinuationMessages messages
           (default [] (sri_continuationMessages input))
    else messages in
  let body :=
    [ (lit "model", VString (sri_modelId input));
      (lit "max_tokens", num maxTokens);
      (lit "messages", VArray messages);
      (lit "stream", VBool true) ] in
  let body :=
    if optTrue (sri_thinkingEnabled input)
    then body ++ [(lit "thinking",
                    VObject [ (lit "type", str "enabled");
                              (lit "budget_tokens", num thinkingBudget) ])]
    else body in
  let body :=
    match sri_systemMessage input with
    | Some systemMessage =>
        if truthy systemMessage
        then body ++ [(lit "system", VString systemMessage)]
        else body
    | None => body
    end in
  let body :=
    if nonEmpty (sri_tools input)
    then body ++ [(lit "tools", VArray (toAnthropicTools (default [] (sri_tools input))))]
    else body in
  Normal (VObject body).

Definition buildStreamRequest (input : StreamRequestInput)
    : Completion Thrown ProviderRequest :=
  let url := normalizeAnthropicBaseUrl (sri_baseUrl input) in
  body ← streamRequestBody input;
  Normal
    {| req_url := strcat url (lit "/messages");
       req_headers :=
         [ (lit "x-api-key", sri_apiKey input);
           (lit "Authorization", strcat (lit "Bearer ") (sri_apiKey input));
           (lit "anthropic-version", lit "2023-06-01");
           (lit "content-type", lit "application/json") ];
       req_body := JSON_stringify body |}.

End Adapter.

End AnthropicStream.

Module GoogleStream.

Import ChatService StreamRequests.

Section Adapter.

Variable readImageAttachments :
  option (list FileAttachment) -> Completion Thrown (list ImageAttachmentData).
Variable JSON_stringify : JSValue -> jsstring.
Variable normalizeBaseUrl : jsstring -> jsstring.

Definition buildImageParts (imageData : list ImageAttachmentData) : list JSValue :=
  List.map
    (fun img =>
       VObject [ (lit "inline_data",
                   VObject [ (lit "mime_type", VString (img_mediaType img));
                             (lit "data", VString (img_data img)) ]) ])
    imageData.

Definition buildMessageParts (text : jsstring) (imageData : list ImageAttachmentData)
    : list JSValue :=
  let parts := buildImageParts imageData in
  if truthy text then parts ++ [VObject [(lit "text", VString text)]] else parts.

(** The callback of [history.filter(...).map(...)]. *)
Definition historyContent (msg : ChatMessage) : Completion Thrown JSValue :=
  let role := match msg_role msg with assistant => str "model" | _ => str "user" end in
  if hasAttachments msg then
    historyImages ← readImageAttachments (msg_attachments msg);
    Normal (VObject [ (lit "role", role);
                      (lit "parts",
                        VArray (buildMessageParts (msg_content msg) historyImages)) ])
  else
    Normal (VObject [ (lit "role", role);
                      (lit "parts",
                        VArray [VObject [(lit "text", VString (msg_content msg))]]) ]).

Definition toGoogleContents (input : StreamRequestInput)
    : Completion Thrown (list JSValue) :=
  contents ← mapThrowing historyContent (List.filter notSystem (sri_history input));
  currentImages ← readImageAttachments (sri_attachments input);
  Normal (contents ++
          [VObject [ (lit "role", str "user");
                     (lit "parts",
                       VArray (buildMessageParts (sri_userMessage input) currentImages)) ]]).

Definition toGoogleTools (tools : list ToolDefinition) : list JSValue :=
  [VObject
     [ (lit "functionDeclarations",
         VArray
           (List.map
              (fun tool =>
                 VObject [ (lit "name", VString (tool_name tool));
                           (lit "description", VString (tool_description tool));
                           (lit "parameters", tool_parameters tool) ])
              tools)) ]].

(** [tc.metadata?.thoughtSignature] *)
Definition thoughtSignatureOf (tc : ToolCall) : JSValue :=
  match tc_metadata tc with
  | Some metadata => lookupProp (lit "thoughtSignature") metadata
  | None => VUndefined
  end.

(** The part pushed for one tool call of an assistant turn. *)
Definition functionCallPart (tc : ToolCall) : JSValue :=
  let part :=
    [ (lit "functionCall",
        VObject [ (lit "name", VString (tc_name tc));
                  (lit "args", VObject (tc_arguments tc)) ]) ] in
  let part :=
    if toBoolean (thoughtSignatureOf tc)
    then part ++ [(lit "thoughtSignature", thoughtSignatureOf tc)]
    else part in
  VObject part.

(** One step of the loop of appendContinuationMessages: the content
    pushed for [contMsg]. *)
Definition continuationContent (contMsg : ContinuationMessage) : JSValue :=
  match contMsg with
  | AssistantTurn text toolCalls =>
      let parts : list JSValue := [] in
      let parts :=
        if truthy text then parts ++ [VObject [(lit "text", VString text)]] else parts in
      let parts := parts ++ List.map functionCallPart toolCalls in
      VObject [ (lit "role", str "model"); (lit "parts", VArray parts) ]
  | ToolTurn results =>
      let parts :=
        List.map
          (fun r =>
             VObject
               [ (lit "functionResponse",
                   VObject [ (lit "name", VString (tr_toolCallId r));
                             (lit "response",
                               VObject [(lit "content", VString (tr_content r))]) ]) ])
          results in
      VObject [ (lit "role", str "user"); (lit "parts", VArray parts) ]
  end.

Fixpoint appendContinuationMessages (contents : list JSValue)
    (continuationMessages : list ContinuationMessage) : list JSValue :=
  match continuationMessages with
  | [] => contents
  | contMsg :: rest =>
      appendContinuationMessages (contents ++ [continuationContent contMsg]) rest
  end.

(** The object buildStreamRequest hands to [JSON.stringify]; as in the
    Anthropic adapter the body holds the array [contents] itself. *)
Definition streamRequestBody (input : StreamRequestInput) : Completion Thrown JSValue :=
  contents ← toGoogleContents input;
  let generationConfig : list (jsstring * JSValue) := [] in
  let generationConfig :=
    if optTrue (sri_thinkingEnabled input)
    then generationConfig ++
         [(lit "thinkingConfig",
            VObject [ (lit "includeThoughts", VBool true);
                      (lit "thinkingBudget", num 16384) ])]
    else generationConfig in
  let contents :=
    if nonEmpty (sri_continuationMessages input)
    then appendContinuationMessages contents
           (default [] (sri_continuationMessages input))
    else contents in
  let body := [ (lit "contents", VArray contents) ] in
  let body :=
    if (0 <? length generationConfig)%nat
    then body ++ [(lit "generationConfig", VObject generationConfig)]
    else body in
  let body :=
    match sri_systemMessage input with
    | Some systemMessage =>
        if truthy systemMessage
        then body ++
             [(lit "systemInstruction",
                VObject [(lit "parts",
                           VArray [VObject [(lit "text", VString systemMessage)]])])]
        else body
    | None => body
    end in
  let body :=
    if nonEmpty (sri_tools input)
    then body ++ [(lit "tools", VArray (toGoogleTools (default [] (sri_tools input))))]
    else body in
  Normal (VObject body).

Definition buildStreamRequest (input : StreamRequestInput)
    : Completion Thrown ProviderRequest :=
  let url := normalizeBaseUrl (sri_baseUrl input) in
  body ← streamRequestBody input;
  Normal
    {| req_url :=
         strcat url (strcat (lit "/v1beta/models/")
           (strcat (sri_modelId input)
             (strcat (lit ":streamGenerateContent?alt=sse&key=") (sri_apiKey input))));
       req_headers := [ (lit "content-type", lit "application/json") ];
       req_body := JSON_stringify body |}.

End Adapter.

End GoogleStream.

(* ===================================================================== *)
(** * memos-client.ts: callApi *)
(* ===================================================================== *)

Module MemosClient.

Import ChatService.

Definition RETRIES : nat := 1.

Definition API_KEY_NOT_SET : jsstring := lit "MEMOS_API_KEY not set".

(** [err instanceof Error ? err : new Error(String(err))] *)
Definition asError (err : Thrown) : Thrown :=
  match err with
  | ThrownError message => ThrownError message
  | ThrownOther asString => ThrownError asString
  end.

Section CallApi.

(** One attempt, the body of the [try] block at a given value of
    [attempt]: the request, the status check and the decoding of the
    answer give the decoded answer, or throw. *)
Variable request : nat -> Completion Thrown JSValue.

(** [for (let attempt = ...; attempt <= RETRIES; attempt++)], [remaining]
    being the number of values [attempt] has yet to take.  The result
    comes with the number of attempts made. *)
Fixpoint attemptLoop (remaining attempt : nat) (lastError : option Thrown) (made : nat)
    : Completion (option Thrown) JSValue * nat :=
  match remaining with
  | O => (Throw lastError, made)
  | S remaining' =>
      match request attempt with
      | Normal answer => (Normal answer, S made)
      | Throw err =>
          attemptLoop remaining' (S attempt) (Some (asError err)) (S made)
      end
  end.

(** callApi: what it returns or throws ([None] is [undefined] thrown),
    and how many attempts it made. *)
Definition callApi (credentials : MemosCredentials)
    : Completion (option Thrown) JSValue * nat :=
  if negb (truthy (cred_apiKey credentials))
  then (Throw (Some (ThrownError API_KEY_NOT_SET)), O)
  else attemptLoop (S RETRIES) 0 None 0.

End CallApi.

End MemosClient.

(** Sample worlds and inputs for the title service and the clients. *)
Module TitleSamples.

Import ChatService TitleService.

(** The provider answers every title request with [title]. *)
Definition answering (title : jsstring) : TitleWorld :=
  {| tw_listChannels := [Samples.channel1];
     tw_decryptApiKey := fun _ => Normal (lit "sk");
     tw_getAdapter :=
       fun _ => Normal (Anthropic.buildTitleRequest Samples.sampleStringify (fun url => url));
     tw_getEffectiveProxyUrl := Normal tt;
     tw_fetchTitle := fun _ => Normal (Some title) |}.

Definition greeting : GenerateTitleInput :=
  {| gt_userMessage := lit "  hi "; gt_channelId := lit "ch1"; gt_modelId := lit "m1" |}.

Definition question : GenerateTitleInput :=
  {| gt_userMessage := lit "How do I bake sourdough bread at home?";
     gt_channelId := lit "ch1"; gt_modelId := lit "m1" |}.

End TitleSamples.

(** What the parsers put in the events of one frame. *)
Module EventShapes.

(** An event of the Anthropic parser: the text of a chunk, of a reasoning
    step, of an argument fragment and of a stop reason is truthy; a tool
    call starts without metadata, and an argument fragment names no tool
    call. *)
Definition anthropicEvent (ev : StreamEvent JSValue) : Prop :=
  match ev with
  | chunk delta | reasoning delta => toBoolean delta = true
  | tool_call_start _ _ metadata => metadata = None
  | tool_call_delta toolCallId argumentsDelta =>
      toolCallId = VString [] /\ toBoolean argumentsDelta = true
  | done stopReason => toBoolean stopReason = true
  end.

(** The events of the Google parser: chunks and reasoning steps of truthy
    text, and tool calls, each one a start with the function name for its
    id followed at once by its arguments as one text. *)
Fixpoint googleEvents (events : list (StreamEvent JSValue)) : Prop :=
  match events with
  | [] => True
  | chunk delta :: rest | reasoning delta :: rest =>
      toBoolean delta = true /\ googleEvents rest
  | tool_call_start toolCallId toolName _ :: tool_call_delta toolCallId' (VString _) :: rest =>
      toolCallId = toolName /\ toolCallId' = toolCallId /\ googleEvents rest
  | _ => False
  end.

(** [ev.type === 'done'] *)
Definition isDone {T : Type} (ev : StreamEvent T) : bool :=
  match ev with done _ => true | _ => false end.

End EventShapes.

(* ===================================================================== *)
(** * Properties *)
(* ===================================================================== *)

(** ** Strings *)

Section TrimFacts.

Lemma trimStart_nil_iff (s : jsstring) :
  trimStart s = [] <-> forallb isWhiteSpace s = true.
Proof.
  induction s as [|c r IH]; simpl; [tauto|].
  destruct (isWhiteSpace c); simpl; [exact IH|].
  split; intros H; discriminate H.
Qed.

Lemma forallb_rev_ws (s : jsstring) :
  forallb isWhiteSpace (rev s) = forallb isWhiteSpace s.
Proof.
  induction s as [|c r IH]; simpl; [reflexivity|].
  rewrite forallb_app, IH. simpl. rewrite andb_true_r. apply andb_comm.
Qed.

Lemma trimStart_keeps_ink (s : jsstring) :
  forallb isWhiteSpace s = false -> forallb isWhiteSpace (trimStart s) = false.
Proof.
  induction s as [|c r IH]; simpl; [discriminate|].
  destruct (isWhiteSpace c) eqn:E; simpl; [exact IH|].
  intros _. rewrite E. reflexivity.
Qed.

(** [s.trim()] is the empty string exactly when [s] is made of white space
    only. *)
Lemma truthy_trim (s : jsstring) :
  truthy (trim s) = negb (forallb isWhiteSpace s).
Proof.
  unfold trim, trimEnd.
  destruct (forallb isWhiteSpace s) eqn:E; simpl.
  - apply trimStart_nil_iff in E. rewrite E. reflexivity.
  - apply trimStart_keeps_ink in E.
    rewrite <- forallb_rev_ws in E. apply trimStart_keeps_ink in E.
    rewrite <- forallb_rev_ws in E.
    destruct (rev (trimStart (rev (trimStart s)))); [discriminate E|reflexivity].
Qed.

Lemma truthy_trim_truthy (s : jsstring) :
  truthy (trim s) = true -> truthy s = true.
Proof.
  rewrite truthy_trim. destruct s; simpl; [discriminate|reflexivity].
Qed.

End TrimFacts.

(** ** filterHistory *)

Section HistoryFilterFacts.

Import HistoryFilter.

Lemma findIndex_range {A : Type} (p : A -> bool) (l : list A) :
  -1 <= findIndex p l < Z.of_nat (length l).
Proof.
  induction l as [|x r IH]; simpl; [lia|].
  destruct (p x); [lia|].
  destruct (findIndex p r <? 0) eqn:E; [lia|].
  apply Z.ltb_ge in E. lia.
Qed.

(** No element satisfies the predicate when findIndex answers [-1]. *)
Lemma findIndex_none {A : Type} (p : A -> bool) (l : list A) :
  findIndex p l < 0 -> forall x, In x l -> p x = false.
Proof.
  induction l as [|y r IH]; simpl; [tauto|].
  destruct (p y) eqn:Ey; [lia|].
  destruct (findIndex p r <? 0) eqn:E.
  - apply Z.ltb_lt in E. intros _ x [<-|Hx]; [exact Ey|exact (IH E x Hx)].
  - apply Z.ltb_ge in E. lia.
Qed.

(** Otherwise findIndex is the position of the first such element. *)
Lemma findIndex_split {A : Type} (p : A -> bool) (l : list A) :
  0 <= findIndex p l ->
  exists pre x post,
    l = pre ++ x :: post /\ p x = true /\
    (forall y, In y pre -> p y = false) /\
    findIndex p l = Z.of_nat (length pre).
Proof.
  induction l as [|y r IH]; simpl; [lia|].
  destruct (p y) eqn:Ey.
  - intros _. exists [], y, r. simpl. repeat split; [exact Ey|tauto].
  - destruct (findIndex p r <? 0) eqn:E; [lia|].
    apply Z.ltb_ge in E. intros _.
    destruct (IH E) as (pre & x & post & -> & Hx & Hpre & Hi).
    exists (y :: pre), x, post. simpl. repeat split; [exact Hx| |lia].
    intros z [<-|Hz]; [exact Ey|exact (Hpre z Hz)].
Qed.

Lemma slice_after {A : Type} (pre : list A) (x : A) (post : list A) :
  slice (Z.of_nat (length pre) + 1) (pre ++ x :: post) = post.
Proof.
  unfold slice.
  replace (Z.to_nat (Z.of_nat (length pre) + 1)) with (length (pre ++ [x])).
  - rewrite (cons_middle x pre post), app_assoc. apply drop_app_length.
  - rewrite length_app. simpl. lia.
Qed.

Lemma lastElement_snoc {A : Type} (l : list A) (x : A) :
  lastElement (l ++ [x]) = Some x.
Proof. unfold lastElement. apply last_snoc. Qed.

Lemma streq_true (a b : jsstring) : streq a b = true <-> a = b.
Proof. unfold streq. apply bool_decide_eq_true. Qed.

Lemma streq_false (a b : jsstring) : streq a b = false <-> a <> b.
Proof. unfold streq. apply bool_decide_eq_false. Qed.

(** The divider step in the words of the specification. *)
Lemma applyDividers_snoc (F : list ChatMessage) (ds : list jsstring) (d : jsstring) :
  ((forall m, In m F -> msg_id m <> d) /\ applyDividers F (Some (ds ++ [d])) = F)
  \/ (exists pre m post,
        F = pre ++ m :: post /\ msg_id m = d /\
        (forall x, In x pre -> msg_id x <> d) /\
        applyDividers F (Some (ds ++ [d])) = post).
Proof.
  unfold applyDividers.
  assert (Hlen : (0 <? Z.of_nat (length (ds ++ [d]))) = true).
  { apply Z.ltb_lt. rewrite length_app. simpl. lia. }
  rewrite Hlen, lastElement_snoc.
  destruct (findIndex (fun msg => streq (msg_id msg) d) F >=? 0) eqn:E.
  - right. apply Z.geb_le in E.
    destruct (findIndex_split _ _ E) as (pre & m & post & -> & Hm & Hpre & Hi).
    exists pre, m, post. repeat split.
    + apply streq_true. exact Hm.
    + intros x Hx. apply streq_false. exact (Hpre x Hx).
    + rewrite Hi. apply slice_after.
  - left. split; [|reflexivity].
    assert (Hneg : findIndex (fun msg => streq (msg_id msg) d) F < 0).
    { destruct (Z.geb_spec (findIndex (fun msg => streq (msg_id msg) d) F) 0); [discriminate|lia]. }
    intros m Hm. apply streq_false. exact (findIndex_none _ _ Hneg m Hm).
Qed.

Lemma rounds_app (a b : list ChatMessage) : rounds (a ++ b) = (rounds a + rounds b)%nat.
Proof. unfold rounds. rewrite List.filter_app, length_app. reflexivity. Qed.

Lemma rounds_rev (l : list ChatMessage) : rounds (rev l) = rounds l.
Proof.
  induction l as [|m r IH]; [reflexivity|].
  simpl rev. rewrite rounds_app, IH. unfold rounds. simpl.
  destruct (isUser m); simpl; lia.
Qed.

(** What the backward loop leaves in [collected]: the visited messages, put
    back in their order, in front of what was there.  The loop stops either
    at the end of the sequence, short of [contextLength] rounds, or right on
    the user message that completes the last round. *)
Lemma collectRounds_spec (n : Z) (pending : list ChatMessage) :
  forall (roundCount : Z) (collected : list ChatMessage),
  roundCount < n ->
  exists taken rest,
    pending = taken ++ rest /\
    collectRounds n pending roundCount collected = rev taken ++ collected /\
    ((rest = [] /\ roundCount + Z.of_nat (rounds taken) < n)
     \/ (roundCount + Z.of_nat (rounds taken) = n /\
         exists taken' m, taken = taken' ++ [m] /\ isUser m = true)).
Proof.
  induction pending as [|msg earlier IH]; intros rc collected Hrc; simpl.
  - exists [], []. repeat split. left. split; [reflexivity|]. unfold rounds. simpl. lia.
  - destruct (isUser msg) eqn:Eu.
    + destruct (rc + 1 >=? n) eqn:Ege.
      * apply Z.geb_le in Ege. exists [msg], earlier. repeat split.
        right. split.
        -- unfold rounds. simpl. rewrite Eu. simpl. lia.
        -- exists [], msg. split; [reflexivity|exact Eu].
      * assert (Hlt : rc + 1 < n).
        { destruct (Z.geb_spec (rc + 1) n); [discriminate|lia]. }
        destruct (IH (rc + 1) (msg :: collected) Hlt)
          as (taken & rest & -> & Hres & Hcase).
        exists (msg :: taken), rest. split; [reflexivity|]. split.
        -- rewrite Hres. simpl. rewrite <- app_assoc. reflexivity.
        -- assert (Hr : rounds (msg :: taken) = S (rounds taken)).
           { unfold rounds. simpl. rewrite Eu. reflexivity. }
           rewrite Hr. destruct Hcase as [[-> Hc]|[Hc (t' & m & -> & Hm)]].
           ++ left. split; [reflexivity|lia].
           ++ right. split; [lia|]. exists (msg :: t'), m. split; [reflexivity|exact Hm].
    + destruct (IH rc (msg :: collected) Hrc)
        as (taken & rest & -> & Hres & Hcase).
      exists (msg :: taken), rest. split; [reflexivity|]. split.
      * rewrite Hres. simpl. rewrite <- app_assoc. reflexivity.
      * assert (Hr : rounds (msg :: taken) = rounds taken).
        { unfold rounds. simpl. rewrite Eu. reflexivity. }
        rewrite Hr. destruct Hcase as [[-> Hc]|[Hc (t' & m & -> & Hm)]].
        -- left. split; [reflexivity|exact Hc].
        -- right. split; [exact Hc|]. exists (msg :: t'), m. split; [reflexivity|exact Hm].
Qed.

Lemma filterHistory_unlimited (H : list ChatMessage) (dividers : option (list jsstring)) :
  filterHistory H dividers CtxUnset = dividerTrimmed H dividers /\
  filterHistory H dividers CtxInfinite = dividerTrimmed H dividers.
Proof. split; reflexivity. Qed.

Lemma filterHistory_zero (H : list ChatMessage) (dividers : option (list jsstring)) :
  filterHistory H dividers (CtxNumber 0) = [].
Proof. reflexivity. Qed.

(** A positive round limit: the result is the trimmed history short of a
    prefix, and either all of it (fewer user messages than the limit) or it
    begins at a user message and holds exactly the limit of them. *)
Lemma filterHistory_positive (H : list ChatMessage) (dividers : option (list jsstring))
    (k : nat) :
  let T := dividerTrimmed H dividers in
  let R := filterHistory H dividers (CtxNumber (Z.of_nat (S k))) in
  exists pre,
    T = pre ++ R /\
    ((pre = [] /\ (rounds T < S k)%nat)
     \/ (rounds R = S k /\ exists m tail, R = m :: tail /\ msg_role m = user)).
Proof.
  intros T R. subst R. unfold filterHistory.
  change (applyDividers (List.filter keepMessage H) dividers) with T.
  assert (E1 : (Z.of_nat (S k) >=? 0) = true) by (apply Z.geb_le; lia).
  assert (E2 : (Z.of_nat (S k) =? 0) = false) by (apply Z.eqb_neq; lia).
  rewrite E1, E2.
  destruct (collectRounds_spec (Z.of_nat (S k)) (rev T) 0 []) as
    (taken & rest & Hsplit & Hres & Hcase); [lia|].
  rewrite Hres, app_nil_r.
  assert (HT : T = rev rest ++ rev taken).
  { rewrite <- (rev_involutive T), Hsplit, rev_app_distr. reflexivity. }
  exists (rev rest). split; [exact HT|].
  destruct Hcase as [[-> Hc]|[Hc (t' & m & -> & Hm)]].
  - left. split; [reflexivity|]. rewrite HT. simpl. rewrite rounds_rev. lia.
  - right. split.
    + rewrite rounds_rev. lia.
    + exists m, (rev t'). split.
      * rewrite rev_app_distr. reflexivity.
      * unfold isUser in Hm. apply bool_decide_eq_true in Hm. exact Hm.
Qed.

Lemma filterHistory_negative (H : list ChatMessage) (dividers : option (list jsstring))
    (n : Z) :
  n < 0 -> filterHistory H dividers (CtxNumber n) = dividerTrimmed H dividers.
Proof.
  intros Hn. unfold filterHistory.
  destruct (Z.geb_spec n 0); [lia|reflexivity].
Qed.

(** C5. For every history, divider list and context-length policy,
    filterHistory returns a suffix of the divider-trimmed,
    empty-assistant-filtered history.  When the policy is a non-negative
    integer [n] the suffix holds exactly [min n (user messages of the
    trimmed history)] rounds, a round being counted at each user-role
    message and at nothing else: for a positive [n] the result is the whole
    trimmed history or begins at a user message.  The policy 0 gives the
    empty list; [infinite] and an unset policy give the trimmed history
    unchanged. *)
Theorem filterHistory_rounds (H : list ChatMessage) (dividers : option (list jsstring)) :
  let T := HistoryFilter.dividerTrimmed H dividers in
  (forall P, exists pre, T = pre ++ HistoryFilter.filterHistory H dividers P)
  /\ (forall n : nat,
        HistoryFilter.rounds (HistoryFilter.filterHistory H dividers (CtxNumber (Z.of_nat n)))
        = Nat.min n (HistoryFilter.rounds T))
  /\ (forall n : nat,
        let R := HistoryFilter.filterHistory H dividers (CtxNumber (Z.of_nat (S n))) in
        R = T \/ exists m tail, R = m :: tail /\ msg_role m = user)
  /\ HistoryFilter.filterHistory H dividers (CtxNumber 0) = []
  /\ HistoryFilter.filterHistory H dividers CtxInfinite = T
  /\ HistoryFilter.filterHistory H dividers CtxUnset = T.
Proof.
  intros T. repeat split.
  - intros [| |n].
    + exists []. reflexivity.
    + exists []. reflexivity.
    + destruct (Z.ltb_spec n 0) as [Hneg|Hpos].
      * exists []. rewrite (filterHistory_negative H dividers n Hneg). reflexivity.
      * destruct (Z.to_nat n) as [|k] eqn:Ek.
        -- assert (n = 0) as -> by lia. exists T. rewrite app_nil_r. reflexivity.
        -- assert (n = Z.of_nat (S k)) as -> by lia.
           destruct (filterHistory_positive H dividers k) as (pre & Hpre & _).
           exists pre. exact Hpre.
  - intros [|k]; [reflexivity|].
    subst T.
    destruct (filterHistory_positive H dividers k) as (pre & Hpre & [[Hnil Hlt]|[Hr _]]).
    + subst pre. rewrite app_nil_l in Hpre. rewrite <- Hpre. lia.
    + rewrite Hr.
      assert (rounds (dividerTrimmed H dividers) = (rounds pre + S k)%nat).
      { rewrite Hpre at 1. rewrite rounds_app, Hr. reflexivity. }
      lia.
  - intros k R. subst T R.
    destruct (filterHistory_positive H dividers k) as (pre & Hpre & [[Hnil _]|[_ Hhead]]).
    + left. subst pre. rewrite app_nil_l in Hpre. symmetry. exact Hpre.
    + right. exact Hhead.
Qed.

(** C6. With a non-empty divider list whose last id is [d], and before any
    round-count trimming, filterHistory applies the dividers to the
    sequence left by the empty-assistant filter: when no message of that
    sequence has the id [d] the sequence is returned whole; otherwise only
    the messages strictly after the position of [d] in that sequence are
    kept. *)
Theorem filterHistory_last_divider (H : list ChatMessage) (ds : list jsstring) (d : jsstring) :
  let F := HistoryFilter.emptyAssistantFiltered H in
  let R := HistoryFilter.filterHistory H (Some (ds ++ [d])) CtxUnset in
  ((forall m, In m F -> msg_id m <> d) /\ R = F)
  \/ (exists pre m post,
        F = pre ++ m :: post /\ msg_id m = d /\
        (forall x, In x pre -> msg_id x <> d) /\
        R = post).
Proof.
  intros F R. exact (applyDividers_snoc F ds d).
Qed.

(** The history 1 .. 7 of the samples: message 3 is an assistant message of
    two blanks, the user messages are 1, 4 and 6. *)

Example filterHistory_one_round :
  List.map msg_id (filterHistory Samples.history1 None (CtxNumber 1))
  = [lit "6"; lit "7"].
Proof. vm_compute. reflexivity. Qed.

Example filterHistory_two_rounds :
  List.map msg_id (filterHistory Samples.history1 None (CtxNumber 2))
  = [lit "4"; lit "5"; lit "6"; lit "7"].
Proof. vm_compute. reflexivity. Qed.

Example filterHistory_more_rounds_than_users :
  List.map msg_id (filterHistory Samples.history1 None (CtxNumber 5))
  = [lit "1"; lit "2"; lit "4"; lit "5"; lit "6"; lit "7"].
Proof. vm_compute. reflexivity. Qed.

Example filterHistory_after_last_divider :
  List.map msg_id (filterHistory Samples.history1 (Some [lit "6"; lit "2"]) CtxUnset)
  = [lit "4"; lit "5"; lit "6"; lit "7"].
Proof. vm_compute. reflexivity. Qed.

(** The last divider is the filtered-out message 3, or an id that is not in
    the history: the dividers have no effect, earlier dividers included. *)
Example filterHistory_divider_filtered_out :
  List.map msg_id (filterHistory Samples.history1 (Some [lit "4"; lit "3"]) CtxInfinite)
  = [lit "1"; lit "2"; lit "4"; lit "5"; lit "6"; lit "7"].
Proof. vm_compute. reflexivity. Qed.

Example filterHistory_divider_absent :
  List.map msg_id (filterHistory Samples.history1 (Some [lit "2"; lit "9"]) CtxUnset)
  = [lit "1"; lit "2"; lit "4"; lit "5"; lit "6"; lit "7"].
Proof. vm_compute. reflexivity. Qed.

End HistoryFilterFacts.

(** ** sendMessage: how the state evolves *)

Section ChatServiceFacts.

Import ChatService Spec.

Lemma chunkText_app (a b : list IpcEvent) :
  chunkText (a ++ b) = chunkText a ++ chunkText b.
Proof.
  induction a as [|ev r IH]; [reflexivity|].
  destruct ev; simpl; try exact IH.
  unfold strcat. rewrite IH. apply app_assoc.
Qed.

Lemma streamed_refl (st : State) : streamed st st [].
Proof. unfold streamed. rewrite app_nil_r. repeat split. Qed.

Lemma streamed_trans (a b c : State) (m1 m2 : list IpcEvent) :
  streamed a b m1 -> streamed b c m2 -> streamed a c (m1 ++ m2).
Proof.
  intros (S1 & T1 & A1 & C1 & U1 & N1) (S2 & T2 & A2 & C2 & U2 & N2).
  unfold streamed. rewrite S2, S1, forallb_app, T1, T2, app_assoc.
  repeat split; congruence.
Qed.

Lemma streamed_send (ev : IpcEvent) (st : State) :
  notTerminal ev = true -> streamed st (send ev st) [ev].
Proof. intros H. unfold streamed. simpl. rewrite H. repeat split. Qed.

Lemma streamed_logRequest (request : StreamRequestInput) (st : State) :
  streamed st (logRequest request st) [].
Proof. unfold streamed. simpl. rewrite app_nil_r. repeat split. Qed.

Section Run.

Variable w : World.
Variable input : ChatSendInput.

Lemma onEvent_spec (event : StreamEvent jsstring) (acc : Accumulated) (st : State) :
  exists mid,
    streamed st (snd (onEvent input event (acc, st))) mid /\
    accumulatedContent (fst (onEvent input event (acc, st)))
      = accumulatedContent acc ++ chunkText mid /\
    requests (snd (onEvent input event (acc, st))) = requests st.
Proof.
  destruct event; simpl.
  - eexists. split; [apply streamed_send; reflexivity|].
    simpl. unfold strcat. rewrite app_nil_r. split; reflexivity.
  - eexists. split; [apply streamed_send; reflexivity|].
    simpl. rewrite app_nil_r. split; reflexivity.
  - eexists. split; [apply streamed_send; reflexivity|].
    simpl. rewrite app_nil_r. split; reflexivity.
  - exists []. split; [apply streamed_refl|]. simpl. rewrite app_nil_r. split; reflexivity.
  - exists []. split; [apply streamed_refl|]. simpl. rewrite app_nil_r. split; reflexivity.
Qed.

Lemma deliver_spec (events : list (StreamEvent jsstring)) :
  forall (acc : Accumulated) (st : State),
  exists mid,
    streamed st (snd (deliver input events (acc, st))) mid /\
    accumulatedContent (fst (deliver input events (acc, st)))
      = accumulatedContent acc ++ chunkText mid /\
    requests (snd (deliver input events (acc, st))) = requests st.
Proof.
  induction events as [|event rest IH]; intros acc st.
  - exists []. split; [apply streamed_refl|]. simpl. rewrite app_nil_r. split; reflexivity.
  - change (deliver input (event :: rest) (acc, st))
      with (deliver input rest (onEvent input event (acc, st))).
    destruct (onEvent_spec event acc st) as (m1 & S1 & A1 & R1).
    destruct (onEvent input event (acc, st)) as [acc1 st1]. simpl in S1, A1, R1.
    destruct (IH acc1 st1) as (m2 & S2 & A2 & R2).
    exists (m1 ++ m2). split; [exact (streamed_trans _ _ _ _ _ S1 S2)|]. split.
    + rewrite A2, A1, chunkText_app, app_assoc. reflexivity.
    + rewrite R2. exact R1.
Qed.

(** executeMemoryToolCall always returns a result, for the call it was
    given: every exception of the memory service is caught. *)
Lemma executeMemoryToolCall_returns (round : nat) (tc : ToolCall) (cfg : MemoryConfig) :
  exists r, executeMemoryToolCall w round tc cfg = Normal r /\
            tr_toolCallId r = tc_id tc.
Proof.
  unfold executeMemoryToolCall, tryCatch, mbind, Completion_bind, bind.
  destruct (streq (tc_name tc) (lit "recall_memory")).
  - destruct (searchMemory w round _ _); eexists; split; reflexivity.
  - destruct (streq (tc_name tc) (lit "add_memory")).
    + destruct (addMemory w round _ _ _); eexists; split; reflexivity.
    + eexists; split; reflexivity.
Qed.

(** A name outside the fixed set makes executeMemoryToolCall answer with
    an error-tagged result. *)
Lemma executeMemoryToolCall_unknown (round : nat) (tc : ToolCall) (cfg : MemoryConfig) :
  isKnownTool (tc_name tc) = false ->
  executeMemoryToolCall w round tc cfg
  = Normal {| tr_toolCallId := tc_id tc;
              tr_content := strcat (lit "Unknown tool: ") (tc_name tc);
              tr_isError := Some true |}.
Proof.
  unfold isKnownTool. intros H. apply orb_false_iff in H as [H1 H2].
  unfold executeMemoryToolCall. rewrite H1, H2. reflexivity.
Qed.

(** The loop over the tool calls: a result is pushed for the calls of the
    fixed tool set, in their order, and for no other call. *)
Lemma executeToolCalls_spec (cfg : MemoryConfig) (round : nat) (toolCalls : list ToolCall) :
  forall (results : list ToolResult) (st : State),
  exists new st' mid,
    executeToolCalls w input cfg round toolCalls results st
      = (Normal (results ++ new), st') /\
    streamed st st' mid /\ chunkText mid = [] /\
    requests st' = requests st /\
    List.map tr_toolCallId new
      = List.map tc_id (List.filter (fun tc => isKnownTool (tc_name tc)) toolCalls).
Proof.
  induction toolCalls as [|tc rest IH]; intros results st; simpl.
  - exists [], st, []. rewrite app_nil_r. repeat split. apply streamed_refl.
  - fold (isKnownTool (tc_name tc)).
    destruct (isKnownTool (tc_name tc)) eqn:Ek.
    + destruct (executeMemoryToolCall_returns round tc cfg) as (r & -> & Hid).
      match goal with
      | |- context [executeToolCalls _ _ _ _ _ ?rs ?s] =>
          destruct (IH rs s) as (new & st' & mid & -> & S1 & C1 & R1 & M1)
      end.
      exists (r :: new), st',
        (STREAM_TOOL_ACTIVITY (conversationId input)
           (ActivityResult (tc_name tc) (tc_id tc) (tr_content r) (tr_isError r))
         :: mid).
      split.
      { rewrite <- app_assoc. reflexivity. }
      split.
      { refine (streamed_trans _ _ _ [_] mid _ S1).
        apply streamed_send. reflexivity. }
      split; [exact C1|]. split; [exact R1|].
      simpl. rewrite Hid, M1. reflexivity.
    + apply IH.
Qed.

Lemma requests_logRequest (request : StreamRequestInput) (st : State) :
  length (requests (logRequest request st)) = S (length (requests st)).
Proof. simpl. rewrite length_app. simpl. lia. Qed.

(** The loop leaves within [MAX_TOOL_ROUNDS - round] further requests,
    whatever the provider answers; until then only non-terminal events are
    sent, and the accumulated content grows by the chunks sent.  Against a
    provider that keeps asking for tools the loop uses all of these
    requests and is left normally. *)
Lemma toolLoop_spec (ch : Channel) (k : jsstring) (h : list ChatMessage) (u : jsstring)
    (cfg : MemoryConfig) (tools : option (list ToolDefinition)) (sys : option jsstring) :
  forall (fuel round : nat) (cm : list ContinuationMessage)
         (acc : Accumulated) (st : State),
  (MAX_TOOL_ROUNDS <= fuel + round)%nat ->
  exists c acc' st' mid,
    toolLoop w input ch k h u cfg tools sys fuel round cm acc st = Some (c, acc', st') /\
    streamed st st' mid /\
    accumulatedContent acc' = accumulatedContent acc ++ chunkText mid /\
    (length (requests st') <= length (requests st) + (MAX_TOOL_ROUNDS - round))%nat /\
    (keepsCallingTools w ->
       c = Normal tt /\
       length (requests st') = (length (requests st) + (MAX_TOOL_ROUNDS - round))%nat).
Proof.
  induction fuel as [|fuel IH]; intros round cm acc st Hfuel.
  - simpl. destruct (Nat.ltb_spec round MAX_TOOL_ROUNDS) as [Hlt|Hge]; [lia|].
    exists (Normal tt), acc, st, []. split; [reflexivity|].
    split; [apply streamed_refl|]. simpl. rewrite app_nil_r.
    split; [reflexivity|]. split; [lia|]. intros _. split; [reflexivity|lia].
  - simpl. destruct (Nat.ltb_spec round MAX_TOOL_ROUNDS) as [Hlt|Hge].
    2:{ exists (Normal tt), acc, st, []. split; [reflexivity|].
        split; [apply streamed_refl|]. simpl. rewrite app_nil_r.
        split; [reflexivity|]. split; [lia|]. intros _. split; [reflexivity|lia]. }
    set (request := buildRequestInput input ch k h u tools sys cm).
    set (run := streamSSE w (S round) request).
    destruct (deliver_spec (delivered run) acc (logRequest request st))
      as (m1 & S1 & A1 & R1).
    destruct (deliver input (delivered run) (acc, logRequest request st))
      as [acc1 st1] eqn:Ed.
    simpl in S1, A1, R1.
    assert (S0 : streamed st st1 m1).
    { exact (streamed_trans _ _ _ [] m1 (streamed_logRequest request st) S1). }
    assert (R0 : length (requests st1) = S (length (requests st))).
    { rewrite R1. apply requests_logRequest. }
    destruct (ending run) as [result|error] eqn:Eend.
    + destruct (leavesLoop result) eqn:Eleave.
      * exists (Normal tt), acc1, st1, m1. split; [reflexivity|].
        split; [exact S0|]. split; [exact A1|]. split; [lia|].
        intros Hk. destruct (Hk (S round) request) as (result' & Hr & Hl).
        fold run in Hr. rewrite Eend in Hr. injection Hr as <-. congruence.
      * destruct (executeToolCalls_spec cfg (S round)
                    (default [] (sr_toolCalls result)) [] st1)
          as (new & st2 & m2 & Et & S2 & C2 & R2 & _).
        rewrite Et. simpl app.
        match goal with
        | |- context [toolLoop _ _ _ _ _ _ _ _ _ fuel (S round) ?cm' acc1 st2] =>
            destruct (IH (S round) cm' acc1 st2) as (c & acc3 & st3 & m3 & -> & S3 & A3 & R3 & K3);
              [lia|]
        end.
        rewrite R2 in R3, K3.
        exists c, acc3, st3, (m1 ++ m2 ++ m3). split; [reflexivity|].
        split.
        { exact (streamed_trans _ _ _ _ _ S0 (streamed_trans _ _ _ _ _ S2 S3)). }
        split.
        { rewrite A3, A1, !chunkText_app, C2. simpl. rewrite app_assoc. reflexivity. }
        split; [lia|].
        intros Hk. destruct (K3 Hk) as [-> Hlen]. split; [reflexivity|lia].
    + exists (Throw error), acc1, st1, m1. split; [reflexivity|].
      split; [exact S0|]. split; [exact A1|]. split; [lia|].
      intros Hk. destruct (Hk (S round) request) as (result' & Hr & Hl).
      fold run in Hr. rewrite Eend in Hr. discriminate Hr.
Qed.

(** The statements in front of the [try]: either one [error] event and
    nothing else, or the user message appended and the handle registered. *)
Lemma prepare_spec (st : State) :
  match prepare w input st with
  | Returned st' =>
      startsGeneration w input = false /\
      exists message,
        st' = send (STREAM_ERROR (conversationId input) message) st
  | Entered ch k h u st1 =>
      startsGeneration w input = true /\
      sent st1 = sent st /\
      (exists userMsg,
         msg_role userMsg = user /\
         appended st1 = appended st ++ [(conversationId input, userMsg)]) /\
      activeControllers st1
        = <[conversationId input := newAbortController w]> (activeControllers st) /\
      requests st1 = requests st
  end.
Proof.
  unfold prepare, startsGeneration.
  destruct (List.find _ (listChannels w)) as [ch|].
  - destruct (decryptApiKey w (channelId input)) as [k|e]; simpl.
    + split; [reflexivity|]. split; [reflexivity|]. split; [|split; reflexivity].
      eexists. split; [|reflexivity]. reflexivity.
    + split; [reflexivity|]. eexists. reflexivity.
  - split; [reflexivity|]. eexists. reflexivity.
Qed.

(** The end of the [try] block. *)
Lemma finalize_spec (acc : Accumulated) (stL : State) :
  requests (finalize w input acc stL) = requests stL /\
  activeControllers (finalize w input acc stL) = activeControllers stL /\
  if truthy (trim (accumulatedContent acc)) then
    exists m,
      msg_role m = assistant /\ msg_content m = accumulatedContent acc /\
      msg_stopped m = None /\
      appended (finalize w input acc stL) = appended stL ++ [(conversationId input, m)] /\
      sent (finalize w input acc stL)
        = sent stL ++ [STREAM_COMPLETE (conversationId input) (modelId input)
                         (Some (msg_id m))]
  else
    appended (finalize w input acc stL) = appended stL /\
    sent (finalize w input acc stL)
      = sent stL ++ [STREAM_COMPLETE (conversationId input) (modelId input) None].
Proof.
  unfold finalize, callRandomUUID, callDateNow.
  destruct (truthy (trim (accumulatedContent acc))); simpl.
  - repeat split. eexists. repeat split; reflexivity.
  - repeat split.
Qed.

(** The [catch] block. *)
Lemma catchBlock_spec (error : Thrown) (acc : Accumulated) (stL : State) :
  requests (catchBlock w input error acc stL) = requests stL /\
  activeControllers (catchBlock w input error acc stL) = activeControllers stL /\
  if signalAborted w then
    if truthy (accumulatedContent acc) then
      exists m,
        msg_role m = assistant /\ msg_content m = accumulatedContent acc /\
        msg_stopped m = Some true /\
        appended (catchBlock w input error acc stL)
          = appended stL ++ [(conversationId input, m)] /\
        sent (catchBlock w input error acc stL)
          = sent stL ++ [STREAM_COMPLETE (conversationId input) (modelId input)
                           (Some (msg_id m))]
    else
      appended (catchBlock w input error acc stL) = appended stL /\
      sent (catchBlock w input error acc stL)
        = sent stL ++ [STREAM_COMPLETE (conversationId input) (modelId input) None]
  else
    appended (catchBlock w input error acc stL) = appended stL /\
    exists message,
      sent (catchBlock w input error acc stL)
        = sent stL ++ [STREAM_ERROR (conversationId input) message].
Proof.
  unfold catchBlock, callRandomUUID, callDateNow.
  destruct (signalAborted w).
  - destruct (truthy (accumulatedContent acc)); simpl.
    + repeat split. eexists. repeat split; reflexivity.
    + repeat split.
  - simpl. repeat split. eexists. reflexivity.
Qed.

(** The [try] block: the loop, then step 10 when the loop was left
    normally.  [stL] is the state when the loop is left. *)
Lemma tryBlock_spec (ch : Channel) (k : jsstring) (h : list ChatMessage) (u : jsstring)
    (st1 : State) :
  exists c acc stL mid,
    tryBlock w input MAX_TOOL_ROUNDS ch k h u noContent st1
      = Some (c, acc,
              match c with Normal _ => finalize w input acc stL | Throw _ => stL end) /\
    streamed st1 stL mid /\
    accumulatedContent acc = chunkText mid /\
    (length (requests stL) <= length (requests st1) + MAX_TOOL_ROUNDS)%nat /\
    (getAdapter w (ch_provider ch) = Normal tt ->
     getEffectiveProxyUrl w = Normal tt ->
     keepsCallingTools w ->
     c = Normal tt /\
     length (requests stL) = (length (requests st1) + MAX_TOOL_ROUNDS)%nat).
Proof.
  unfold tryBlock.
  destruct (getAdapter w (ch_provider ch)) as [[]|e1] eqn:Ea.
  2:{ exists (Throw e1), noContent, st1, []. split; [reflexivity|].
      split; [apply streamed_refl|]. split; [reflexivity|]. split; [lia|].
      intros Hc. discriminate Hc. }
  destruct (getEffectiveProxyUrl w) as [[]|e2] eqn:Ep.
  2:{ exists (Throw e2), noContent, st1, []. split; [reflexivity|].
      split; [apply streamed_refl|]. split; [reflexivity|]. split; [lia|].
      intros _ Hc. discriminate Hc. }
  match goal with
  | |- context [toolLoop w input ch k h u ?cfg ?tools ?sys MAX_TOOL_ROUNDS 0 [] noContent st1] =>
      destruct (toolLoop_spec ch k h u cfg tools sys MAX_TOOL_ROUNDS 0 [] noContent st1)
        as (c & acc & stL & mid & -> & S1 & A1 & R1 & K1); [lia|]
  end.
  rewrite Nat.sub_0_r in R1, K1.
  exists c, acc, stL, mid. split.
  { destruct c as [[]|e]; reflexivity. }
  split; [exact S1|]. split; [exact A1|]. split; [exact R1|].
  intros _ _ Hk. exact (K1 Hk).
Qed.

(** A run that enters the [try] statement, from beginning to end. *)
Lemma sendMessage_entered (st : State) (ch : Channel) (k : jsstring)
    (h : list ChatMessage) (u : jsstring) (st1 : State) :
  prepare w input st = Entered ch k h u st1 ->
  exists c acc stL mid userMsg,
    tryBlock w input MAX_TOOL_ROUNDS ch k h u noContent st1
      = Some (c, acc,
              match c with Normal _ => finalize w input acc stL | Throw _ => stL end) /\
    sendMessage w input st
      = Some (finallyBlock input
                (match c with
                 | Normal _ => finalize w input acc stL
                 | Throw error => catchBlock w input error acc stL
                 end)) /\
    msg_role userMsg = user /\
    sent stL = sent st ++ mid /\
    forallb notTerminal mid = true /\
    appended stL = appended st ++ [(conversationId input, userMsg)] /\
    accumulatedContent acc = chunkText mid /\
    (length (requests stL) <= length (requests st) + MAX_TOOL_ROUNDS)%nat /\
    (getAdapter w (ch_provider ch) = Normal tt ->
     getEffectiveProxyUrl w = Normal tt ->
     keepsCallingTools w ->
     c = Normal tt /\
     length (requests stL) = (length (requests st) + MAX_TOOL_ROUNDS)%nat).
Proof.
  intros Hp. pose proof (prepare_spec st) as Hs. rewrite Hp in Hs.
  destruct Hs as (_ & Hsent & (userMsg & Hrole & Happ) & _ & Hreq).
  destruct (tryBlock_spec ch k h u st1) as (c & acc & stL & mid & Ht & S1 & A1 & R1 & K1).
  destruct S1 as (S1 & T1 & P1 & _).
  exists c, acc, stL, mid, userMsg. split; [exact Ht|]. split.
  { unfold sendMessage, sendMessage_fuel. rewrite Hp, Ht.
    destruct c as [[]|e]; reflexivity. }
  split; [exact Hrole|]. split; [rewrite S1, Hsent; reflexivity|].
  split; [exact T1|]. split; [rewrite P1; exact Happ|]. split; [exact A1|].
  rewrite Hreq in R1, K1. split; [exact R1|exact K1].
Qed.

Lemma sendMessage_returned (st st' : State) :
  prepare w input st = Returned st' -> sendMessage w input st = Some st'.
Proof. intros Hp. unfold sendMessage, sendMessage_fuel. rewrite Hp. reflexivity. Qed.

Lemma persistedAssistant_spec (st st' : State) (cid : jsstring)
    (userMsg : ChatMessage) (saved : list ChatMessage) :
  msg_role userMsg = user ->
  appended st' = appended st ++ (cid, userMsg) :: List.map (pair cid) saved ->
  persistedAssistant st st' = List.filter isAssistant saved.
Proof.
  intros Hrole Happ. unfold persistedAssistant, persisted.
  rewrite Happ, drop_app_length. simpl.
  unfold isAssistant at 1. rewrite Hrole. simpl.
  rewrite List.map_map. simpl. rewrite List.map_id. reflexivity.
Qed.

(** Every run of sendMessage returns, and ends in one of four ways. *)
Ltac fin := unfold finallyBlock, setControllers; simpl.

Lemma run_summary (st : State) :
  exists st' o mid terminal,
    sendMessage w input st = Some st' /\
    outcome w input st = Some o /\
    sent st' = sent st ++ mid ++ [terminal] /\
    forallb notTerminal mid = true /\
    isTerminal terminal = true /\
    (length (requests st') <= length (requests st) + MAX_TOOL_ROUNDS)%nat /\
    ((forall provider, getAdapter w provider = Normal tt) ->
     getEffectiveProxyUrl w = Normal tt ->
     keepsCallingTools w ->
     startsGeneration w input = true ->
     (exists acc, o = Completed acc) /\
     length (requests st') = (length (requests st) + MAX_TOOL_ROUNDS)%nat) /\
    match o with
    | ConfigError =>
        startsGeneration w input = false /\
        activeControllers st' = activeControllers st /\
        appended st' = appended st /\
        mid = [] /\
        exists message, terminal = STREAM_ERROR (conversationId input) message
    | Completed acc =>
        startsGeneration w input = true /\
        activeControllers st' !! conversationId input = None /\
        accumulatedContent acc = chunkText mid /\
        completesWith input st st' (accumulatedContent acc)
          (truthy (trim (accumulatedContent acc))) None
    | Cancelled acc =>
        startsGeneration w input = true /\
        activeControllers st' !! conversationId input = None /\
        accumulatedContent acc = chunkText mid /\
        completesWith input st st' (accumulatedContent acc)
          (truthy (accumulatedContent acc)) (Some true)
    | Failed error acc =>
        startsGeneration w input = true /\
        activeControllers st' !! conversationId input = None /\
        accumulatedContent acc = chunkText mid /\
        persistedAssistant st st' = [] /\
        exists message, terminal = STREAM_ERROR (conversationId input) message
    end.
Proof.
  pose proof (prepare_spec st) as Hs.
  destruct (prepare w input st) as [st0|ch k h u st1] eqn:Hp.
  - destruct Hs as (Hstart & message & ->).
    exists (send (STREAM_ERROR (conversationId input) message) st), ConfigError, [],
      (STREAM_ERROR (conversationId input) message).
    split; [exact (sendMessage_returned st _ Hp)|].
    split; [unfold outcome; rewrite Hp; reflexivity|].
    split; [reflexivity|]. split; [reflexivity|]. split; [reflexivity|].
    split; [simpl; lia|].
    split; [intros _ _ _ Hc; congruence|].
    split; [exact Hstart|]. split; [reflexivity|]. split; [reflexivity|].
    split; [reflexivity|]. exists message. reflexivity.
  - destruct Hs as (Hstart & _).
    destruct (sendMessage_entered st ch k h u st1 Hp)
      as (c & acc & stL & mid & userMsg & Ht & Hrun & Hrole & Hsent & Hmid & Happ
          & Hacc & Hreq & Hkeep).
    assert (Ho : outcome w input st
                 = Some (match c with
                         | Normal _ => Completed acc
                         | Throw error =>
                             if signalAborted w then Cancelled acc else Failed error acc
                         end)).
    { unfold outcome. rewrite Hp, Ht. destruct c as [[]|e]; [reflexivity|].
      destruct (signalAborted w); reflexivity. }
    destruct c as [[]|error].
    + destruct (finalize_spec acc stL) as (Fr & Fc & Fcase).
      remember (finalize w input acc stL) as st2 eqn:Est2. clear Est2.
      assert (Hend : exists messageId saved,
                 sent st2 = sent stL ++ [STREAM_COMPLETE (conversationId input)
                                           (modelId input) messageId] /\
                 appended st2 = appended stL ++ List.map (pair (conversationId input)) saved /\
                 completesWith input st (finallyBlock input st2) (accumulatedContent acc)
                   (truthy (trim (accumulatedContent acc))) None).
      { unfold completesWith.
        destruct (truthy (trim (accumulatedContent acc))).
        - destruct Fcase as (m & Mr & Mc & Ms & Ma & Mt).
          exists (Some (msg_id m)), [m]. split; [exact Mt|]. split; [exact Ma|].
          exists m. split.
          + rewrite (persistedAssistant_spec st (finallyBlock input st2)
                       (conversationId input) userMsg [m] Hrole).
            * fin. unfold isAssistant. rewrite Mr. reflexivity.
            * fin. rewrite Ma, Happ, <- app_assoc. reflexivity.
          + split; [exact Mc|]. split; [exact Ms|].
            fin. rewrite Mt. apply last_snoc.
        - destruct Fcase as (Ma & Mt).
          exists None, []. split; [exact Mt|]. split; [fin; rewrite app_nil_r; exact Ma|].
          split.
          + rewrite (persistedAssistant_spec st (finallyBlock input st2)
                       (conversationId input) userMsg [] Hrole); [reflexivity|].
            fin. rewrite Ma, Happ. reflexivity.
          + fin. rewrite Mt. apply last_snoc. }
      destruct Hend as (messageId & saved & Et & Ea & Hcw).
      exists (finallyBlock input st2), (Completed acc), mid,
        (STREAM_COMPLETE (conversationId input) (modelId input) messageId).
      split; [exact Hrun|]. split; [exact Ho|].
      split; [fin; rewrite Et, Hsent, <- app_assoc; reflexivity|].
      split; [exact Hmid|]. split; [reflexivity|].
      split; [fin; rewrite Fr; exact Hreq|].
      split.
      { intros Ha Hx Hk _. destruct (Hkeep (Ha _) Hx Hk) as [_ Hlen].
        split; [exists acc; reflexivity|]. fin. rewrite Fr. exact Hlen. }
      split; [exact Hstart|]. split; [fin; apply lookup_delete_eq|].
      split; [exact Hacc|exact Hcw].
    + destruct (catchBlock_spec error acc stL) as (Cr & Cc & Ccase).
      remember (catchBlock w input error acc stL) as st2 eqn:Est2. clear Est2.
      assert (Hnot : ~ ((forall provider, getAdapter w provider = Normal tt) /\
                        getEffectiveProxyUrl w = Normal tt /\ keepsCallingTools w)).
      { intros (Ha & Hx & Hk). destruct (Hkeep (Ha _) Hx Hk) as [Hc _]. discriminate Hc. }
      destruct (signalAborted w).
      * assert (Hend : exists messageId,
                   sent st2 = sent stL ++ [STREAM_COMPLETE (conversationId input)
                                             (modelId input) messageId] /\
                   completesWith input st (finallyBlock input st2) (accumulatedContent acc)
                     (truthy (accumulatedContent acc)) (Some true)).
        { unfold completesWith.
          destruct (truthy (accumulatedContent acc)).
          - destruct Ccase as (m & Mr & Mc & Ms & Ma & Mt).
            exists (Some (msg_id m)). split; [exact Mt|].
            exists m. split.
            + rewrite (persistedAssistant_spec st (finallyBlock input st2)
                         (conversationId input) userMsg [m] Hrole).
              * fin. unfold isAssistant. rewrite Mr. reflexivity.
              * fin. rewrite Ma, Happ, <- app_assoc. reflexivity.
            + split; [exact Mc|]. split; [exact Ms|].
              fin. rewrite Mt. apply last_snoc.
          - destruct Ccase as (Ma & Mt).
            exists None. split; [exact Mt|]. split.
            + rewrite (persistedAssistant_spec st (finallyBlock input st2)
                         (conversationId input) userMsg [] Hrole); [reflexivity|].
              fin. rewrite Ma, Happ. reflexivity.
            + fin. rewrite Mt. apply last_snoc. }
        destruct Hend as (messageId & Et & Hcw).
        exists (finallyBlock input st2), (Cancelled acc), mid,
          (STREAM_COMPLETE (conversationId input) (modelId input) messageId).
        split; [exact Hrun|]. split; [exact Ho|].
        split; [fin; rewrite Et, Hsent, <- app_assoc; reflexivity|].
        split; [exact Hmid|]. split; [reflexivity|].
        split; [fin; rewrite Cr; exact Hreq|].
        split; [intros Ha Hx Hk _; exfalso; apply Hnot; auto|].
        split; [exact Hstart|]. split; [fin; apply lookup_delete_eq|].
        split; [exact Hacc|exact Hcw].
      * destruct Ccase as (Ma & message & Mt).
        exists (finallyBlock input st2), (Failed error acc), mid,
          (STREAM_ERROR (conversationId input) message).
        split; [exact Hrun|]. split; [exact Ho|].
        split; [fin; rewrite Mt, Hsent, <- app_assoc; reflexivity|].
        split; [exact Hmid|]. split; [reflexivity|].
        split; [fin; rewrite Cr; exact Hreq|].
        split; [intros Ha Hx Hk _; exfalso; apply Hnot; auto|].
        split; [exact Hstart|]. split; [fin; apply lookup_delete_eq|].
        split; [exact Hacc|]. split; [|exists message; reflexivity].
        rewrite (persistedAssistant_spec st (finallyBlock input st2)
                   (conversationId input) userMsg [] Hrole); [reflexivity|].
        fin. rewrite Ma, Happ. reflexivity.
Qed.

End Run.

End ChatServiceFacts.

(** ** sendMessage: the claims *)

Section SendMessageClaims.

Import ChatService Spec.

Lemma emitted_spec (st st' : State) (evs : list IpcEvent) :
  sent st' = sent st ++ evs -> emitted st st' = evs.
Proof. intros H. unfold emitted. rewrite H. apply drop_app_length. Qed.

Lemma chunkText_terminal (mid : list IpcEvent) (terminal : IpcEvent) :
  isTerminal terminal = true -> chunkText (mid ++ [terminal]) = chunkText mid.
Proof.
  intros H. rewrite chunkText_app.
  destruct terminal; try discriminate H; simpl; apply app_nil_r.
Qed.

(** C1. A run that is cancelled (the [try] block is left by an exception
    while the cancellation signal has fired) always ends with a [complete]
    event.  When text has accumulated, one assistant message is persisted:
    it holds exactly the accumulated content, which is the text of all the
    chunks the run streamed, it carries the stopped flag, and the
    [complete] event carries its id.  When no text has accumulated, no
    assistant message is persisted and the [complete] event carries no
    message id. *)
Theorem cancelled_run_saves_partial (w : World) (input : ChatSendInput) (st : State)
    (acc : Accumulated) :
  Spec.outcome w input st = Some (Spec.Cancelled acc) ->
  exists st',
    ChatService.sendMessage w input st = Some st' /\
    accumulatedContent acc = Spec.chunkText (Spec.emitted st st') /\
    match accumulatedContent acc with
    | _ :: _ =>
        exists m,
          Spec.persistedAssistant st st' = [m] /\
          msg_content m = accumulatedContent acc /\
          msg_stopped m = Some true /\
          last (sent st')
            = Some (STREAM_COMPLETE (conversationId input) (modelId input)
                      (Some (msg_id m)))
    | [] =>
        Spec.persistedAssistant st st' = [] /\
        last (sent st')
          = Some (STREAM_COMPLETE (conversationId input) (modelId input) None)
    end.
Proof.
  intros Ho.
  destruct (run_summary w input st)
    as (st' & o & mid & terminal & Hrun & Ho' & Hsent & Hmid & Hterm & _ & _ & Hcase).
  rewrite Ho in Ho'. injection Ho' as <-.
  destruct Hcase as (_ & _ & Hacc & Hcw).
  exists st'. split; [exact Hrun|]. split.
  - rewrite (emitted_spec st st' _ Hsent), (chunkText_terminal _ _ Hterm). exact Hacc.
  - unfold completesWith in Hcw.
    destruct (accumulatedContent acc); simpl in Hcw; exact Hcw.
Qed.

Lemma cancelled_run_saves_partial_witness :
  exists st',
    ChatService.sendMessage
      (Samples.world [Samples.channel1] Samples.cutAfterHello true)
      Samples.input1 Samples.freshState = Some st' /\
    lit "Hello, wor" = Spec.chunkText (Spec.emitted Samples.freshState st') /\
    exists m,
      Spec.persistedAssistant Samples.freshState st' = [m] /\
      msg_content m = lit "Hello, wor" /\
      msg_stopped m = Some true /\
      last (sent st')
        = Some (STREAM_COMPLETE (lit "c1") (lit "m1") (Some (msg_id m))).
Proof.
  exact (cancelled_run_saves_partial
           (Samples.world [Samples.channel1] Samples.cutAfterHello true)
           Samples.input1 Samples.freshState
           {| accumulatedContent := lit "Hello, wor"; accumulatedReasoning := [] |}
           eq_refl).
Defined.

(** C2. Every invocation of sendMessage returns, and what it sent to the
    sink is a sequence of non-terminal events followed by exactly one
    terminal event, the last one sent.  The terminal event is [error] when
    the channel is not found, when the key cannot be decrypted and when the
    stream fails; it is [complete] on cancellation and on normal
    completion. *)
Theorem exactly_one_terminal_event (w : World) (input : ChatSendInput) (st : State) :
  exists st' o mid terminal,
    ChatService.sendMessage w input st = Some st' /\
    Spec.outcome w input st = Some o /\
    Spec.emitted st st' = mid ++ [terminal] /\
    forallb Spec.notTerminal mid = true /\
    Spec.isTerminal terminal = true /\
    match o with
    | ConfigError | Failed _ _ =>
        exists message, terminal = STREAM_ERROR (conversationId input) message
    | Completed _ | Cancelled _ =>
        exists messageId,
          terminal = STREAM_COMPLETE (conversationId input) (modelId input) messageId
    end.
Proof.
  destruct (run_summary w input st)
    as (st' & o & mid & terminal & Hrun & Ho & Hsent & Hmid & Hterm & _ & _ & Hcase).
  exists st', o, mid, terminal.
  split; [exact Hrun|]. split; [exact Ho|].
  split; [exact (emitted_spec st st' _ Hsent)|].
  split; [exact Hmid|]. split; [exact Hterm|].
  assert (Hlast : last (sent st') = Some terminal).
  { rewrite Hsent, app_assoc. apply last_snoc. }
  assert (Hcomplete : forall content save flag,
             completesWith input st st' content save flag ->
             exists messageId,
               terminal = STREAM_COMPLETE (conversationId input) (modelId input) messageId).
  { intros content save flag Hcw. unfold completesWith in Hcw. destruct save.
    - destruct Hcw as (m & _ & _ & _ & Hl). rewrite Hlast in Hl.
      injection Hl as ->. eexists. reflexivity.
    - destruct Hcw as (_ & Hl). rewrite Hlast in Hl.
      injection Hl as ->. eexists. reflexivity. }
  destruct o as [|acc|acc|error acc].
  - destruct Hcase as (_ & _ & _ & _ & Hm). exact Hm.
  - destruct Hcase as (_ & _ & _ & Hcw). exact (Hcomplete _ _ _ Hcw).
  - destruct Hcase as (_ & _ & _ & Hcw). exact (Hcomplete _ _ _ Hcw).
  - destruct Hcase as (_ & _ & _ & _ & Hm). exact Hm.
Qed.

(** C3, at a failing input.  Round 1 returns two tool calls with the
    tool-invocation stop reason: web_search, a name outside the fixed tool
    set, and recall_memory.  The request of round 2 carries the assistant
    turn with both calls, and a tool turn whose only result answers
    recall_memory: the call to web_search is dropped without a result. *)
Theorem unknown_tool_call_dropped :
  option_map (fun st' => List.map sri_continuationMessages (requests st'))
    (ChatService.sendMessage
       (Samples.world [Samples.channel1] Samples.unknownToolFirst false)
       Samples.input1 Samples.freshState)
  = Some [ None;
           Some [ AssistantTurn [] [Samples.webSearchCall; Samples.recallCall];
                  ToolTurn [ {| tr_toolCallId := lit "toolu_2";
                                tr_content := lit "No memories found.";
                                tr_isError := None |} ] ] ]
  /\ Spec.answered Samples.recallCall
       [ {| tr_toolCallId := lit "toolu_2";
            tr_content := lit "No memories found.";
            tr_isError := None |} ] = true
  /\ Spec.answered Samples.webSearchCall
       [ {| tr_toolCallId := lit "toolu_2";
            tr_content := lit "No memories found.";
            tr_isError := None |} ] = false.
Proof. repeat split; vm_compute; reflexivity. Qed.

(** The five ways a run can end, on the samples. *)

Example run_channel_not_found :
  option_map sent
    (sendMessage (Samples.world [] Samples.helloThenEnd false)
       Samples.input1 Samples.freshState)
  = Some [STREAM_ERROR (lit "c1") CHANNEL_NOT_FOUND].
Proof. vm_compute. reflexivity. Qed.

Example run_decryption_failure :
  option_map sent
    (sendMessage (Samples.lockedWorld Samples.helloThenEnd)
       Samples.input1 Samples.freshState)
  = Some [STREAM_ERROR (lit "c1") DECRYPT_FAILED].
Proof. vm_compute. reflexivity. Qed.

Example run_stream_failure :
  option_map sent
    (sendMessage (Samples.world [Samples.channel1] Samples.networkDown false)
       Samples.input1 Samples.freshState)
  = Some [STREAM_ERROR (lit "c1") (lit "fetch failed")].
Proof. vm_compute. reflexivity. Qed.

Example run_cancelled_at_once :
  option_map (fun st' => (sent st', List.map (fun e => msg_role (snd e)) (appended st')))
    (sendMessage (Samples.world [Samples.channel1] Samples.cutAtOnce true)
       Samples.input1 Samples.freshState)
  = Some ([STREAM_COMPLETE (lit "c1") (lit "m1") None], [user]).
Proof. vm_compute. reflexivity. Qed.

Example run_completed :
  option_map (fun st' => (sent st', List.map (fun e => msg_role (snd e)) (appended st')))
    (sendMessage (Samples.world [Samples.channel1] Samples.helloThenEnd false)
       Samples.input1 Samples.freshState)
  = Some ([STREAM_CHUNK (lit "c1") (lit "Hello");
           STREAM_COMPLETE (lit "c1") (lit "m1") (Some (lit "uuid-1"))],
          [user; assistant]).
Proof. vm_compute. reflexivity. Qed.

(** A stream that is cut in the first round while the cancellation signal
    has fired makes the run a cancelled one. *)
Lemma cancelled_in_first_round (w : World) (input : ChatSendInput) (st : State)
    (error : Thrown) :
  startsGeneration w input = true ->
  (forall provider, getAdapter w provider = Normal tt) ->
  getEffectiveProxyUrl w = Normal tt ->
  (forall request, ending (streamSSE w 1 request) = Rejected error) ->
  signalAborted w = true ->
  exists acc, outcome w input st = Some (Cancelled acc).
Proof.
  intros Hstart Ha Hx Hcut Hsig.
  pose proof (prepare_spec w input st) as Hs. unfold outcome.
  destruct (prepare w input st) as [st0|ch k h u st1].
  - destruct Hs as [Hs _]. congruence.
  - unfold tryBlock. rewrite (Ha (ch_provider ch)), Hx.
    unfold MAX_TOOL_ROUNDS. simpl toolLoop. rewrite Hcut.
    match goal with
    | |- context [deliver ?i ?evs ?s] => destruct (deliver i evs s) as [acc1 st2]
    end.
    rewrite Hsig. exists acc1. reflexivity.
Qed.

(** C4. Whatever the provider answers, sendMessage returns after at most
    [MAX_TOOL_ROUNDS] = 5 requests.  Against a provider every stream of
    which returns tool calls with the tool-invocation stop reason, the run
    makes exactly 5 requests and then completes without error: it ends as a
    normal completion, on the content accumulated over the five rounds. *)
Theorem tool_loop_bounded (w : World) (input : ChatSendInput) (st : State) :
  ChatService.MAX_TOOL_ROUNDS = 5%nat /\
  (exists st',
     ChatService.sendMessage w input st = Some st' /\
     (length (requests st') <= length (requests st) + 5)%nat) /\
  ((forall provider, getAdapter w provider = Normal tt) ->
   getEffectiveProxyUrl w = Normal tt ->
   Spec.keepsCallingTools w ->
   Spec.startsGeneration w input = true ->
   exists st' acc,
     ChatService.sendMessage w input st = Some st' /\
     length (requests st') = (length (requests st) + 5)%nat /\
     Spec.outcome w input st = Some (Spec.Completed acc) /\
     accumulatedContent acc = Spec.chunkText (Spec.emitted st st') /\
     Spec.completesWith input st st' (accumulatedContent acc)
       (truthy (trim (accumulatedContent acc))) None).
Proof.
  destruct (run_summary w input st)
    as (st' & o & mid & terminal & Hrun & Ho & Hsent & Hmid & Hterm & Hreq & Hkeep & Hcase).
  split; [reflexivity|]. split.
  - exists st'. split; [exact Hrun|exact Hreq].
  - intros Ha Hx Hk Hs. destruct (Hkeep Ha Hx Hk Hs) as [[acc ->] Hlen].
    destruct Hcase as (_ & _ & Hacc & Hcw).
    exists st', acc. split; [exact Hrun|]. split; [exact Hlen|]. split; [exact Ho|].
    split; [|exact Hcw].
    rewrite (emitted_spec st st' _ Hsent), (chunkText_terminal _ _ Hterm). exact Hacc.
Qed.

Lemma toolsForever_keepsCallingTools :
  Spec.keepsCallingTools (Samples.world [Samples.channel1] Samples.toolsForever false).
Proof.
  intros round request. exists (Samples.toolUse [Samples.recallCall]).
  split; reflexivity.
Defined.

Lemma tool_loop_bounded_witness :
  exists st' acc,
    ChatService.sendMessage
      (Samples.world [Samples.channel1] Samples.toolsForever false)
      Samples.input1 Samples.freshState = Some st' /\
    length (requests st') = (length (requests Samples.freshState) + 5)%nat /\
    Spec.outcome (Samples.world [Samples.channel1] Samples.toolsForever false)
      Samples.input1 Samples.freshState = Some (Spec.Completed acc) /\
    accumulatedContent acc = Spec.chunkText (Spec.emitted Samples.freshState st') /\
    Spec.completesWith Samples.input1 Samples.freshState st' (accumulatedContent acc)
      (truthy (trim (accumulatedContent acc))) None.
Proof.
  apply (tool_loop_bounded
           (Samples.world [Samples.channel1] Samples.toolsForever false)
           Samples.input1 Samples.freshState).
  - intros provider. reflexivity.
  - reflexivity.
  - exact toolsForever_keepsCallingTools.
  - reflexivity.
Defined.

(** C9, as stated, fails.  Conversation c1 has a generation in flight,
    registered under a handle; a second sendMessage for c1 names a channel
    that does not exist.  It returns at the channel lookup, in front of the
    [try] statement whose [finally] clears the registry, and the mapping
    for c1 is still there when it has completed. *)
Lemma registry_kept_on_config_error :
  ~ Spec.registryCleared (Samples.world [] Samples.helloThenEnd false)
      Samples.input1 Samples.busyState.
Proof.
  intros (st' & Hrun & Hlook).
  vm_compute in Hrun. injection Hrun as <-.
  vm_compute in Hlook. discriminate Hlook.
Qed.

(** C9, amended.  Every run returns.  A run that gets past channel lookup
    and key decryption, and so registers a handle, leaves no mapping for
    its conversation id in the registry, whether it ends in success, in
    failure or in cancellation; a run that ends at the channel lookup or at
    the decryption leaves the registry as it found it. *)
Theorem registry_cleared_after_generation (w : World) (input : ChatSendInput) (st : State) :
  exists st',
    ChatService.sendMessage w input st = Some st' /\
    if Spec.startsGeneration w input
    then activeControllers st' !! conversationId input = None
    else activeControllers st' = activeControllers st.
Proof.
  destruct (run_summary w input st)
    as (st' & o & mid & terminal & Hrun & _ & _ & _ & _ & _ & _ & Hcase).
  exists st'. split; [exact Hrun|].
  destruct o as [|acc|acc|error acc].
  - destruct Hcase as (-> & Hc & _). exact Hc.
  - destruct Hcase as (-> & Hc & _). exact Hc.
  - destruct Hcase as (-> & Hc & _). exact Hc.
  - destruct Hcase as (-> & Hc & _). exact Hc.
Qed.

(** C10. On normal completion one assistant message is persisted exactly
    when the accumulated content is non-empty after trimming, that is when
    it has a character that is not white space, and the [complete] event
    carries a message id exactly when a message was persisted, the id of
    that message.  On cancellation the message is persisted exactly when
    the accumulated content is not the empty string.  A content made of
    white space only is therefore persisted on cancellation and not on
    normal completion. *)
Theorem persistence_rules (w : World) (input : ChatSendInput) (st : State) :
  (forall acc,
     Spec.outcome w input st = Some (Spec.Completed acc) ->
     exists st',
       ChatService.sendMessage w input st = Some st' /\
       Spec.completesWith input st st' (accumulatedContent acc)
         (truthy (trim (accumulatedContent acc))) None)
  /\ (forall acc,
        Spec.outcome w input st = Some (Spec.Cancelled acc) ->
        exists st',
          ChatService.sendMessage w input st = Some st' /\
          Spec.completesWith input st st' (accumulatedContent acc)
            (negb (bool_decide (accumulatedContent acc = []))) (Some true))
  /\ (forall content : jsstring,
        truthy (trim content) = negb (forallb isWhiteSpace content))
  /\ (forall content : jsstring,
        content <> [] -> forallb isWhiteSpace content = true ->
        truthy (trim content) = false /\
        negb (bool_decide (content = [])) = true).
Proof.
  destruct (run_summary w input st)
    as (st' & o & mid & terminal & Hrun & Ho & _ & _ & _ & _ & _ & Hcase).
  split; [|split; [|split]].
  - intros acc Hacc. rewrite Hacc in Ho. injection Ho as <-.
    destruct Hcase as (_ & _ & _ & Hcw). exists st'. split; [exact Hrun|exact Hcw].
  - intros acc Hacc. rewrite Hacc in Ho. injection Ho as <-.
    destruct Hcase as (_ & _ & _ & Hcw). exists st'. split; [exact Hrun|].
    destruct (accumulatedContent acc); exact Hcw.
  - exact truthy_trim.
  - intros content Hne Hws. rewrite truthy_trim, Hws. split; [reflexivity|].
    destruct content; [congruence|reflexivity].
Qed.

Lemma persistence_rules_witness :
  (exists st',
     ChatService.sendMessage
       (Samples.world [Samples.channel1] Samples.blankThenEnd false)
       Samples.input1 Samples.freshState = Some st' /\
     Spec.persistedAssistant Samples.freshState st' = [] /\
     last (sent st') = Some (STREAM_COMPLETE (lit "c1") (lit "m1") None))
  /\ (exists st',
        ChatService.sendMessage
          (Samples.world [Samples.channel1] Samples.blankThenCut true)
          Samples.input1 Samples.freshState = Some st' /\
        exists m,
          Spec.persistedAssistant Samples.freshState st' = [m] /\
          msg_content m = lit " " /\
          msg_stopped m = Some true /\
          last (sent st') = Some (STREAM_COMPLETE (lit "c1") (lit "m1") (Some (msg_id m))))
  /\ (truthy (trim (lit " ")) = false /\
      negb (bool_decide (lit " " = [])) = true).
Proof.
  split; [|split].
  - exact (proj1 (persistence_rules
                    (Samples.world [Samples.channel1] Samples.blankThenEnd false)
                    Samples.input1 Samples.freshState)
             {| accumulatedContent := lit " "; accumulatedReasoning := [] |} eq_refl).
  - exact (proj1 (proj2 (persistence_rules
                    (Samples.world [Samples.channel1] Samples.blankThenCut true)
                    Samples.input1 Samples.freshState))
             {| accumulatedContent := lit " "; accumulatedReasoning := [] |} eq_refl).
  - refine (proj2 (proj2 (proj2 (persistence_rules
                    (Samples.world [Samples.channel1] Samples.blankThenCut true)
                    Samples.input1 Samples.freshState))) (lit " ") _ eq_refl).
    discriminate.
Defined.

End SendMessageClaims.

(** ** The adapters *)

Section AdapterClaims.

Import Spec.

Variable JSON_parse : jsstring -> Completion JSException JSValue.
Variable JSON_stringify : JSValue -> jsstring.

Lemma tryCatch_returns {E A : Type} (body : Completion E A) (fallback : A) :
  exists a,
    tryCatch body (fun _ => Normal fallback) = Normal a /\
    (forall e, body = Throw e -> a = fallback).
Proof.
  destruct body as [a|e]; simpl.
  - exists a. split; [reflexivity|]. intros e H. discriminate H.
  - exists fallback. split; [reflexivity|]. intros _ _. reflexivity.
Qed.

(** C7. For every input string, parseSSELine of the Anthropic adapter and
    of the Google adapter complete normally, with a list of events: no
    exception leaves them.  When the body of the [try] throws, because
    [JSON.parse] rejects the text or because a property is read from
    [null] or [undefined] or a value that is not iterable is iterated, the
    list is empty. *)
Theorem parseSSELine_fail_soft (jsonLine : jsstring) :
  (exists events,
     Anthropic.parseSSELine JSON_parse jsonLine = Normal events /\
     (forall e, Anthropic.parseSSELine_try JSON_parse jsonLine = Throw e -> events = []))
  /\ (exists events,
        Google.parseSSELine JSON_parse JSON_stringify jsonLine = Normal events /\
        (forall e, Google.parseSSELine_try JSON_parse JSON_stringify jsonLine = Throw e ->
                   events = []))
  /\ (forall e,
        JSON_parse jsonLine = Throw e ->
        Anthropic.parseSSELine JSON_parse jsonLine = Normal [] /\
        Google.parseSSELine JSON_parse JSON_stringify jsonLine = Normal []).
Proof.
  split; [|split].
  - apply tryCatch_returns.
  - apply tryCatch_returns.
  - intros e He.
    unfold Anthropic.parseSSELine, Anthropic.parseSSELine_try,
      Google.parseSSELine, Google.parseSSELine_try.
    unfold mbind, Completion_bind, bind. rewrite He. split; reflexivity.
Qed.

End AdapterClaims.

Lemma parseSSELine_fail_soft_witness :
  Anthropic.parseSSELine Samples.sampleParse (Samples.frame "{'type':'content_block_de")
    = Normal []
  /\ Google.parseSSELine Samples.sampleParse Samples.sampleStringify
       (Samples.frame "{'type':'content_block_de") = Normal [].
Proof.
  exact (proj2 (proj2 (parseSSELine_fail_soft Samples.sampleParse Samples.sampleStringify
                         (Samples.frame "{'type':'content_block_de")))
           SyntaxError eq_refl).
Defined.

(** Frames of an unexpected shape. *)

Example anthropic_text_delta :
  Anthropic.parseSSELine Samples.sampleParse
    (Samples.frame "{'type':'content_block_delta','delta':{'type':'text_delta','text':'Hi'}}")
  = Normal [chunk (str "Hi")].
Proof. vm_compute. reflexivity. Qed.

Example anthropic_null_frame :
  Anthropic.parseSSELine_try Samples.sampleParse (lit "null") = Throw TypeError /\
  Anthropic.parseSSELine Samples.sampleParse (lit "null") = Normal [].
Proof. split; vm_compute; reflexivity. Qed.

Example google_null_frame :
  Google.parseSSELine_try Samples.sampleParse Samples.sampleStringify (lit "null")
    = Throw TypeError /\
  Google.parseSSELine Samples.sampleParse Samples.sampleStringify (lit "null") = Normal [].
Proof. split; vm_compute; reflexivity. Qed.

(** A [null] among the parts throws after a chunk was pushed: the chunk is
    lost with the frame. *)
Example google_null_part :
  Google.parseSSELine Samples.sampleParse Samples.sampleStringify
    (Samples.frame "{'candidates':[{'content':{'parts':[{'text':'Hi'},null]}}]}")
  = Normal [].
Proof. vm_compute. reflexivity. Qed.

Example google_parts_not_iterable :
  Google.parseSSELine Samples.sampleParse Samples.sampleStringify
    (Samples.frame "{'candidates':[{'content':{'parts':7}}]}")
  = Normal [].
Proof. vm_compute. reflexivity. Qed.

(** ** buildTitleRequest *)

(** C8, as stated, fails for the Google adapter: the body of its title
    request has no [thinking] field, and its [generationConfig] holds
    [maxOutputTokens] and nothing on thinking. *)
Lemma google_title_request_not_explicit :
  ~ Spec.explicitlyDisablesThinking (Google.titleRequestBody Samples.titleInput1).
Proof.
  intros [H|(generationConfig & thinkingConfig & H1 & H2 & H3)].
  - vm_compute in H. discriminate H.
  - vm_compute in H1. injection H1 as <-.
    vm_compute in H2. injection H2 as <-.
    discriminate H3.
Qed.

(** C8, amended.  The input of buildTitleRequest has no reasoning field, so
    the request is the same whatever the chat setting [thinkingEnabled] is.
    For every input the Anthropic adapter's request body carries
    [thinking: { type: 'disabled' }]; the Google adapter's request body
    says nothing about thinking, neither enabling nor disabling it: it has
    no [thinking] field and its [generationConfig] has no
    [thinkingConfig]. *)
Theorem title_requests_and_thinking (thinkingEnabled : option bool)
    (JSON_stringify : JSValue -> jsstring) (normalize : jsstring -> jsstring)
    (input : TitleRequestInput) :
  req_body (Anthropic.buildTitleRequest JSON_stringify normalize input)
    = JSON_stringify (Anthropic.titleRequestBody input)
  /\ Spec.explicitlyDisablesThinking (Anthropic.titleRequestBody input)
  /\ req_body (Google.buildTitleRequest JSON_stringify normalize input)
       = JSON_stringify (Google.titleRequestBody input)
  /\ Spec.silentAboutThinking (Google.titleRequestBody input)
  /\ getProp (Google.titleRequestBody input) (lit "generationConfig")
       = Normal (VObject [(lit "maxOutputTokens", num 50)]).
Proof.
  split; [reflexivity|]. split; [left; reflexivity|].
  split; [reflexivity|]. split; [|reflexivity].
  split; [reflexivity|]. eexists. split; reflexivity.
Qed.

(* ===================================================================== *)
(** * Further properties *)
(* ===================================================================== *)

(** ** filterHistory *)

Section HistoryFilterMore.

Import HistoryFilter Shapes.

Lemma list_filter_sublist {A : Type} (p : A -> bool) (l : list A) :
  List.filter p l `sublist_of` l.
Proof.
  induction l as [|x r IH]; simpl; [constructor|].
  destruct (p x); [apply sublist_skip|apply sublist_cons]; exact IH.
Qed.

Lemma list_filter_Forall {A : Type} (p : A -> bool) (l : list A) :
  Forall (fun x => p x = true) (List.filter p l).
Proof.
  induction l as [|x r IH]; simpl; [constructor|].
  destruct (p x) eqn:E; [constructor; assumption|exact IH].
Qed.

Lemma list_filter_fixed {A : Type} (p : A -> bool) (l : list A) :
  Forall (fun x => p x = true) l -> List.filter p l = l.
Proof.
  induction 1 as [|x r Hx _ IH]; simpl; [reflexivity|].
  rewrite Hx, IH. reflexivity.
Qed.

Lemma applyDividers_suffix (F : list ChatMessage) (dividers : option (list jsstring)) :
  exists pre, F = pre ++ applyDividers F dividers.
Proof.
  unfold applyDividers.
  destruct dividers as [ds|]; [|exists []; reflexivity].
  destruct (0 <? Z.of_nat (length ds)); [|exists []; reflexivity].
  destruct (lastElement ds) as [d|]; [|exists []; reflexivity].
  destruct (findIndex _ F >=? 0); [|exists []; reflexivity].
  unfold slice. eexists. symmetry. apply take_drop.
Qed.

Lemma filterHistory_suffix (H : list ChatMessage) (dividers : option (list jsstring))
    (P : ContextLength) :
  exists pre, dividerTrimmed H dividers = pre ++ filterHistory H dividers P.
Proof.
  destruct P as [| |n]; [exists []; reflexivity|exists []; reflexivity|].
  destruct (Z.ltb_spec n 0) as [Hneg|Hpos].
  - exists []. rewrite (filterHistory_negative H dividers n Hneg). reflexivity.
  - destruct (Z.to_nat n) as [|k] eqn:Ek.
    + assert (n = 0) as -> by lia.
      exists (dividerTrimmed H dividers). rewrite app_nil_r. reflexivity.
    + assert (n = Z.of_nat (S k)) as -> by lia.
      destruct (filterHistory_positive H dividers k) as (pre & Hpre & _).
      exists pre. exact Hpre.
Qed.

Lemma keepMessage_not_blank (m : ChatMessage) :
  keepMessage m = true -> msg_role m = assistant -> isBlank m = false.
Proof.
  unfold keepMessage, isBlank. intros Hk Hr.
  rewrite (bool_decide_eq_true_2 _ Hr), truthy_trim in Hk. simpl in Hk.
  rewrite negb_involutive in Hk. apply negb_true_iff in Hk. exact Hk.
Qed.

(** X1. Whatever the dividers and the policy, filterHistory only selects:
    its result is a subsequence of the history, the messages kept in their
    order, and holds no assistant message whose content is white space
    only. *)
Theorem filterHistory_selects (H : list ChatMessage) (dividers : option (list jsstring))
    (P : ContextLength) :
  HistoryFilter.filterHistory H dividers P `sublist_of` H /\
  Forall (fun m => msg_role m = assistant -> Shapes.isBlank m = false)
    (HistoryFilter.filterHistory H dividers P).
Proof.
  destruct (filterHistory_suffix H dividers P) as (pre & Hpre).
  destruct (applyDividers_suffix (emptyAssistantFiltered H) dividers) as (pre' & Hpre').
  fold (dividerTrimmed H dividers) in Hpre'. rewrite Hpre in Hpre'.
  assert (Hsub : filterHistory H dividers P `sublist_of` emptyAssistantFiltered H).
  { rewrite Hpre'. apply sublist_inserts_l, sublist_inserts_l. reflexivity. }
  split.
  - etransitivity; [exact Hsub|]. apply list_filter_sublist.
  - pose proof (list_filter_Forall keepMessage H) as Hall.
    fold (emptyAssistantFiltered H) in Hall. rewrite Hpre' in Hall.
    apply Forall_app in Hall as [_ Hall]. apply Forall_app in Hall as [_ Hall].
    eapply Forall_impl; [exact Hall|].
    intros m Hk. exact (keepMessage_not_blank m Hk).
Qed.

(** A sequence with fewer user messages than the limit, or with exactly
    the limit of them and a user message in front, is walked to its
    beginning. *)
Lemma collectRounds_whole (n : Z) (R : list ChatMessage) :
  0 < n ->
  (Z.of_nat (rounds R) < n
   \/ (Z.of_nat (rounds R) = n /\ exists m tail, R = m :: tail /\ msg_role m = user)) ->
  collectRounds n (rev R) 0 [] = R.
Proof.
  intros Hn Hcase.
  destruct (collectRounds_spec n (rev R) 0 []) as (taken & rest & Hsplit & -> & Hc); [lia|].
  rewrite app_nil_r.
  assert (HR : R = rev rest ++ rev taken).
  { rewrite <- (rev_involutive R), Hsplit, rev_app_distr. reflexivity. }
  assert (Hrounds : rounds R = (rounds rest + rounds taken)%nat).
  { rewrite HR, rounds_app, !rounds_rev. reflexivity. }
  destruct Hc as [[-> _]|[Hfull _]].
  - rewrite HR. reflexivity.
  - destruct Hcase as [Hlt|(Heq & m & tail & Hm & Hrole)]; [lia|].
    destruct rest as [|x rest']; [rewrite HR; reflexivity|].
    exfalso.
    assert (Hzero : rounds (rev (x :: rest')) = 0%nat) by (rewrite rounds_rev; lia).
    remember (rev (x :: rest')) as rr eqn:Er.
    destruct rr as [|y tail'].
    { apply (f_equal (@length _)) in Er. rewrite length_rev in Er. discriminate Er. }
    rewrite HR in Hm. simpl in Hm. injection Hm as -> _.
    unfold rounds in Hzero. simpl in Hzero.
    unfold isUser in Hzero. rewrite (bool_decide_eq_true_2 _ Hrole) in Hzero.
    discriminate Hzero.
Qed.

(** X2. Filtering twice changes nothing: the result of filterHistory,
    filtered again under the same policy and without dividers, is
    itself. *)
Theorem filterHistory_idempotent (H : list ChatMessage)
    (dividers : option (list jsstring)) (P : ContextLength) :
  HistoryFilter.filterHistory (HistoryFilter.filterHistory H dividers P) None P
  = HistoryFilter.filterHistory H dividers P.
Proof.
  set (R := filterHistory H dividers P).
  assert (Hkeep : List.filter keepMessage R = R).
  { apply list_filter_fixed.
    destruct (filterHistory_suffix H dividers P) as (pre & Hpre).
    destruct (applyDividers_suffix (emptyAssistantFiltered H) dividers) as (pre' & Hpre').
    fold (dividerTrimmed H dividers) in Hpre'. rewrite Hpre in Hpre'. fold R in Hpre'.
    pose proof (list_filter_Forall keepMessage H) as Hall.
    fold (emptyAssistantFiltered H) in Hall. rewrite Hpre' in Hall.
    apply Forall_app in Hall as [_ Hall]. apply Forall_app in Hall as [_ Hall].
    exact Hall. }
  unfold filterHistory at 1. rewrite Hkeep. simpl applyDividers.
  destruct P as [| |n]; [reflexivity|reflexivity|].
  destruct (Z.geb_spec n 0) as [Hge|Hlt]; [|reflexivity].
  destruct (Z.eqb_spec n 0) as [->|Hne]; [reflexivity|].
  apply collectRounds_whole; [lia|].
  destruct (Z.to_nat n) as [|k] eqn:Ek; [lia|].
  assert (Hn : n = Z.of_nat (S k)) by lia.
  subst R. rewrite Hn.
  destruct (filterHistory_positive H dividers k) as (pre & Hpre & [[-> Hlt]|[Hr Hhead]]).
  - left. rewrite app_nil_l in Hpre. rewrite <- Hpre. lia.
  - right. split; [lia|exact Hhead].
Qed.

Lemma collectRounds_grows (n : Z) (pending : list ChatMessage) :
  forall (roundCount : Z) (collected : list ChatMessage),
  roundCount < n ->
  exists pre,
    collectRounds (n + 1) pending roundCount collected
    = pre ++ collectRounds n pending roundCount collected.
Proof.
  induction pending as [|msg earlier IH]; intros rc collected Hrc; simpl.
  - exists []. reflexivity.
  - destruct (isUser msg).
    + destruct (Z.geb_spec (rc + 1) (n + 1)) as [Hge|Hlt]; [lia|].
      destruct (Z.geb_spec (rc + 1) n) as [Hge'|Hlt'].
      * destruct (collectRounds_spec (n + 1) earlier (rc + 1) (msg :: collected))
          as (taken & rest & _ & -> & _); [lia|].
        exists (rev taken). reflexivity.
      * apply IH. lia.
    + apply IH. exact Hrc.
Qed.

(** X3. A larger round limit never drops what a smaller one keeps: the
    result for the limit [n] is a suffix of the result for [n + 1]. *)
Theorem filterHistory_monotone (H : list ChatMessage)
    (dividers : option (list jsstring)) (n : nat) :
  exists pre,
    HistoryFilter.filterHistory H dividers (CtxNumber (Z.of_nat (S n)))
    = pre ++ HistoryFilter.filterHistory H dividers (CtxNumber (Z.of_nat n)).
Proof.
  destruct n as [|k].
  - eexists. rewrite app_nil_r. reflexivity.
  - unfold filterHistory.
    assert (E1 : forall j : nat, (Z.of_nat (S j) >=? 0) = true)
      by (intros j; apply Z.geb_le; lia).
    assert (E2 : forall j : nat, (Z.of_nat (S j) =? 0) = false)
      by (intros j; apply Z.eqb_neq; lia).
    rewrite !E1, !E2.
    replace (Z.of_nat (S (S k))) with (Z.of_nat (S k) + 1) by lia.
    apply collectRounds_grows. lia.
Qed.

(** X4. With a round limit of at least one, as with no limit, the most
    recent message of the divider-trimmed history is always kept. *)
Theorem filterHistory_keeps_latest (H : list ChatMessage)
    (dividers : option (list jsstring)) (k : nat) :
  last (HistoryFilter.filterHistory H dividers (CtxNumber (Z.of_nat (S k))))
  = last (HistoryFilter.dividerTrimmed H dividers).
Proof.
  destruct (filterHistory_positive H dividers k) as (pre & Hpre & [[-> _]|[_ Hhead]]).
  - rewrite app_nil_l in Hpre. rewrite <- Hpre. reflexivity.
  - destruct Hhead as (m & tail & Hm & _). rewrite Hpre, Hm.
    rewrite last_app. destruct (last (m :: tail)) eqn:E; [reflexivity|].
    apply last_None in E. discriminate E.
Qed.

End HistoryFilterMore.

(** ** stopGeneration and stopAllGenerations *)

Section RegistryFacts.

Import Registry.

Lemma fold_abort_elem (l : list (jsstring * nat)) :
  forall (A : gset nat) (c : nat),
  c ∈ fold_left (fun aborted entry => {[snd entry]} ∪ aborted) l A
  <-> c ∈ A \/ exists id, (id, c) ∈ l.
Proof.
  induction l as [|[j d] r IH]; intros A c; simpl.
  - split; [auto|]. intros [H|(id & H)]; [exact H|]. inversion H.
  - rewrite IH. split.
    + intros [H|(id & H)].
      * apply elem_of_union in H as [H|H]; [|auto].
        apply elem_of_singleton in H as ->. right. exists j. left.
      * right. exists id. right. exact H.
    + intros [H|(id & H)].
      * left. apply elem_of_union. auto.
      * apply elem_of_cons in H as [H|H].
        -- injection H as -> ->. left. apply elem_of_union. left.
           apply elem_of_singleton. reflexivity.
        -- right. exists id. exact H.
Qed.

(** X5. stopGeneration removes the mapping of its conversation and of no
    other, aborts the controller that was registered for it and no other,
    and is idempotent: a second stop of the same conversation changes
    nothing. *)
Theorem stopGeneration_spec (id : jsstring) (r : Controllers) :
  active (Registry.stopGeneration id r) !! id = None /\
  (forall j, j <> id -> active (Registry.stopGeneration id r) !! j = active r !! j) /\
  (forall c, c ∈ abortedControllers (Registry.stopGeneration id r)
             <-> c ∈ abortedControllers r \/ active r !! id = Some c) /\
  Registry.stopGeneration id (Registry.stopGeneration id r) = Registry.stopGeneration id r.
Proof.
  unfold stopGeneration.
  destruct (active r !! id) as [c0|] eqn:E; simpl.
  - split; [apply lookup_delete_eq|].
    split; [intros j Hj; apply lookup_delete_ne; congruence|].
    split.
    + intros c. rewrite elem_of_union, elem_of_singleton. split.
      * intros [->|H]; [right; reflexivity|left; exact H].
      * intros [H|H]; [right; exact H|left; congruence].
    + rewrite lookup_delete_eq. reflexivity.
  - split; [exact E|]. split; [reflexivity|]. split.
    + intros c. split; [auto|]. intros [H|H]; [exact H|discriminate H].
    + rewrite E. reflexivity.
Qed.

(** X6. stopAllGenerations empties the registry and aborts exactly the
    controllers that were registered, on top of those aborted before.
    After it, stopGeneration of any conversation and a second
    stopAllGenerations change nothing. *)
Theorem stopAllGenerations_spec (r : Controllers) :
  active (Registry.stopAllGenerations r) = ∅ /\
  (forall c, c ∈ abortedControllers (Registry.stopAllGenerations r)
             <-> c ∈ abortedControllers r \/ exists id, active r !! id = Some c) /\
  (forall id, Registry.stopGeneration id (Registry.stopAllGenerations r)
              = Registry.stopAllGenerations r) /\
  Registry.stopAllGenerations (Registry.stopAllGenerations r)
  = Registry.stopAllGenerations r.
Proof.
  assert (Hempty : active (stopAllGenerations r) = ∅).
  { unfold stopAllGenerations.
    destruct (Nat.eqb_spec (size (active r)) 0) as [Hz|Hnz]; [|reflexivity].
    apply map_size_empty_iff. exact Hz. }
  split; [exact Hempty|]. split; [|split].
  - intros c. unfold stopAllGenerations.
    destruct (Nat.eqb_spec (size (active r)) 0) as [Hz|Hnz]; simpl.
    + apply map_size_empty_iff in Hz. rewrite Hz. split; [auto|].
      intros [H|(id & H)]; [exact H|]. rewrite lookup_empty in H. discriminate H.
    + rewrite fold_abort_elem. split.
      * intros [H|(id & H)]; [auto|]. right. exists id.
        apply elem_of_map_to_list. exact H.
      * intros [H|(id & H)]; [auto|]. right. exists id.
        apply elem_of_map_to_list. exact H.
  - intros id. unfold stopGeneration. rewrite Hempty, lookup_empty. reflexivity.
  - unfold stopAllGenerations at 1. rewrite Hempty, map_size_empty. reflexivity.
Qed.

End RegistryFacts.

(** ** sendMessage: further properties *)

Section SendMessageMore.

Import ChatService Spec Shapes.

Variable w : World.
Variable input : ChatSendInput.

Lemma prepare_user_message (st : State) (ch : Channel) (k : jsstring)
    (h : list ChatMessage) (u : jsstring) (st1 : State) :
  prepare w input st = Entered ch k h u st1 ->
  exists userMsg,
    msg_role userMsg = user /\
    msg_content userMsg = userMessage input /\
    msg_stopped userMsg = None /\
    appended st1 = appended st ++ [(conversationId input, userMsg)] /\
    requests st1 = requests st.
Proof.
  unfold prepare.
  destruct (List.find _ (listChannels w)) as [ch'|]; [|discriminate].
  destruct (decryptApiKey w (channelId input)) as [k'|e]; [|discriminate].
  simpl. intros [= <- <- <- <- <-]. eexists. repeat split; reflexivity.
Qed.

Lemma continuationOf_build (ch : Channel) (k : jsstring) (h : list ChatMessage)
    (u : jsstring) (tools : option (list ToolDefinition)) (sys : option jsstring)
    (cm : list ContinuationMessage) :
  continuationOf (buildRequestInput input ch k h u tools sys cm) = cm.
Proof. unfold continuationOf. destruct cm; reflexivity. Qed.

Lemma inRounds_app (b : list ContinuationMessage) :
  inRounds b ->
  forall (n : nat) (a : list ContinuationMessage),
  (length a <= n)%nat -> inRounds a -> inRounds (a ++ b).
Proof.
  intros Hb. induction n as [|n IH]; intros a Hlen Ha.
  - destruct a; [exact Hb|simpl in Hlen; lia].
  - destruct a as [|x [|y rest]]; [exact Hb| |].
    + destruct x; simpl in Ha; contradiction.
    + destruct x as [content toolCalls|results]; [|simpl in Ha; contradiction].
      destruct y as [content' toolCalls'|results]; [simpl in Ha; contradiction|].
      simpl in Ha. destruct Ha as (H1 & H2 & H3).
      simpl. split; [exact H1|]. split; [exact H2|].
      apply IH; [simpl in Hlen; lia|exact H3].
Qed.

Lemma leavesLoop_false_calls (result : StreamResult) :
  leavesLoop result = false -> default [] (sr_toolCalls result) <> [].
Proof.
  unfold leavesLoop. destruct (sr_toolCalls result) as [[|tc tcs]|]; simpl;
    [discriminate|discriminate|discriminate].
Qed.

(** The requests of the loop: each carries the continuation built so far,
    two messages longer at every round. *)
Lemma toolLoop_requests (ch : Channel) (k : jsstring) (h : list ChatMessage) (u : jsstring)
    (cfg : MemoryConfig) (tools : option (list ToolDefinition)) (sys : option jsstring) :
  forall (fuel round : nat) (cm : list ContinuationMessage)
         (acc : Accumulated) (st : State),
  (MAX_TOOL_ROUNDS <= fuel + round)%nat ->
  inRounds cm ->
  exists c acc' st' news,
    toolLoop w input ch k h u cfg tools sys fuel round cm acc st = Some (c, acc', st') /\
    requests st' = requests st ++ news /\
    forall (i : nat) (r : StreamRequestInput),
      news !! i = Some r ->
      inRounds (continuationOf r) /\
      length (continuationOf r) = (length cm + 2 * i)%nat.
Proof.
  induction fuel as [|fuel IH]; intros round cm acc st Hfuel Hcm.
  - simpl. destruct (Nat.ltb_spec round MAX_TOOL_ROUNDS) as [Hlt|Hge]; [lia|].
    exists (Normal tt), acc, st, []. split; [reflexivity|].
    split; [rewrite app_nil_r; reflexivity|]. intros i r Hi. discriminate Hi.
  - simpl. destruct (Nat.ltb_spec round MAX_TOOL_ROUNDS) as [Hlt|Hge].
    2:{ exists (Normal tt), acc, st, []. split; [reflexivity|].
        split; [rewrite app_nil_r; reflexivity|]. intros i r Hi. discriminate Hi. }
    set (request := buildRequestInput input ch k h u tools sys cm).
    set (run := streamSSE w (S round) request).
    destruct (deliver_spec input (delivered run) acc (logRequest request st))
      as (m1 & _ & _ & R1).
    destruct (deliver input (delivered run) (acc, logRequest request st))
      as [acc1 st1] eqn:Ed.
    simpl in R1.
    assert (Hfirst : forall (i : nat) (r : StreamRequestInput),
               [request] !! i = Some r ->
               inRounds (continuationOf r) /\
               length (continuationOf r) = (length cm + 2 * i)%nat).
    { intros [|i] r Hi; [|discriminate Hi]. injection Hi as <-.
      unfold request. rewrite continuationOf_build. split; [exact Hcm|lia]. }
    destruct (ending run) as [result|error] eqn:Eend.
    + destruct (leavesLoop result) eqn:Eleave.
      * exists (Normal tt), acc1, st1, [request].
        split; [reflexivity|]. split; [exact R1|exact Hfirst].
      * destruct (executeToolCalls_spec w input cfg (S round)
                    (default [] (sr_toolCalls result)) [] st1)
          as (new & st2 & m2 & Et & _ & _ & R2 & Hids).
        rewrite Et. simpl app.
        match goal with
        | |- context [toolLoop _ _ _ _ _ _ _ _ _ fuel (S round) ?cm' acc1 st2] =>
            destruct (IH (S round) cm' acc1 st2)
              as (c & acc3 & st3 & news & -> & R3 & Hnews); [lia| |]
        end.
        { apply (inRounds_app _) with (n := length cm); [|lia|exact Hcm].
          simpl. split; [exact (leavesLoop_false_calls result Eleave)|].
          split; [exact Hids|exact I]. }
        exists c, acc3, st3, (request :: news). split; [reflexivity|].
        split.
        { rewrite R3, R2, R1. simpl. rewrite <- app_assoc. reflexivity. }
        intros [|i] r Hi.
        -- exact (Hfirst 0%nat r Hi).
        -- simpl in Hi. destruct (Hnews i r Hi) as [Hr Hl]. split; [exact Hr|].
           rewrite Hl, length_app. simpl. lia.
    + exists (Throw error), acc1, st1, [request].
      split; [reflexivity|]. split; [exact R1|exact Hfirst].
Qed.

Lemma tryBlock_requests (ch : Channel) (k : jsstring) (h : list ChatMessage)
    (u : jsstring) (st1 : State) :
  exists c acc st2 news,
    tryBlock w input MAX_TOOL_ROUNDS ch k h u noContent st1 = Some (c, acc, st2) /\
    requests st2 = requests st1 ++ news /\
    forall (i : nat) (r : StreamRequestInput),
      news !! i = Some r ->
      inRounds (continuationOf r) /\
      length (continuationOf r) = (2 * i)%nat.
Proof.
  unfold tryBlock.
  destruct (getAdapter w (ch_provider ch)) as [[]|e1].
  2:{ exists (Throw e1), noContent, st1, []. split; [reflexivity|].
      split; [rewrite app_nil_r; reflexivity|]. intros i r Hi. discriminate Hi. }
  destruct (getEffectiveProxyUrl w) as [[]|e2].
  2:{ exists (Throw e2), noContent, st1, []. split; [reflexivity|].
      split; [rewrite app_nil_r; reflexivity|]. intros i r Hi. discriminate Hi. }
  match goal with
  | |- context [toolLoop w input ch k h u ?cfg ?tools ?sys MAX_TOOL_ROUNDS 0 [] noContent st1] =>
      destruct (toolLoop_requests ch k h u cfg tools sys MAX_TOOL_ROUNDS 0 [] noContent st1)
        as (c & acc & stL & news & -> & R1 & Hnews); [lia|exact I|]
  end.
  destruct c as [[]|e].
  - exists (Normal tt), acc, (finalize w input acc stL), news.
    split; [reflexivity|].
    destruct (finalize_spec w input acc stL) as (Fr & _). rewrite Fr.
    split; [exact R1|exact Hnews].
  - exists (Throw e), acc, stL, news. split; [reflexivity|].
    split; [exact R1|exact Hnews].
Qed.

(** X7. In every run of sendMessage the request of round [i + 1] carries a
    continuation of exactly [2 * i] messages (none in the first round), made
    of rounds: an assistant turn with at least one tool call, followed by
    the tool turn whose results answer, in order, those of its calls that
    name recall_memory or add_memory. *)
Theorem requests_carry_rounds (st : State) :
  exists st',
    ChatService.sendMessage w input st = Some st' /\
    forall (i : nat) (r : StreamRequestInput),
      Shapes.requested st st' !! i = Some r ->
      Shapes.inRounds (Shapes.continuationOf r) /\
      length (Shapes.continuationOf r) = (2 * i)%nat.
Proof.
  unfold requested, sendMessage, sendMessage_fuel.
  pose proof (prepare_spec w input st) as Hs.
  destruct (prepare w input st) as [st0|ch k h u st1] eqn:Hp.
  - destruct Hs as (_ & message & ->). eexists. split; [reflexivity|].
    simpl. rewrite drop_all. intros i r Hi. discriminate Hi.
  - destruct Hs as (_ & _ & _ & _ & Hreq).
    destruct (tryBlock_requests ch k h u st1) as (c & acc & st2 & news & -> & R & Hnews).
    eexists. split; [reflexivity|].
    assert (Hfinal : requests (finallyBlock input
                       match c with
                       | Normal _ => st2
                       | Throw error => catchBlock w input error acc st2
                       end) = requests st ++ news).
    { unfold finallyBlock, setControllers. simpl. destruct c as [[]|e].
      - rewrite R, Hreq. reflexivity.
      - destruct (catchBlock_spec w input e acc st2) as (Cr & _).
        rewrite Cr, R, Hreq. reflexivity. }
    rewrite Hfinal, drop_app_length. exact Hnews.
Qed.

(** X8. A run whose stream fails without cancellation reports the failure
    and keeps none of the partial answer: the one message it persisted is
    the user message, with the text the user sent, and its last event is
    [error], carrying the message of the exception, or '未知错误' for a
    thrown value that is not an [Error]. *)
Theorem failed_run_discards_partial (st : State) (error : Thrown) (acc : Accumulated) :
  Spec.outcome w input st = Some (Spec.Failed error acc) ->
  exists st' userMsg,
    ChatService.sendMessage w input st = Some st' /\
    Spec.persisted st st' = [(conversationId input, userMsg)] /\
    msg_role userMsg = user /\
    msg_content userMsg = userMessage input /\
    last (sent st')
      = Some (STREAM_ERROR (conversationId input)
                match error with
                | ThrownError message => message
                | ThrownOther _ => UNKNOWN_ERROR
                end).
Proof.
  unfold outcome. intros Ho.
  destruct (prepare w input st) as [st0|ch k h u st1] eqn:Hp; [discriminate Ho|].
  destruct (prepare_user_message st ch k h u st1 Hp)
    as (userMsg & Hrole & Hcontent & _ & Happ1 & _).
  destruct (sendMessage_entered w input st ch k h u st1 Hp)
    as (c & acc' & stL & mid & userMsg' & Ht & Hrun & _ & Hsent & _ & Happ & _).
  rewrite Ht in Ho. destruct c as [[]|e]; [discriminate Ho|].
  destruct (signalAborted w) eqn:Hsig; [discriminate Ho|].
  injection Ho as -> ->.
  eexists. exists userMsg. split; [exact Hrun|].
  assert (Hstream : appended stL = appended st ++ [(conversationId input, userMsg)]).
  { destruct (tryBlock_spec w input ch k h u st1)
      as (c2 & acc2 & stL2 & mid2 & Ht2 & (_ & _ & P2 & _) & _).
    rewrite Ht in Ht2. injection Ht2 as <- <- Hst.
    simpl in Hst. subst stL2. rewrite P2. exact Happ1. }
  unfold persisted, finallyBlock, setControllers, catchBlock. rewrite Hsig. simpl.
  split; [rewrite Hstream; apply drop_app_length|].
  split; [exact Hrole|]. split; [exact Hcontent|]. apply last_snoc.
Qed.

End SendMessageMore.

Section SendMessageMoreRuns.

Import ChatService.

Lemma failed_run_discards_partial_witness :
  exists st' userMsg,
    ChatService.sendMessage
      (Samples.world [Samples.channel1] MoreSamples.helloThenDown false)
      Samples.input1 Samples.freshState = Some st' /\
    Spec.persisted Samples.freshState st' = [(lit "c1", userMsg)] /\
    msg_role userMsg = user /\
    msg_content userMsg = lit "Hi" /\
    last (sent st') = Some (STREAM_ERROR (lit "c1") (lit "fetch failed")).
Proof.
  exact (failed_run_discards_partial
           (Samples.world [Samples.channel1] MoreSamples.helloThenDown false)
           Samples.input1 Samples.freshState
           (ThrownError (lit "fetch failed"))
           {| accumulatedContent := lit "Hello"; accumulatedReasoning := [] |}
           eq_refl).
Defined.

End SendMessageMoreRuns.

(** ** sendMessage: what a run touches *)

Section SendMessageTrace.

Import ChatService Spec Shapes.

Variable w : World.
Variable input : ChatSendInput.

Lemma reasoningText_app (a b : list IpcEvent) :
  reasoningText (a ++ b) = reasoningText a ++ reasoningText b.
Proof.
  induction a as [|ev r IH]; [reflexivity|].
  destruct ev; simpl; try exact IH.
  unfold strcat. rewrite IH. apply app_assoc.
Qed.

Lemma onEvent_trace (event : StreamEvent jsstring) (acc : Accumulated) (st : State) :
  exists mid,
    sent (snd (onEvent input event (acc, st))) = sent st ++ mid /\
    Forall (addressed input) mid /\
    accumulatedReasoning (fst (onEvent input event (acc, st)))
      = accumulatedReasoning acc ++ reasoningText mid.
Proof.
  destruct event; simpl.
  - eexists [_]. split; [reflexivity|]. split; [repeat constructor|].
    simpl. rewrite app_nil_r. reflexivity.
  - eexists [_]. split; [reflexivity|]. split; [repeat constructor|].
    simpl. unfold strcat. rewrite app_nil_r. reflexivity.
  - eexists [_]. split; [reflexivity|]. split; [repeat constructor|].
    simpl. rewrite app_nil_r. reflexivity.
  - exists []. rewrite !app_nil_r. repeat split. constructor.
  - exists []. rewrite !app_nil_r. repeat split. constructor.
Qed.

Lemma deliver_trace (events : list (StreamEvent jsstring)) :
  forall (acc : Accumulated) (st : State),
  exists mid,
    sent (snd (deliver input events (acc, st))) = sent st ++ mid /\
    Forall (addressed input) mid /\
    accumulatedReasoning (fst (deliver input events (acc, st)))
      = accumulatedReasoning acc ++ reasoningText mid.
Proof.
  induction events as [|event rest IH]; intros acc st.
  - exists []. rewrite !app_nil_r. repeat split. constructor.
  - change (deliver input (event :: rest) (acc, st))
      with (deliver input rest (onEvent input event (acc, st))).
    destruct (onEvent_trace event acc st) as (m1 & S1 & T1 & A1).
    destruct (onEvent input event (acc, st)) as [acc1 st1]. simpl in S1, A1.
    destruct (IH acc1 st1) as (m2 & S2 & T2 & A2).
    exists (m1 ++ m2). split; [rewrite S2, S1, app_assoc; reflexivity|].
    split; [apply Forall_app; split; assumption|].
    rewrite A2, A1, reasoningText_app, app_assoc. reflexivity.
Qed.

Lemma executeToolCalls_trace (cfg : MemoryConfig) (round : nat) (toolCalls : list ToolCall) :
  forall (results : list ToolResult) (st : State),
  exists mid,
    sent (snd (executeToolCalls w input cfg round toolCalls results st)) = sent st ++ mid /\
    Forall (addressed input) mid /\ reasoningText mid = [].
Proof.
  induction toolCalls as [|tc rest IH]; intros results st; simpl.
  - exists []. rewrite app_nil_r. repeat split. constructor.
  - destruct (streq (tc_name tc) (lit "recall_memory") || streq (tc_name tc) (lit "add_memory")).
    + destruct (executeMemoryToolCall w round tc cfg) as [r|e].
      * match goal with
        | |- context [executeToolCalls _ _ _ _ _ ?rs ?s] =>
            destruct (IH rs s) as (mid & S1 & T1 & R1)
        end.
        eexists (_ :: mid). split; [rewrite S1; simpl; rewrite <- app_assoc; reflexivity|].
        split; [constructor; [reflexivity|exact T1]|exact R1].
      * exists []. rewrite app_nil_r. repeat split. constructor.
    + apply IH.
Qed.

Lemma toolLoop_trace (ch : Channel) (k : jsstring) (h : list ChatMessage) (u : jsstring)
    (cfg : MemoryConfig) (tools : option (list ToolDefinition)) (sys : option jsstring) :
  forall (fuel round : nat) (cm : list ContinuationMessage)
         (acc : Accumulated) (st : State)
         (c : Completion Thrown unit) (acc' : Accumulated) (st' : State),
  toolLoop w input ch k h u cfg tools sys fuel round cm acc st = Some (c, acc', st') ->
  exists mid,
    sent st' = sent st ++ mid /\
    Forall (addressed input) mid /\
    accumulatedReasoning acc' = accumulatedReasoning acc ++ reasoningText mid.
Proof.
  induction fuel as [|fuel IH]; intros round cm acc st c acc' st'; simpl.
  - destruct (round <? MAX_TOOL_ROUNDS)%nat; [discriminate|].
    intros [= <- <- <-]. exists []. rewrite !app_nil_r. repeat split. constructor.
  - destruct (round <? MAX_TOOL_ROUNDS)%nat.
    2:{ intros [= <- <- <-]. exists []. rewrite !app_nil_r. repeat split. constructor. }
    set (request := buildRequestInput input ch k h u tools sys cm).
    set (run := streamSSE w (S round) request).
    destruct (deliver_trace (delivered run) acc (logRequest request st))
      as (m1 & S1 & T1 & A1).
    destruct (deliver input (delivered run) (acc, logRequest request st))
      as [acc1 st1] eqn:Ed.
    simpl in S1, A1.
    destruct (ending run) as [result|error].
    + destruct (leavesLoop result).
      * intros [= <- <- <-]. exists m1. repeat split; assumption.
      * destruct (executeToolCalls_trace cfg (S round)
                    (default [] (sr_toolCalls result)) [] st1) as (m2 & S2 & T2 & R2).
        destruct (executeToolCalls w input cfg (S round)
                    (default [] (sr_toolCalls result)) [] st1) as [[new|e] st2].
        -- simpl in S2. intros Hloop.
           destruct (IH _ _ _ _ _ _ _ Hloop) as (m3 & S3 & T3 & A3).
           exists (m1 ++ m2 ++ m3).
           split; [rewrite S3, S2, S1, !app_assoc; reflexivity|].
           split; [repeat (apply Forall_app; split); assumption|].
           rewrite A3, A1, !reasoningText_app, R2. simpl.
           rewrite app_assoc. reflexivity.
        -- simpl in S2. intros [= <- <- <-]. exists (m1 ++ m2).
           split; [rewrite S2, S1, app_assoc; reflexivity|].
           split; [apply Forall_app; split; assumption|].
           rewrite A1, reasoningText_app, R2, app_nil_r. reflexivity.
    + intros [= <- <- <-]. exists m1. repeat split; assumption.
Qed.

Lemma reasoningText_terminal (mid : list IpcEvent) (terminal : IpcEvent) :
  isTerminal terminal = true -> reasoningText (mid ++ [terminal]) = reasoningText mid.
Proof.
  intros H. rewrite reasoningText_app.
  destruct terminal; try discriminate H; simpl; apply app_nil_r.
Qed.

(** The [try] block, with everything the loop keeps. *)
Lemma tryBlock_full (ch : Channel) (k : jsstring) (h : list ChatMessage) (u : jsstring)
    (st1 : State) :
  exists c acc stL mid,
    tryBlock w input MAX_TOOL_ROUNDS ch k h u noContent st1
      = Some (c, acc,
              match c with Normal _ => finalize w input acc stL | Throw _ => stL end) /\
    streamed st1 stL mid /\
    accumulatedContent acc = chunkText mid /\
    Forall (addressed input) mid /\
    accumulatedReasoning acc = reasoningText mid.
Proof.
  unfold tryBlock.
  destruct (getAdapter w (ch_provider ch)) as [[]|e1].
  2:{ exists (Throw e1), noContent, st1, []. split; [reflexivity|].
      split; [apply streamed_refl|]. repeat split. constructor. }
  destruct (getEffectiveProxyUrl w) as [[]|e2].
  2:{ exists (Throw e2), noContent, st1, []. split; [reflexivity|].
      split; [apply streamed_refl|]. repeat split. constructor. }
  match goal with
  | |- context [toolLoop w input ch k h u ?cfg ?tools ?sys MAX_TOOL_ROUNDS 0 [] noContent st1] =>
      destruct (toolLoop_spec w input ch k h u cfg tools sys MAX_TOOL_ROUNDS 0 [] noContent st1)
        as (c & acc & stL & mid & Hloop & S1 & A1 & _); [lia|];
      destruct (toolLoop_trace ch k h u cfg tools sys _ _ _ _ _ _ _ _ Hloop)
        as (mid' & S2 & T2 & A2)
  end.
  rewrite Hloop.
  assert (mid' = mid) as ->.
  { destruct S1 as (S1 & _). rewrite S1 in S2. exact (eq_sym (app_inv_head _ _ _ S2)). }
  exists c, acc, stL, mid. split; [destruct c as [[]|e]; reflexivity|].
  split; [exact S1|]. split; [exact A1|]. split; [exact T2|exact A2].
Qed.

(** How the [try] statement ends: one terminal event, addressed to the
    conversation, and at most one assistant message, holding what has
    accumulated. *)
Lemma ending_trace (c : Completion Thrown unit) (acc : Accumulated) (stL : State) :
  exists terminal saved,
    sent (match c with
          | Normal _ => finalize w input acc stL
          | Throw error => catchBlock w input error acc stL
          end) = sent stL ++ [terminal] /\
    appended (match c with
              | Normal _ => finalize w input acc stL
              | Throw error => catchBlock w input error acc stL
              end) = appended stL ++ List.map (pair (conversationId input)) saved /\
    activeControllers (match c with
                       | Normal _ => finalize w input acc stL
                       | Throw error => catchBlock w input error acc stL
                       end) = activeControllers stL /\
    addressed input terminal /\ isTerminal terminal = true /\
    Forall (fun m => msg_model m = Some (modelId input) /\
                     msg_content m = accumulatedContent acc /\
                     msg_reasoning m = orUndefined (accumulatedReasoning acc)) saved.
Proof.
  destruct c as [[]|error].
  - unfold finalize, callRandomUUID, callDateNow.
    destruct (truthy (trim (accumulatedContent acc))); simpl.
    + eexists _, [_]. repeat split. repeat constructor.
    + eexists _, []. rewrite app_nil_r. repeat split. constructor.
  - unfold catchBlock, callRandomUUID, callDateNow.
    destruct (signalAborted w).
    + destruct (truthy (accumulatedContent acc)); simpl.
      * eexists _, [_]. repeat split. repeat constructor.
      * eexists _, []. rewrite app_nil_r. repeat split. constructor.
    + simpl. eexists _, []. rewrite app_nil_r. repeat split. constructor.
Qed.

(** A whole run, with what it sent, what it persisted and what it left in
    the registry. *)
Lemma run_trace (st : State) :
  exists st' evs saved,
    sendMessage w input st = Some st' /\
    sent st' = sent st ++ evs /\
    appended st' = appended st ++ List.map (pair (conversationId input)) saved /\
    Forall (addressed input) evs /\
    Forall (fun m => msg_role m = user \/
                     (msg_model m = Some (modelId input) /\
                      msg_content m = chunkText evs /\
                      msg_reasoning m = orUndefined (reasoningText evs))) saved /\
    (forall j, j <> conversationId input ->
               activeControllers st' !! j = activeControllers st !! j).
Proof.
  pose proof (prepare_spec w input st) as Hs.
  destruct (prepare w input st) as [st0|ch k h u st1] eqn:Hp.
  - destruct Hs as (_ & message & ->).
    exists (send (STREAM_ERROR (conversationId input) message) st),
      [STREAM_ERROR (conversationId input) message], [].
    split; [exact (sendMessage_returned w input st _ Hp)|].
    split; [reflexivity|]. split; [simpl; rewrite app_nil_r; reflexivity|].
    split; [repeat constructor|]. split; [constructor|]. reflexivity.
  - destruct Hs as (_ & Hsent & (userMsg & Hrole & Happ) & Hreg & _).
    destruct (tryBlock_full ch k h u st1)
      as (c & acc & stL & mid & Ht & (S1 & _ & P1 & C1 & _) & A1 & T1 & G1).
    destruct (ending_trace c acc stL)
      as (terminal & saved & Et & Ea & Ec & Hadd & Hterm & Hsaved).
    exists (finallyBlock input
              match c with
              | Normal _ => finalize w input acc stL
              | Throw error => catchBlock w input error acc stL
              end), (mid ++ [terminal]), (userMsg :: saved).
    split.
    { unfold sendMessage, sendMessage_fuel. rewrite Hp, Ht.
      destruct c as [[]|e]; reflexivity. }
    unfold finallyBlock, setControllers. simpl.
    split; [rewrite Et, S1, Hsent, app_assoc; reflexivity|].
    split; [rewrite Ea, P1, Happ, <- app_assoc; reflexivity|].
    split; [apply Forall_app; split; [exact T1|repeat constructor; exact Hadd]|].
    split.
    { constructor; [left; exact Hrole|].
      eapply Forall_impl; [exact Hsaved|].
      intros m (Hm & Hc & Hr). right.
      rewrite (chunkText_terminal _ _ Hterm), (reasoningText_terminal _ _ Hterm).
      rewrite <- A1, <- G1. repeat split; assumption. }
    intros j Hj. rewrite Ec, C1, Hreg.
    rewrite lookup_delete_ne by congruence. apply lookup_insert_ne. congruence.
Qed.

(** X9. A run of sendMessage touches its own conversation only: every
    event it sends is addressed to the conversation of the input, every
    message it persists is appended to that conversation, and the registry
    entries of all other conversations are left as they were. *)
Theorem run_is_confined (st : State) :
  exists st',
    ChatService.sendMessage w input st = Some st' /\
    Forall (Shapes.addressed input) (Spec.emitted st st') /\
    Forall (fun entry => fst entry = conversationId input) (Spec.persisted st st') /\
    (forall j, j <> conversationId input ->
               activeControllers st' !! j = activeControllers st !! j).
Proof.
  destruct (run_trace st) as (st' & evs & saved & Hrun & Hsent & Happ & Ht & _ & Hreg).
  exists st'. split; [exact Hrun|].
  unfold emitted, persisted. rewrite Hsent, Happ, !drop_app_length.
  split; [exact Ht|]. split; [|exact Hreg].
  apply Forall_forall. intros entry Hin.
  apply list_elem_of_In, in_map_iff in Hin as (m & <- & _). reflexivity.
Qed.

(** X10. Whatever way a run ends, an assistant message it persists carries
    the model id of the input, the concatenation of all the chunks the run
    streamed as its content, and the concatenation of all the reasoning
    deltas as its reasoning, or no reasoning field when that text is
    empty. *)
Theorem persisted_answer_fields (st : State) :
  exists st',
    ChatService.sendMessage w input st = Some st' /\
    Forall (fun m =>
              msg_model m = Some (modelId input) /\
              msg_content m = Spec.chunkText (Spec.emitted st st') /\
              msg_reasoning m
                = Shapes.orUndefined (Shapes.reasoningText (Spec.emitted st st')))
      (Spec.persistedAssistant st st').
Proof.
  destruct (run_trace st) as (st' & evs & saved & Hrun & Hsent & Happ & _ & Hsaved & _).
  exists st'. split; [exact Hrun|].
  unfold persistedAssistant, emitted, persisted.
  rewrite Hsent, Happ, !drop_app_length, List.map_map. simpl. rewrite List.map_id.
  apply Forall_forall. intros m Hin.
  apply list_elem_of_In, filter_In in Hin as (Hin & Hrole).
  rewrite Forall_forall in Hsaved.
  destruct (Hsaved m (proj2 (list_elem_of_In _ _) Hin)) as [Hu|Hfields]; [|exact Hfields].
  unfold isAssistant in Hrole. apply bool_decide_eq_true in Hrole. congruence.
Qed.

End SendMessageTrace.

(** ** The memory tools *)

Section MemoryFacts.

Import ChatService Spec.

Variable w : World.

Lemma join_head (sep : jsstring) (c : N) (l : jsstring) (rest : list jsstring) :
  exists t, join sep ((c :: l) :: rest) = c :: t.
Proof. destruct rest; simpl; eexists; reflexivity. Qed.

(** The first character of what formatSearchResult returns tells the three
    cases apart. *)
Lemma formatSearchResult_head (result : MemorySearchResult) :
  exists t,
    formatSearchResult w result
    = match facts result, preferences result with
      | [], [] => 78%N :: t
      | [], _ :: _ => 10%N :: t
      | _ :: _, _ => 35%N :: t
      end.
Proof.
  unfold formatSearchResult.
  destruct (facts result) as [|f fs]; destruct (preferences result) as [|p ps].
  - eexists. reflexivity.
  - cbn [length Nat.ltb Nat.leb app]. unfold strcat at 1.
    cbn [app]. destruct (join_head [10%N] 10%N (lit "## Preferences")
                           (List.map (fun item =>
                              if optTruthy (pref_type item)
                              then strcat (lit "- (")
                                     (strcat (default [] (pref_type item))
                                        (strcat (lit ") ") (pref_text item)))
                              else strcat (lit "- ") (pref_text item)) (p :: ps)))
      as (t & Ht).
    exists t. exact Ht.
  - cbn [length Nat.ltb Nat.leb app]. eexists. reflexivity.
  - cbn [length Nat.ltb Nat.leb app]. eexists. reflexivity.
Qed.

(** X11. formatSearchResult never returns the empty string, and returns
    'No memories found.' exactly when the search result holds no fact and
    no preference. *)
Theorem formatSearchResult_nothing_found (result : MemorySearchResult) :
  ChatService.formatSearchResult w result <> [] /\
  (ChatService.formatSearchResult w result = lit "No memories found."
   <-> facts result = [] /\ preferences result = []).
Proof.
  destruct (formatSearchResult_head result) as (t & Ht).
  unfold formatSearchResult in *.
  destruct (facts result) as [|f fs]; destruct (preferences result) as [|p ps].
  - split; [discriminate|]. split; [auto|]. intros _. reflexivity.
  - rewrite Ht. split; [discriminate|]. split; [discriminate|]. intros [_ H]. discriminate H.
  - rewrite Ht. split; [discriminate|]. split; [discriminate|]. intros [H _]. discriminate H.
  - rewrite Ht. split; [discriminate|]. split; [discriminate|]. intros [H _]. discriminate H.
Qed.

(** X12. executeMemoryToolCall never throws.  Its result carries the id of
    the call and a content that is not empty; the error flag is either
    absent or true, and it is absent only for a call that names
    recall_memory or add_memory. *)
Theorem executeMemoryToolCall_result (round : nat) (tc : ToolCall) (cfg : MemoryConfig) :
  exists r,
    ChatService.executeMemoryToolCall w round tc cfg = Normal r /\
    tr_toolCallId r = tc_id tc /\
    tr_content r <> [] /\
    (tr_isError r = None \/ tr_isError r = Some true) /\
    (tr_isError r = None -> Spec.isKnownTool (tc_name tc) = true).
Proof.
  unfold executeMemoryToolCall, tryCatch, mbind, Completion_bind, bind, isKnownTool.
  destruct (streq (tc_name tc) (lit "recall_memory")).
  - destruct (searchMemory w round _ _) as [res|e]; eexists;
      (split; [reflexivity|]); simpl.
    + destruct (formatSearchResult_head res) as (t & Ht).
      split; [reflexivity|]. split; [|split; [left; reflexivity|reflexivity]].
      rewrite Ht. destruct (facts res), (preferences res); discriminate.
    + split; [reflexivity|]. split; [discriminate|].
      split; [right; reflexivity|discriminate].
  - destruct (streq (tc_name tc) (lit "add_memory")).
    + destruct (addMemory w round _ _ _) as [[]|e]; eexists;
        (split; [reflexivity|]); simpl.
      * split; [reflexivity|]. split; [discriminate|].
        split; [left; reflexivity|reflexivity].
      * split; [reflexivity|]. split; [discriminate|].
        split; [right; reflexivity|discriminate].
    + eexists. split; [reflexivity|]. simpl.
      split; [reflexivity|]. split; [discriminate|].
      split; [right; reflexivity|discriminate].
Qed.

End MemoryFacts.

(** ** Document attachments *)

Section DocumentFacts.

Import ChatService Documents.

Variable isDocumentAttachment : jsstring -> bool.
Variable extractTextFromAttachment : jsstring -> Completion Thrown jsstring.

Lemma join_empty_separator (l : jsstring) (rest : list jsstring) :
  join [] (l :: rest) = l ++ join [] rest.
Proof. destruct rest; simpl; [rewrite app_nil_r|]; reflexivity. Qed.

Lemma pushDocumentPart_spec (att : FileAttachment) (parts : list jsstring) :
  exists block,
    pushDocumentPart extractTextFromAttachment att parts = Normal (parts ++ [block]) /\
    block <> [].
Proof.
  unfold pushDocumentPart, tryCatch, mbind, Completion_bind, bind.
  destruct (extractTextFromAttachment (att_localPath att)) as [text|e].
  - destruct (truthy (trim text)); eexists; (split; [reflexivity|discriminate]).
  - eexists. split; [reflexivity|discriminate].
Qed.

Lemma pushDocumentParts_spec (docs : list FileAttachment) :
  forall parts : list jsstring,
  exists blocks,
    pushDocumentParts extractTextFromAttachment docs parts = Normal (parts ++ blocks) /\
    (docs <> [] -> join [] blocks <> []).
Proof.
  induction docs as [|att rest IH]; intros parts; simpl.
  - exists []. rewrite app_nil_r. split; [reflexivity|]. congruence.
  - destruct (pushDocumentPart_spec att parts) as (block & -> & Hb).
    unfold mbind, Completion_bind, bind.
    destruct (IH (parts ++ [block])) as (blocks & -> & _).
    exists (block :: blocks). split; [rewrite <- app_assoc; reflexivity|].
    intros _. rewrite join_empty_separator.
    destruct block; [congruence|discriminate].
Qed.

Lemma filter_nil_Forall {A : Type} (p : A -> bool) (l : list A) :
  List.filter p l = [] <-> Forall (fun x => p x = false) l.
Proof.
  induction l as [|x r IH]; simpl.
  - split; [constructor|reflexivity].
  - destruct (p x) eqn:E.
    + split; [discriminate|]. intros H. inversion H; congruence.
    + rewrite IH. split; [constructor; assumption|]. intros H. inversion H; assumption.
Qed.

Lemma enrichMessage_spec (messageText : jsstring)
    (attachments : option (list FileAttachment)) :
  exists extra,
    Documents.enrichMessageWithDocuments isDocumentAttachment extractTextFromAttachment
      messageText attachments = Normal (messageText ++ extra) /\
    (extra = [] <->
     Forall (fun att => isDocumentAttachment (att_mediaType att) = false)
       (default [] attachments)).
Proof.
  unfold enrichMessageWithDocuments.
  destruct attachments as [atts|]; simpl default.
  2:{ exists []. rewrite app_nil_r. split; [reflexivity|]. split; [constructor|reflexivity]. }
  destruct (Nat.eqb_spec (length atts) 0) as [Hz|Hnz].
  { apply nil_length_inv in Hz. subst atts.
    exists []. rewrite app_nil_r. split; [reflexivity|]. split; [constructor|reflexivity]. }
  pose proof (filter_nil_Forall (fun att => isDocumentAttachment (att_mediaType att)) atts)
    as Hdocs.
  destruct (List.filter (fun att => isDocumentAttachment (att_mediaType att)) atts)
    as [|d docs'].
  - exists []. rewrite app_nil_r. split; [reflexivity|].
    split; [intros _; apply Hdocs; reflexivity|reflexivity].
  - cbn [length Nat.eqb].
    destruct (pushDocumentParts_spec (d :: docs') [messageText]) as (blocks & -> & Hne).
    unfold mbind, Completion_bind, bind. simpl app.
    exists (join [] blocks). split; [rewrite join_empty_separator; reflexivity|].
    split.
    + intros H. exfalso. apply Hne; [discriminate|exact H].
    + intros H. apply Hdocs in H. discriminate H.
Qed.

(** X13. enrichMessageWithDocuments never throws, whatever the extraction
    does, and only appends: its result begins with the message text, and it
    is the message text itself exactly when no attachment is a document. *)
Theorem enrichMessage_appends (messageText : jsstring)
    (attachments : option (list FileAttachment)) :
  exists extra,
    Documents.enrichMessageWithDocuments isDocumentAttachment extractTextFromAttachment
      messageText attachments = Normal (messageText ++ extra) /\
    (extra = [] <->
     Forall (fun att => isDocumentAttachment (att_mediaType att) = false)
       (default [] attachments)).
Proof. exact (enrichMessage_spec messageText attachments). Qed.

Lemma withContent_same (m : ChatMessage) : withContent m (msg_content m) = m.
Proof. destruct m. reflexivity. Qed.

Lemma enrichEach_spec (history : list ChatMessage) :
  forall enriched : list ChatMessage,
  exists out,
    enrichEach isDocumentAttachment extractTextFromAttachment history enriched
      = Normal (enriched ++ out) /\
    Forall2 (fun m m' =>
               (exists extra, m' = withContent m (msg_content m ++ extra)) /\
               (hasDocuments isDocumentAttachment m = false -> m' = m))
      history out.
Proof.
  induction history as [|m rest IH]; intros enriched; simpl.
  - exists []. rewrite app_nil_r. split; [reflexivity|constructor].
  - destruct (hasDocuments isDocumentAttachment m) eqn:Eh.
    + destruct (enrichMessage_spec (msg_content m) (msg_attachments m)) as (extra & -> & _).
      unfold mbind, Completion_bind, bind.
      destruct (IH (enriched ++ [withContent m (msg_content m ++ extra)]))
        as (out & -> & Hout).
      eexists (_ :: out). split; [rewrite <- app_assoc; reflexivity|].
      constructor; [|exact Hout]. split; [exists extra; reflexivity|intros Hf; congruence].
    + destruct (IH (enriched ++ [m])) as (out & -> & Hout).
      exists (m :: out). split; [rewrite <- app_assoc; reflexivity|].
      constructor; [|exact Hout].
      split; [|reflexivity]. exists []. rewrite app_nil_r, withContent_same. reflexivity.
Qed.

Lemma hasDocuments_false (m : ChatMessage) :
  msg_role m <> user \/
  Forall (fun att => isDocumentAttachment (att_mediaType att) = false)
    (default [] (msg_attachments m)) ->
  hasDocuments isDocumentAttachment m = false.
Proof.
  unfold hasDocuments. intros [Hr|Ha].
  - rewrite (bool_decide_eq_false_2 _ Hr). reflexivity.
  - destruct (msg_attachments m) as [atts|]; [|apply andb_false_r].
    simpl in Ha.
    assert (He : existsb (fun att => isDocumentAttachment (att_mediaType att)) atts = false).
    { induction Ha as [|x r Hx _ IH]; simpl; [reflexivity|]. rewrite Hx, IH. reflexivity. }
    rewrite He, !andb_false_r. reflexivity.
Qed.

(** X14. enrichHistoryWithDocuments never throws and keeps the history in
    place: the result has one message for each message of the history, in
    the same order, equal to it in everything but the content, which it
    only extends.  A message that is not a user message, or has no document
    among its attachments, is returned as it is; ids, roles and the number
    of rounds are those of the history. *)
Theorem enrichHistory_preserves (history : list ChatMessage) :
  exists enriched,
    Documents.enrichHistoryWithDocuments isDocumentAttachment extractTextFromAttachment
      history = Normal enriched /\
    Forall2 (fun m m' =>
               (exists extra, m' = Documents.withContent m (msg_content m ++ extra)) /\
               (msg_role m <> user -> m' = m) /\
               (Forall (fun att => isDocumentAttachment (att_mediaType att) = false)
                  (default [] (msg_attachments m)) -> m' = m))
      history enriched /\
    List.map msg_id enriched = List.map msg_id history /\
    List.map msg_role enriched = List.map msg_role history /\
    HistoryFilter.rounds enriched = HistoryFilter.rounds history.
Proof.
  unfold enrichHistoryWithDocuments.
  destruct (enrichEach_spec history []) as (out & -> & Hout).
  exists out. split; [reflexivity|].
  assert (Hrel : Forall2 (fun m m' =>
             (exists extra, m' = withContent m (msg_content m ++ extra)) /\
             (msg_role m <> user -> m' = m) /\
             (Forall (fun att => isDocumentAttachment (att_mediaType att) = false)
                (default [] (msg_attachments m)) -> m' = m)) history out).
  { eapply Forall2_impl; [exact Hout|].
    intros m m' (He & Hsame). split; [exact He|].
    split; intros H; apply Hsame, hasDocuments_false; auto. }
  split; [exact Hrel|].
  clear Hout. induction Hrel as [|m m' h h' ((extra & ->) & _) _ IH].
  - repeat split.
  - destruct IH as (I1 & I2 & I3). simpl. rewrite I1, I2.
    split; [reflexivity|]. split; [reflexivity|].
    unfold HistoryFilter.rounds in *.
    cbn [List.filter].
    change (HistoryFilter.isUser (withContent m (msg_content m ++ extra)))
      with (HistoryFilter.isUser m).
    destruct (HistoryFilter.isUser m); cbn [length]; rewrite I3; reflexivity.
Qed.

End DocumentFacts.


(* ===================================================================== *)
(** ** Titles *)
(* ===================================================================== *)

Section TitleFacts.

Import ChatService JSMore TitleService.

Lemma trimStart_head (s : jsstring) (c : N) (r : jsstring) :
  trimStart s = c :: r -> isWhiteSpace c = false.
Proof.
  induction s as [|a s IH]; simpl; [discriminate|].
  destruct (isWhiteSpace a) eqn:E; [exact IH|].
  intros H. injection H as <- _. exact E.
Qed.

Lemma trimStart_snoc_ink (a : jsstring) (c : N) :
  isWhiteSpace c = false -> exists a', trimStart (a ++ [c]) = a' ++ [c].
Proof.
  intros Hc. induction a as [|x a IH]; simpl.
  - rewrite Hc. exists []. reflexivity.
  - destruct (isWhiteSpace x); [exact IH|].
    exists (x :: a). reflexivity.
Qed.

(** A trimmed string does not begin with white space... *)
Lemma trim_head (s : jsstring) (c : N) (r : jsstring) :
  trim s = c :: r -> isWhiteSpace c = false.
Proof.
  unfold trim, trimEnd.
  destruct (trimStart s) as [|d t] eqn:E; [discriminate|].
  pose proof (trimStart_head _ _ _ E) as Hd.
  destruct (trimStart_snoc_ink (rev t) d Hd) as (a' & Ha).
  simpl rev. rewrite Ha, rev_app_distr. simpl.
  intros H. injection H as <- _. exact Hd.
Qed.

(** ... and does not end with it. *)
Lemma trim_last (s t : jsstring) (c : N) :
  trim s = t ++ [c] -> isWhiteSpace c = false.
Proof.
  unfold trim, trimEnd. intros H.
  apply (f_equal (@rev N)) in H.
  rewrite rev_involutive, rev_app_distr in H. simpl in H.
  exact (trimStart_head _ _ _ H).
Qed.

Lemma take_head (n : nat) (l : jsstring) (c : N) (r : jsstring) :
  take n l = c :: r -> exists r', l = c :: r'.
Proof.
  destruct n, l; simpl; try discriminate.
  intros H. injection H as <- _. eexists. reflexivity.
Qed.

(** What the last [try] block of generateTitle gives. *)
Lemma requestTitle_spec (w : TitleWorld) (input : GenerateTitleInput)
    (channel : Channel) (apiKey : jsstring) :
  exists r,
    requestTitle w input channel apiKey = Normal r /\
    match r with
    | Some t =>
        (length t <= MAX_TITLE_LENGTH)%nat /\
        exists c rest, t = c :: rest /\ isWhiteSpace c = false
    | None => True
    end.
Proof.
  unfold requestTitle, tryCatch, mbind, Completion_bind, bind.
  destruct (tw_getAdapter w (ch_provider channel)) as [build|e];
    [|exists None; split; [reflexivity|exact I]].
  destruct (tw_getEffectiveProxyUrl w) as [[]|e];
    [|exists None; split; [reflexivity|exact I]].
  destruct (tw_fetchTitle w _) as [[title|]|e];
    try (exists None; split; [reflexivity|exact I]).
  destruct (truthy title); simpl;
    [|exists None; split; [reflexivity|exact I]].
  destruct (take MAX_TITLE_LENGTH (trim (stripQuotes (trim title)))) as [|c rest] eqn:E;
    simpl; [exists None; split; [reflexivity|exact I]|].
  exists (Some (c :: rest)). split; [reflexivity|]. split.
  - rewrite <- E, length_take. apply Nat.le_min_l.
  - exists c, rest. split; [reflexivity|].
    destruct (take_head _ _ _ _ E) as (r' & Hr').
    exact (trim_head _ _ _ Hr').
Qed.

(** X15. generateTitle never throws, and a title it returns has at most
    MAX_TITLE_LENGTH (20) code units, whatever the channel store, the key
    store, the adapter, the proxy settings and the provider do. *)
Theorem generateTitle_bounded (w : TitleWorld) (input : GenerateTitleInput) :
  exists r,
    generateTitle w input = Normal r /\
    match r with
    | Some title => (length title <= MAX_TITLE_LENGTH)%nat
    | None => True
    end.
Proof.
  unfold generateTitle.
  destruct (length (trim (gt_userMessage input)) <=? SHORT_MESSAGE_THRESHOLD)%nat.
  - eexists. split; [reflexivity|]. simpl. rewrite length_take. apply Nat.le_min_l.
  - destruct (List.find _ (tw_listChannels w)) as [channel|];
      [|exists None; split; [reflexivity|exact I]].
    destruct (tw_decryptApiKey w (gt_channelId input)) as [apiKey|e];
      [|exists None; split; [reflexivity|exact I]].
    destruct (requestTitle_spec w input channel apiKey) as (r & Hr & Hprop).
    exists r. split; [exact Hr|].
    destruct r as [t|]; [exact (proj1 Hprop)|exact I].
Qed.

(** X16. A message of at most SHORT_MESSAGE_THRESHOLD (4) code units after
    trimming is its own title: generateTitle returns the trimmed message,
    in every world, without looking at the channel, the key or the provider.
    For a message of white space only that title is the empty string. *)
Theorem generateTitle_short (w : TitleWorld) (input : GenerateTitleInput) :
  (length (trim (gt_userMessage input)) <= SHORT_MESSAGE_THRESHOLD)%nat ->
  generateTitle w input = Normal (Some (trim (gt_userMessage input))).
Proof.
  intros Hshort. unfold generateTitle.
  destruct (Nat.leb_spec (length (trim (gt_userMessage input))) SHORT_MESSAGE_THRESHOLD)
    as [_|Hlt]; [|lia].
  rewrite take_ge; [reflexivity|].
  unfold MAX_TITLE_LENGTH, SHORT_MESSAGE_THRESHOLD in *. lia.
Qed.


(** The tail of the Anthropic parseTitleResponse. *)
Lemma titleFromThinking_spec (thinking : JSValue) :
  match AnthropicTitle.titleFromThinking thinking with
  | Normal title => title = VNull \/ toBoolean title = true
  | Throw _ => True
  end.
Proof.
  destruct thinking as [| |b|n|s|items|props];
    unfold AnthropicTitle.titleFromThinking; try exact I.
  destruct (lastElement (splitOn 10 (trim s))) as [line|]; [|left; reflexivity].
  destruct (startsWith (lit "- ") (trim line)) eqn:Es.
  - right. cbn [toBoolean]. rewrite truthy_trim.
    destruct (trim line) as [|a [|b rest]] eqn:Et;
      cbn [startsWith lit List.map list_ascii_of_string] in Es; try discriminate Es.
    + rewrite andb_false_r in Es. discriminate Es.
    + apply andb_prop in Es as [Ha Hb].
      apply andb_prop in Hb as [Hb _].
      apply N.eqb_eq in Ha, Hb. subst a b.
      change (trim line = 45%N :: 32%N :: rest) in Et.
      change (drop 2 (N_of_ascii "-" :: N_of_ascii " " :: rest)) with rest.
      destruct rest as [|x rest'].
      * pose proof (trim_last line [45%N] 32%N Et) as Hc. discriminate Hc.
      * destruct (exists_last (l := x :: rest')) as (t & c & Htc); [discriminate|].
        rewrite Htc in Et |- *.
        pose proof (trim_last line (45%N :: 32%N :: t) c Et) as Hc.
        rewrite forallb_app. simpl. rewrite Hc, andb_false_r. reflexivity.
  - unfold logicalOr. simpl.
    destruct (truthy (trim line)) eqn:Ett; [right; exact Ett|left; reflexivity].
Qed.

(** X18. The Anthropic parseTitleResponse never returns an empty title:
    whatever the response body is, when the function returns, the result is
    [null] or a truthy value.  That holds on the path of the text block, on
    the path of the thinking block, and for a last line of the form
    [- title]. *)
Theorem anthropic_title_never_empty (responseBody : JSValue) :
  match AnthropicTitle.parseTitleResponse responseBody with
  | Normal title => title = VNull \/ toBoolean title = true
  | Throw _ => True
  end.
Proof.
  unfold AnthropicTitle.parseTitleResponse, mbind, Completion_bind, bind.
  destruct (getProp responseBody (lit "content")) as [content|e]; [|exact I].
  destruct (toBoolean content); simpl; [|left; reflexivity].
  destruct (getProp content (lit "length")) as [len|e]; [|exact I].
  destruct (isZero len); [left; reflexivity|].
  destruct (arrayFindByType (lit "text") content) as [textBlock|e]; [|exact I].
  destruct (getPropOpt textBlock (lit "text")) as [text|e]; [|exact I].
  destruct (toBoolean text) eqn:Et; [right; exact Et|].
  destruct (arrayFindByType (lit "thinking") content) as [thinkingBlock|e]; [|exact I].
  destruct (getPropOpt thinkingBlock (lit "thinking")) as [thinking|e]; [|exact I].
  destruct (toBoolean thinking); [|left; reflexivity].
  apply titleFromThinking_spec.
Qed.

Lemma getPropOpt_returns (v : JSValue) (k : jsstring) :
  exists r, getPropOpt v k = Normal r.
Proof.
  unfold getPropOpt.
  destruct v; simpl; try (eexists; reflexivity);
    destruct (streq k (lit "length")); eexists; reflexivity.
Qed.

Lemma getIndex0Opt_returns (v : JSValue) :
  exists r, getIndex0Opt v = Normal r.
Proof.
  unfold getIndex0Opt. destruct v; simpl; eexists; reflexivity.
Qed.

(** X19. The Google parseTitleResponse throws for no body but [null] and
    [undefined]: for every other body it returns, and what it returns is
    never [undefined]: a missing candidate, content, part or text gives
    [null]. *)
Theorem google_title_returns (responseBody : JSValue) :
  isNullish responseBody = false ->
  exists title,
    GoogleTitle.parseTitleResponse responseBody = Normal title /\
    title <> VUndefined.
Proof.
  intros Hbody.
  unfold GoogleTitle.parseTitleResponse, mbind, Completion_bind, bind.
  pose proof (getPropOpt_returns responseBody (lit "candidates")) as (candidates & Hc).
  unfold getPropOpt in Hc. rewrite Hbody in Hc. rewrite Hc.
  destruct (getIndex0Opt_returns candidates) as (candidate & ->).
  destruct (getPropOpt_returns candidate (lit "content")) as (content & ->).
  destruct (getPropOpt_returns content (lit "parts")) as (parts & ->).
  destruct (getIndex0Opt_returns parts) as (part & ->).
  destruct (getPropOpt_returns part (lit "text")) as (text & ->).
  eexists. split; [reflexivity|].
  unfold nullish. destruct text; simpl; discriminate.
Qed.

End TitleFacts.

Section TitleRuns.

Import ChatService TitleService.

Lemma generateTitle_short_witness :
  generateTitle (TitleSamples.answering (lit "A title")) TitleSamples.greeting
  = Normal (Some (trim (gt_userMessage TitleSamples.greeting))).
Proof.
  apply (generateTitle_short (TitleSamples.answering (lit "A title")) TitleSamples.greeting).
  vm_compute. lia.
Defined.


Lemma google_title_returns_witness :
  exists title,
    GoogleTitle.parseTitleResponse (VObject [(lit "candidates", VArray [])]) = Normal title /\
    title <> VUndefined.
Proof.
  apply (google_title_returns (VObject [(lit "candidates", VArray [])])).
  reflexivity.
Defined.

Example generateTitle_strips_quotes :
  generateTitle (TitleSamples.answering (lit " 'Baking bread' ")) TitleSamples.question
  = Normal (Some (lit "Baking bread")).
Proof. vm_compute. reflexivity. Qed.

Example generateTitle_only_quotes :
  generateTitle (TitleSamples.answering (lit " '' ")) TitleSamples.question = Normal None.
Proof. vm_compute. reflexivity. Qed.

End TitleRuns.


(* ===================================================================== *)
(** ** The events of a frame *)
(* ===================================================================== *)

Section FrameFacts.

Import EventShapes.

Variable JSON_parse : jsstring -> Completion JSException JSValue.
Variable JSON_stringify : JSValue -> jsstring.

Lemma strictEqualsString_one (v : JSValue) (a b : jsstring) :
  strictEqualsString v a = true -> a <> b -> strictEqualsString v b = false.
Proof.
  destruct v; simpl; try discriminate.
  unfold streq. rewrite bool_decide_eq_true, bool_decide_eq_false.
  intros -> Hab. exact Hab.
Qed.

(** A truthy [event.delta?.k] is what [event.delta.k] reads. *)
Lemma deltaField_truthy (event : JSValue) (k : string) (v : JSValue) :
  Anthropic.deltaField event k = Normal v ->
  toBoolean v = true ->
  exists delta,
    getProp event (lit "delta") = Normal delta /\ getProp delta (lit k) = Normal v.
Proof.
  unfold Anthropic.deltaField, mbind, Completion_bind, bind.
  destruct (getProp event (lit "delta")) as [delta|e]; [|discriminate].
  unfold getPropOpt. destruct (isNullish delta).
  - intros H. injection H as <-. discriminate.
  - intros H _. exists delta. split; [reflexivity|exact H].
Qed.

Ltac no_events :=
  solve [exists []; split; [reflexivity|]; split; [cbn; lia|once constructor]].

Ltac one_event :=
  solve [eexists; split; [reflexivity|];
         split; [cbn; lia|once constructor; [cbn; auto|once constructor]]].

(** The branches of a content_block_delta frame after the thinking
    delta. *)
Ltac other_deltas event deltaType :=
  let pj := fresh "pj" in
  let text := fresh "text" in
  let e := fresh "e" in
  let delta := fresh "delta" in
  let Epj := fresh "Epj" in
  let Tpj := fresh "Tpj" in
  let Etx := fresh "Etx" in
  let Ttx := fresh "Ttx" in
  destruct (strictEqualsString deltaType (lit "input_json_delta"));
  [ destruct (Anthropic.deltaField event "partial_json") as [pj|e] eqn:Epj;
      [|no_events];
    destruct (toBoolean pj) eqn:Tpj;
      [ destruct (deltaField_truthy _ _ _ Epj Tpj) as (delta & -> & ->); one_event | ]
  | ];
  [> destruct (Anthropic.deltaField event "text") as [text|e] eqn:Etx; [|no_events];
     destruct (toBoolean text) eqn:Ttx; [|no_events];
     destruct (deltaField_truthy _ _ _ Etx Ttx) as (delta & -> & ->); one_event .. ].

(** X20. The Anthropic parseSSELine gives at most one event for a frame,
    whatever the frame holds.  The text an event carries is truthy; a
    tool_call_start has no metadata; a tool_call_delta has the empty string
    for its toolCallId. *)
Theorem anthropic_frame_one_event (jsonLine : jsstring) :
  exists events,
    Anthropic.parseSSELine JSON_parse jsonLine = Normal events /\
    (length events <= 1)%nat /\
    Forall anthropicEvent events.
Proof.
  unfold Anthropic.parseSSELine, Anthropic.parseSSELine_try, tryCatch.
  unfold mbind, Completion_bind, bind.
  destruct (JSON_parse jsonLine) as [event|e]; [|no_events].
  destruct (getProp event (lit "type")) as [type|e]; [|no_events].
  destruct (strictEqualsString type (lit "content_block_start")) eqn:E1.
  - rewrite (strictEqualsString_one _ _ (lit "content_block_delta") E1) by discriminate.
    rewrite (strictEqualsString_one _ _ (lit "message_delta") E1) by discriminate.
    destruct (getProp event (lit "content_block")) as [block|e]; [|no_events].
    destruct (getPropOpt block (lit "type")) as [blockType|e]; [|no_events].
    destruct (strictEqualsString blockType (lit "tool_use")); [|no_events].
    destruct (getProp block (lit "id")) as [id|e]; [|no_events].
    destruct (getProp block (lit "name")) as [name|e]; [|no_events].
    one_event.
  - destruct (strictEqualsString type (lit "content_block_delta")) eqn:E2.
    + rewrite (strictEqualsString_one _ _ (lit "message_delta") E2) by discriminate.
      destruct (Anthropic.deltaField event "type") as [deltaType|e]; [|no_events].
      destruct (strictEqualsString deltaType (lit "thinking_delta")).
      * destruct (Anthropic.deltaField event "thinking") as [thinking|e] eqn:Eth;
          [|no_events].
        destruct (toBoolean thinking) eqn:Tth.
        -- destruct (deltaField_truthy _ _ _ Eth Tth) as (delta & -> & ->). one_event.
        -- other_deltas event deltaType.
      * other_deltas event deltaType.
    + destruct (strictEqualsString type (lit "message_delta")); [|no_events].
      destruct (Anthropic.deltaField event "stop_reason") as [stop|e] eqn:Est; [|no_events].
      destruct (toBoolean stop) eqn:Tst; [|no_events].
      destruct (deltaField_truthy _ _ _ Est Tst) as (delta & -> & ->). one_event.
Qed.

End FrameFacts.


Section GoogleFrameFacts.

Import EventShapes.

Variable JSON_parse : jsstring -> Completion JSException JSValue.
Variable JSON_stringify : JSValue -> jsstring.

Lemma googleEvents_app (a b : list (StreamEvent JSValue)) :
  googleEvents a -> googleEvents b -> googleEvents (a ++ b).
Proof.
  intros Ha Hb. revert Ha.
  induction a as [a IH] using (induction_ltof1 _ (@length _)). unfold ltof in IH.
  destruct a as [|[d|d|id name md|id args|s] rest]; simpl; auto.
  - intros [H1 H2]. split; [exact H1|]. apply IH; [simpl; lia|exact H2].
  - intros [H1 H2]. split; [exact H1|]. apply IH; [simpl; lia|exact H2].
  - destruct rest as [|[d|d|id' name' md'|id' args|s] rest']; simpl; try tauto.
    destruct args; try tauto.
    intros (H1 & H2 & H3). split; [exact H1|]. split; [exact H2|].
    apply IH; [simpl; lia|exact H3].
Qed.

Lemma googleEvents_no_done (events : list (StreamEvent JSValue)) :
  googleEvents events -> Forall (fun ev => isDone ev = false) events.
Proof.
  induction events as [events IH] using (induction_ltof1 _ (@length _)). unfold ltof in IH.
  destruct events as [|[d|d|id name md|id args|s] rest]; simpl.
  - intros _. constructor.
  - intros [_ H]. constructor; [reflexivity|]. apply IH; [simpl; lia|exact H].
  - intros [_ H]. constructor; [reflexivity|]. apply IH; [simpl; lia|exact H].
  - destruct rest as [|[d|d|id' name' md'|id' args|s] rest']; simpl; try tauto.
    destruct args; try tauto.
    intros (_ & _ & H). constructor; [reflexivity|]. constructor; [reflexivity|].
    apply IH; [simpl; lia|exact H].
  - intros [].
  - intros [].
Qed.

Lemma forEachPart_shape (parts : list JSValue) :
  forall events,
    googleEvents events ->
    match Google.forEachPart JSON_stringify parts events with
    | Normal result => googleEvents result
    | Throw _ => True
    end.
Proof.
  induction parts as [|part rest IH]; intros events Hev; simpl; [exact Hev|].
  unfold mbind, Completion_bind, bind.
  destruct (getProp part (lit "functionCall")) as [fc|e]; [|exact I].
  destruct (toBoolean fc).
  - destruct (getProp fc (lit "name")) as [name|e]; [|exact I].
    destruct (getProp part (lit "thoughtSignature")) as [sig|e]; [|exact I].
    destruct (getProp fc (lit "args")) as [args|e]; [|exact I].
    apply IH. rewrite <- app_assoc. apply googleEvents_app; [exact Hev|].
    simpl. tauto.
  - destruct (getProp part (lit "text")) as [text|e]; [|exact I].
    destruct (toBoolean text) eqn:Et; simpl; [|apply IH; exact Hev].
    destruct (getProp part (lit "thought")) as [thought|e]; [|exact I].
    destruct (toBoolean thought); apply IH; apply googleEvents_app; simpl; auto.
Qed.

(** X21. The events the Google parseSSELine gives for a frame, whatever the
    frame holds: chunks and reasoning steps of truthy text, and tool calls,
    each of them a tool_call_start whose toolCallId is the function name
    followed at once by one tool_call_delta of the same id that carries the
    arguments as a string.  No [done] event is among them: the Google parser
    reports no stop reason. *)
Theorem google_frame_events (jsonLine : jsstring) :
  exists events,
    Google.parseSSELine JSON_parse JSON_stringify jsonLine = Normal events /\
    googleEvents events /\
    Forall (fun ev => isDone ev = false) events.
Proof.
  assert (H : exists events,
    Google.parseSSELine JSON_parse JSON_stringify jsonLine = Normal events /\
    googleEvents events).
  { unfold Google.parseSSELine, Google.parseSSELine_try, tryCatch.
    unfold mbind, Completion_bind, bind.
    destruct (JSON_parse jsonLine) as [parsed|e];
      [|exists []; split; [reflexivity|exact I]].
    destruct (getProp parsed (lit "candidates")) as [candidates|e];
      [|exists []; split; [reflexivity|exact I]].
    destruct (getIndex0Opt candidates) as [candidate|e];
      [|exists []; split; [reflexivity|exact I]].
    destruct (getPropOpt candidate (lit "content")) as [content|e];
      [|exists []; split; [reflexivity|exact I]].
    destruct (getPropOpt content (lit "parts")) as [parts|e];
      [|exists []; split; [reflexivity|exact I]].
    destruct (toBoolean parts); simpl;
      [|exists []; split; [reflexivity|exact I]].
    destruct (iterate parts) as [items|e];
      [|exists []; split; [reflexivity|exact I]].
    pose proof (forEachPart_shape items [] I) as Hshape.
    destruct (Google.forEachPart JSON_stringify items []) as [result|e].
    - exists result. split; [reflexivity|exact Hshape].
    - exists []. split; [reflexivity|exact I]. }
  destruct H as (events & Hrun & Hshape).
  exists events. split; [exact Hrun|]. split; [exact Hshape|].
  apply googleEvents_no_done, Hshape.
Qed.

End GoogleFrameFacts.


(* ===================================================================== *)
(** ** The bodies of the stream requests *)
(* ===================================================================== *)

Section StreamRequestFacts.

Import ChatService StreamRequests.

Variable readImageAttachments :
  option (list FileAttachment) -> Completion Thrown (list ImageAttachmentData).

(** What [history.filter(...).map(f)] gives when [f] gives messages of
    the roles [roles] or throws what the reader of the attachments threw. *)
Lemma mapThrowing_roles (roles : list jsstring)
    (f : ChatMessage -> Completion Thrown JSValue) :
  (forall msg,
     match f msg with
     | Normal message => roleIn roles message = true
     | Throw error => exists atts, readImageAttachments atts = Throw error
     end) ->
  forall history,
    match mapThrowing f history with
    | Normal messages =>
        Forall (fun m => roleIn roles m = true) messages /\
        length messages = length history
    | Throw error => exists atts, readImageAttachments atts = Throw error
    end.
Proof.
  intros Hf history. induction history as [|msg rest IH]; simpl.
  - split; [constructor|reflexivity].
  - unfold mbind, Completion_bind, bind. specialize (Hf msg).
    destruct (f msg) as [message|e]; [|exact Hf].
    destruct (mapThrowing f rest) as [messages|e]; [|exact IH].
    destruct IH as [IH1 IH2]. split; [constructor; assumption|].
    simpl. rewrite IH2. reflexivity.
Qed.

Lemma anthropic_historyMessage_role (msg : ChatMessage) :
  match AnthropicStream.historyMessage readImageAttachments msg with
  | Normal message => roleIn [lit "user"; lit "assistant"] message = true
  | Throw error => exists atts, readImageAttachments atts = Throw error
  end.
Proof.
  unfold AnthropicStream.historyMessage, mbind, Completion_bind, bind.
  destruct (hasAttachments msg).
  - destruct (readImageAttachments (msg_attachments msg)) as [images|e] eqn:E;
      [|exists (msg_attachments msg); exact E].
    destruct (msg_role msg); reflexivity.
  - destruct (msg_role msg); reflexivity.
Qed.

Lemma anthropic_continuation_roles (continuationMessages : list ContinuationMessage) :
  forall messages,
    Forall (fun m => roleIn [lit "user"; lit "assistant"] m = true) messages ->
    Forall (fun m => roleIn [lit "user"; lit "assistant"] m = true)
      (AnthropicStream.appendContinuationMessages messages continuationMessages) /\
    length (AnthropicStream.appendContinuationMessages messages continuationMessages)
    = (length messages + length continuationMessages)%nat.
Proof.
  induction continuationMessages as [|contMsg rest IH]; intros messages Hm; simpl.
  - split; [exact Hm|lia].
  - destruct (IH (messages ++ [AnthropicStream.continuationMessage contMsg])) as [H1 H2].
    + apply Forall_app. split; [exact Hm|].
      constructor; [|constructor]. destruct contMsg; reflexivity.
    + split; [exact H1|]. rewrite H2, length_app. simpl. lia.
Qed.

Lemma nonEmpty_default {A : Type} (o : option (list A)) :
  nonEmpty o = false -> default [] o = [].
Proof.
  destruct o as [[|x l]|]; simpl; intros H; try reflexivity. discriminate H.
Qed.

(** X22. The body of an Anthropic stream request.  Its [messages] have
    the roles user and assistant only: the history without its system
    messages, the current user message, and one message for each message
    of the continuation, in that number.  The system message, when there is
    one that is not empty, is the key [system] of the body.  With thinking
    enabled the body asks for a thinking budget of 16384 tokens out of
    32768; otherwise it has no [thinking] key and allows 8192 tokens.  The
    function throws only what the reader of the image attachments threw. *)
Theorem anthropic_stream_body (input : StreamRequestInput) :
  match AnthropicStream.streamRequestBody readImageAttachments input with
  | Normal body =>
      exists messages,
        getProp body (lit "messages") = Normal (VArray messages) /\
        Forall (fun m => roleIn [lit "user"; lit "assistant"] m = true) messages /\
        length messages
        = (length (List.filter notSystem (sri_history input)) + 1
           + length (default [] (sri_continuationMessages input)))%nat /\
        getProp body (lit "system")
        = Normal (if optTruthy (sri_systemMessage input)
                  then VString (default [] (sri_systemMessage input))
                  else VUndefined) /\
        getProp body (lit "max_tokens")
        = Normal (num (if optTrue (sri_thinkingEnabled input) then 32768 else 8192)) /\
        getProp body (lit "thinking")
        = Normal (if optTrue (sri_thinkingEnabled input)
                  then VObject [ (lit "type", str "enabled");
                                 (lit "budget_tokens", num 16384) ]
                  else VUndefined)
  | Throw error => exists atts, readImageAttachments atts = Throw error
  end.
Proof.
  unfold AnthropicStream.streamRequestBody, AnthropicStream.toAnthropicMessages.
  unfold mbind, Completion_bind, bind.
  pose proof (mapThrowing_roles [lit "user"; lit "assistant"] _
                anthropic_historyMessage_role
                (List.filter notSystem (sri_history input))) as Hhist.
  destruct (mapThrowing _ (List.filter notSystem (sri_history input)))
    as [history|e]; [|exact Hhist].
  destruct Hhist as [Hroles Hlen].
  destruct (readImageAttachments (sri_attachments input)) as [images|e] eqn:E;
    [|exists (sri_attachments input); exact E].
  set (current :=
         VObject [ (lit "role", str "user");
                   (lit "content",
                     AnthropicStream.buildMessageContent (sri_userMessage input) images) ]).
  assert (Hcur : Forall (fun m => roleIn [lit "user"; lit "assistant"] m = true)
                   (history ++ [current])).
  { apply Forall_app. split; [exact Hroles|]. constructor; [reflexivity|constructor]. }
  destruct (anthropic_continuation_roles
              (default [] (sri_continuationMessages input)) _ Hcur) as [Hc1 Hc2].
  rewrite length_app, Hlen in Hc2. simpl in Hc2.
  set (messages := if nonEmpty (sri_continuationMessages input) then _ else _).
  assert (Hm1 : Forall (fun m => roleIn [lit "user"; lit "assistant"] m = true) messages).
  { subst messages.
    destruct (nonEmpty (sri_continuationMessages input)); [exact Hc1|exact Hcur]. }
  assert (Hm2 : length messages
                = (length (List.filter notSystem (sri_history input)) + 1
                   + length (default [] (sri_continuationMessages input)))%nat).
  { subst messages.
    destruct (nonEmpty (sri_continuationMessages input)) eqn:En; [exact Hc2|].
    rewrite (nonEmpty_default _ En), length_app, Hlen. simpl. lia. }
  clearbody messages.
  exists messages. unfold optTruthy.
  destruct (sri_thinkingEnabled input) as [[|]|];
    destruct (sri_systemMessage input) as [[|c s]|];
    destruct (nonEmpty (sri_tools input));
    (split; [reflexivity|]; split; [exact Hm1|]; split; [exact Hm2|];
     repeat split; reflexivity).
Qed.

Lemma google_historyContent_role (msg : ChatMessage) :
  match GoogleStream.historyContent readImageAttachments msg with
  | Normal content => roleIn [lit "user"; lit "model"] content = true
  | Throw error => exists atts, readImageAttachments atts = Throw error
  end.
Proof.
  unfold GoogleStream.historyContent, mbind, Completion_bind, bind.
  destruct (hasAttachments msg).
  - destruct (readImageAttachments (msg_attachments msg)) as [images|e] eqn:E;
      [|exists (msg_attachments msg); exact E].
    destruct (msg_role msg); reflexivity.
  - destruct (msg_role msg); reflexivity.
Qed.

Lemma google_continuation_roles (continuationMessages : list ContinuationMessage) :
  forall contents,
    Forall (fun m => roleIn [lit "user"; lit "model"] m = true) contents ->
    Forall (fun m => roleIn [lit "user"; lit "model"] m = true)
      (GoogleStream.appendContinuationMessages contents continuationMessages) /\
    length (GoogleStream.appendContinuationMessages contents continuationMessages)
    = (length contents + length continuationMessages)%nat.
Proof.
  induction continuationMessages as [|contMsg rest IH]; intros contents Hm; simpl.
  - split; [exact Hm|lia].
  - destruct (IH (contents ++ [GoogleStream.continuationContent contMsg])) as [H1 H2].
    + apply Forall_app. split; [exact Hm|].
      constructor; [|constructor]. destruct contMsg; reflexivity.
    + split; [exact H1|]. rewrite H2, length_app. simpl. lia.
Qed.

(** X23. The body of a Google stream request.  Its [contents] have the
    roles user and model only: the history without its system messages, the
    current user message, and one content for each message of the
    continuation, in that number.  The system message, when there is one
    that is not empty, is the [systemInstruction] of the body.  The body
    has a [generationConfig] exactly when thinking is enabled, and then it
    asks for the thoughts with a budget of 16384 tokens.  The function
    throws only what the reader of the image attachments threw. *)
Theorem google_stream_body (input : StreamRequestInput) :
  match GoogleStream.streamRequestBody readImageAttachments input with
  | Normal body =>
      exists contents,
        getProp body (lit "contents") = Normal (VArray contents) /\
        Forall (fun m => roleIn [lit "user"; lit "model"] m = true) contents /\
        length contents
        = (length (List.filter notSystem (sri_history input)) + 1
           + length (default [] (sri_continuationMessages input)))%nat /\
        getProp body (lit "systemInstruction")
        = Normal (if optTruthy (sri_systemMessage input)
                  then VObject
                         [(lit "parts",
                            VArray [VObject [(lit "text",
                                               VString (default [] (sri_systemMessage input)))]])]
                  else VUndefined) /\
        getProp body (lit "generationConfig")
        = Normal (if optTrue (sri_thinkingEnabled input)
                  then VObject
                         [(lit "thinkingConfig",
                            VObject [ (lit "includeThoughts", VBool true);
                                      (lit "thinkingBudget", num 16384) ])]
                  else VUndefined)
  | Throw error => exists atts, readImageAttachments atts = Throw error
  end.
Proof.
  unfold GoogleStream.streamRequestBody, GoogleStream.toGoogleContents.
  unfold mbind, Completion_bind, bind.
  pose proof (mapThrowing_roles [lit "user"; lit "model"] _
                google_historyContent_role
                (List.filter notSystem (sri_history input))) as Hhist.
  destruct (mapThrowing _ (List.filter notSystem (sri_history input)))
    as [history|e]; [|exact Hhist].
  destruct Hhist as [Hroles Hlen].
  destruct (readImageAttachments (sri_attachments input)) as [images|e] eqn:E;
    [|exists (sri_attachments input); exact E].
  set (current :=
         VObject [ (lit "role", str "user");
                   (lit "parts",
                     VArray (GoogleStream.buildMessageParts (sri_userMessage input) images)) ]).
  assert (Hcur : Forall (fun m => roleIn [lit "user"; lit "model"] m = true)
                   (history ++ [current])).
  { apply Forall_app. split; [exact Hroles|]. constructor; [reflexivity|constructor]. }
  destruct (google_continuation_roles
              (default [] (sri_continuationMessages input)) _ Hcur) as [Hc1 Hc2].
  rewrite length_app, Hlen in Hc2. simpl in Hc2.
  set (messages := if nonEmpty (sri_continuationMessages input) then _ else _).
  assert (Hm1 : Forall (fun m => roleIn [lit "user"; lit "model"] m = true) messages).
  { subst messages.
    destruct (nonEmpty (sri_continuationMessages input)); [exact Hc1|exact Hcur]. }
  assert (Hm2 : length messages
                = (length (List.filter notSystem (sri_history input)) + 1
                   + length (default [] (sri_continuationMessages input)))%nat).
  { subst messages.
    destruct (nonEmpty (sri_continuationMessages input)) eqn:En; [exact Hc2|].
    rewrite (nonEmpty_default _ En), length_app, Hlen. simpl. lia. }
  clearbody messages.
  exists messages. unfold optTruthy.
  destruct (sri_thinkingEnabled input) as [[|]|];
    destruct (sri_systemMessage input) as [[|c s]|];
    destruct (nonEmpty (sri_tools input));
    (split; [reflexivity|]; split; [exact Hm1|]; split; [exact Hm2|];
     repeat split; reflexivity).
Qed.

End StreamRequestFacts.


(* ===================================================================== *)
(** ** The MemOS client *)
(* ===================================================================== *)

Section MemosClientFacts.

Import ChatService MemosClient.

Variable request : nat -> Completion Thrown JSValue.

Lemma attemptLoop_spec (remaining : nat) :
  forall attempt lastError made,
    match attemptLoop request remaining attempt lastError made with
    | (Normal answer, total) =>
        exists n,
          (n < remaining)%nat /\ total = (made + S n)%nat /\
          request (attempt + n)%nat = Normal answer /\
          (forall k, (k < n)%nat -> exists e, request (attempt + k)%nat = Throw e)
    | (Throw error, total) =>
        total = (made + remaining)%nat /\
        (forall k, (k < remaining)%nat -> exists e, request (attempt + k)%nat = Throw e) /\
        match remaining with
        | O => error = lastError
        | S last =>
            exists e, request (attempt + last)%nat = Throw e /\ error = Some (asError e)
        end
    end.
Proof.
  induction remaining as [|remaining IH]; intros attempt lastError made; simpl.
  - split; [lia|]. split; [|reflexivity]. intros k Hk. lia.
  - destruct (request attempt) as [answer|err] eqn:Ereq.
    + exists O. split; [lia|]. split; [lia|]. split.
      * rewrite Nat.add_0_r. exact Ereq.
      * intros k Hk. lia.
    + specialize (IH (S attempt) (Some (asError err)) (S made)).
      destruct (attemptLoop request remaining (S attempt) (Some (asError err)) (S made))
        as [[answer|error] total].
      * destruct IH as (n & Hn & Ht & Hr & Hk).
        exists (S n). split; [lia|]. split; [lia|]. split.
        -- rewrite <- Hr. f_equal. lia.
        -- intros k Hlt. destruct k as [|k].
           ++ exists err. rewrite Nat.add_0_r. exact Ereq.
           ++ destruct (Hk k) as (e & He); [lia|]. exists e. rewrite <- He. f_equal. lia.
      * destruct IH as (Ht & Hk & Hlast).
        split; [lia|]. split.
        -- intros k Hlt. destruct k as [|k].
           ++ exists err. rewrite Nat.add_0_r. exact Ereq.
           ++ destruct (Hk k) as (e & He); [lia|]. exists e. rewrite <- He. f_equal. lia.
        -- destruct remaining as [|last].
           ++ exists err. rewrite Nat.add_0_r. split; [exact Ereq|exact Hlast].
           ++ destruct Hlast as (e & He & Herr). exists e. split; [|exact Herr].
              rewrite <- He. f_equal. lia.
Qed.

(** X24. callApi makes no attempt without an API key: it throws
    MEMOS_API_KEY not set.  With a key it makes at least one attempt and at
    most RETRIES + 1 (two); an attempt is made only after the one before it
    failed; the answer is that of the first attempt that succeeds; and when
    all fail, what is thrown is an Error made from the failure of the last
    attempt, the earlier failure being dropped. *)
Theorem callApi_attempts (credentials : MemosCredentials) :
  let result := fst (callApi request credentials) in
  let made := snd (callApi request credentials) in
  if truthy (cred_apiKey credentials) then
    (1 <= made <= S RETRIES)%nat /\
    (forall k, (S k < made)%nat -> exists e, request k = Throw e) /\
    match result with
    | Normal answer => request (made - 1)%nat = Normal answer
    | Throw error =>
        made = S RETRIES /\
        exists e, request RETRIES = Throw e /\ error = Some (asError e)
    end
  else made = O /\ result = Throw (Some (ThrownError API_KEY_NOT_SET)).
Proof.
  unfold callApi.
  destruct (truthy (cred_apiKey credentials)); cbn [negb fst snd]; [|split; reflexivity].
  pose proof (attemptLoop_spec (S RETRIES) 0 None 0) as H.
  destruct (attemptLoop request (S RETRIES) 0 None 0) as [[answer|error] total];
    cbn [fst snd].
  - destruct H as (n & Hn & Ht & Hr & Hk). simpl in Ht, Hr. subst total.
    split; [lia|]. split.
    + intros k Hlt. apply (Hk k). lia.
    + replace (S n - 1)%nat with n by lia. exact Hr.
  - destruct H as (Ht & Hk & e & He & Herr). simpl in Ht, He. subst total.
    split; [lia|]. split.
    + intros k Hlt. apply (Hk k). lia.
    + split; [reflexivity|]. exists e. split; [exact He|exact Herr].
Qed.

End MemosClientFacts.
